(** * dnsfserv: files over DNS

    A shallow embedding of the server handler (dnsfserv.go) and of the
    client library (dnsfservget: dnsfservget.go, doh.go, querier.go),
    together with the parts of the Go standard library they call.

    Conventions.
    - A Go [string] is a [String.string]: a sequence of 8-bit characters.
      A Go [[]byte] is a [list ascii]; a byte's value is [N_of_ascii].
    - Go's [uint64] (and [uint], taken as 64 bits wide) is a [Z] in
      [0, 2^64), with wrap-around written as [mod 2^64].
    - A Go function returning [(v, err)] returns a [result]; where Go
      returns both a value and an error that the caller inspects, the
      model returns a pair.
    - Logging is not modelled: [log.Printf] has no effect on what the
      programs open, send or return. *)

From Stdlib Require Import Bool List ZArith NArith Lia.
From Stdlib Require Import Strings.Ascii Strings.String.
Import ListNotations.

Local Open Scope string_scope.
Local Open Scope list_scope.
Local Open Scope Z_scope.

(** ** Results and bytes *)

Inductive result (A E : Type) : Type :=
| Ok (a : A)
| Err (e : E).
Arguments Ok {A E} a.
Arguments Err {A E} e.

Definition byteZ (c : ascii) : Z := Z.of_N (N_of_ascii c).
Definition Zbyte (z : Z) : ascii := ascii_of_N (Z.to_N (z mod 256)).

Definition uint64_max : Z := 2 ^ 64 - 1.
Definition wrap64 (z : Z) : Z := z mod 2 ^ 64.

(** [lenZ s] is Go's [len(s)] for a string, [llenZ] for a slice. *)
Definition lenZ (s : string) : Z := Z.of_nat (String.length s).
Definition llenZ {A} (l : list A) : Z := Z.of_nat (List.length l).

(** [s[n:]] and [s[:n]] on strings. *)
Fixpoint drop (n : nat) (s : string) : string :=
  match n, s with
  | O, _ => s
  | S _, EmptyString => EmptyString
  | S k, String _ t => drop k t
  end.

Fixpoint take (n : nat) (s : string) : string :=
  match n, s with
  | O, _ => EmptyString
  | S _, EmptyString => EmptyString
  | S k, String c t => String c (take k t)
  end.

(** [inRange lo hi c] is Go's [lo <= c && c <= hi] on bytes. *)
Definition inRange (lo hi c : ascii) : bool :=
  (byteZ lo <=? byteZ c) && (byteZ c <=? byteZ hi).

(** ** package strings *)

Module GoStrings.

Fixpoint mapBytes (f : ascii -> ascii) (s : string) : string :=
  match s with
  | EmptyString => EmptyString
  | String c t => String (f c) (mapBytes f t)
  end.

Fixpoint allBytes (p : ascii -> bool) (s : string) : bool :=
  match s with
  | EmptyString => true
  | String c t => p c && allBytes p t
  end.

(** [c < utf8.RuneSelf] *)
Definition isASCIIByte (c : ascii) : bool := byteZ c <? 128.
Definition isASCII (s : string) : bool := allBytes isASCIIByte s.

(** The body of the ASCII loop of [ToLower]:
    [if 'A' <= c && c <= 'Z' { c += 'a' - 'A' }]. *)
Definition lowerByte (c : ascii) : ascii :=
  if inRange "A" "Z" c then Zbyte (byteZ c + 32) else c.

(** [strings.ToLower].  An ASCII-only string is mapped byte by byte (when
    it has no upper-case letter Go returns it as it is, which is the
    same string).  Any other string goes through
    [strings.Map(unicode.ToLower, s)], which is Unicode's table and is
    taken as the parameter [unicodeLower]. *)
Definition ToLower (unicodeLower : string -> string) (s : string) : string :=
  if isASCII s then mapBytes lowerByte s else unicodeLower s.

(** [strings.SplitN(s, sep, 2)] for a one-byte separator: the text before
    the first [sep] and the text after it, or [s] alone when [sep] does
    not occur.  [cut] is the search for the first separator. *)
Fixpoint cut (sep : ascii) (s : string) : option (string * string) :=
  match s with
  | EmptyString => None
  | String c t =>
      if Ascii.eqb c sep then Some (EmptyString, t)
      else match cut sep t with
           | Some (a, b) => Some (String c a, b)
           | None => None
           end
  end.

Definition SplitN2 (s : string) (sep : ascii) : list string :=
  match cut sep s with
  | Some (a, b) => [a; b]
  | None => [s]
  end.

(** [strings.Split(s, sep)] for a one-byte separator. *)
Fixpoint Split (s : string) (sep : ascii) : list string :=
  match s with
  | EmptyString => [EmptyString]
  | String c t =>
      if Ascii.eqb c sep then EmptyString :: Split t sep
      else match Split t sep with
           | e :: es => String c e :: es
           | [] => [String c EmptyString]
           end
  end.

(** [strings.Join(elems, sep)] *)
Definition Join (elems : list string) (sep : string) : string :=
  String.concat sep elems.

(** [strings.HasSuffix(s, ".")] *)
Fixpoint endsWith (c : ascii) (s : string) : bool :=
  match s with
  | EmptyString => false
  | String a EmptyString => Ascii.eqb a c
  | String _ t => endsWith c t
  end.

End GoStrings.

(** ** package strconv, base 36 *)

Module Strconv.

Inductive NumError := ErrSyntax | ErrRange.

(** [digits[d]] in ["0123456789abcdefghijklmnopqrstuvwxyz"] *)
Definition digitChar (d : Z) : ascii :=
  if d <? 10 then Zbyte (byteZ "0" + d) else Zbyte (byteZ "a" + (d - 10)).

(** The general case of [formatBits]: digits are produced from the least
    significant one while [u >= base], then the leading digit.  A 64-bit
    value has at most 13 digits in base 36, so 64 rounds always reach the
    leading digit. *)
Fixpoint formatBits (rounds : nat) (u : Z) (acc : string) : string :=
  match rounds with
  | O => acc
  | S r =>
      if u <? 36 then String (digitChar u) acc
      else formatBits r (u / 36) (String (digitChar (u mod 36)) acc)
  end.

(** [strconv.FormatUint(u, 36)] *)
Definition FormatUint36 (u : Z) : string := formatBits 64 u EmptyString.

(** [lower(c)] is [c | ('x' - 'X')]: the byte with bit 5 set. *)
Definition lower (c : ascii) : ascii := Zbyte (Z.lor (byteZ c) 32).

(** The value of one digit, or [None] for a syntax error
    ([d >= byte(base)] cannot happen in base 36). *)
Definition digitVal (c : ascii) : option Z :=
  if inRange "0" "9" c then Some (byteZ c - byteZ "0")
  else if inRange "a" "z" (lower c) then Some (byteZ (lower c) - byteZ "a" + 10)
  else None.

(** [cutoff] is the smallest number such that [cutoff*base > maxUint64]. *)
Definition cutoff : Z := uint64_max / 36 + 1.

(** The loop of [ParseUint] with [base = 36], [bitSize = 64]. *)
Fixpoint parseLoop (n : Z) (s : string) : result Z NumError :=
  match s with
  | EmptyString => Ok n
  | String c t =>
      match digitVal c with
      | None => Err ErrSyntax
      | Some d =>
          if n >=? cutoff then Err ErrRange
          else
            let n' := wrap64 (n * 36) in
            let n1 := wrap64 (n' + d) in
            if (n1 <? n') || (n1 >? uint64_max) then Err ErrRange
            else parseLoop n1 t
      end
  end.

(** [strconv.ParseUint(s, 36, 64)] *)
Definition ParseUint36 (s : string) : result Z NumError :=
  match s with
  | EmptyString => Err ErrSyntax
  | _ => parseLoop 0 s
  end.

End Strconv.

(** ** package path/filepath (Unix: the separator is [/], no volume names)

    [Clean] is modelled element by element, following its documented
    rules: (1) multiple separators count as one, (2) each [.] element is
    dropped, (3) each inner [..] element is dropped together with the
    non-[..] element before it, (4) [..] elements that begin a rooted path
    are dropped; the result is ["."] when nothing is left.  Go's
    implementation makes one pass over the bytes of the path, writing into
    a buffer and backing up over the last element written at a [..]; the
    model keeps the written elements as a list, last element first. *)

Module Filepath.

Definition isRooted (path : string) : bool :=
  match path with
  | String c _ => Ascii.eqb c "/"
  | EmptyString => false
  end.

(** One element of the path against the elements written so far. *)
Definition step (rooted : bool) (out : list string) (e : string) : list string :=
  if String.eqb e "" then out
  else if String.eqb e "." then out
  else if String.eqb e ".." then
    match out with
    | top :: below =>
        if String.eqb top ".." then (if rooted then out else e :: out)
        else below
    | [] => if rooted then out else [e]
    end
  else e :: out.

Definition elements (path : string) : list string :=
  fold_left (step (isRooted path)) (GoStrings.Split path "/") [].

Definition render (rooted : bool) (out : list string) : string :=
  if rooted then "/" ++ GoStrings.Join (rev out) "/"
  else match out with
       | [] => "."
       | _ => GoStrings.Join (rev out) "/"
       end.

(** [filepath.Clean] *)
Definition Clean (path : string) : string :=
  match path with
  | EmptyString => "."
  | _ => render (isRooted path) (elements path)
  end.

(** [filepath.Join]: empty elements before the first non-empty one are
    ignored, the rest is joined with separators and cleaned. *)
Fixpoint Join (elem : list string) : string :=
  match elem with
  | [] => ""
  | e :: rest =>
      if String.eqb e "" then Join rest else Clean (GoStrings.Join elem "/")
  end.

End Filepath.

(** ** package encoding/base64: [RawStdEncoding] (no padding, not strict) *)

Module Base64.

Definition encodeStd : string :=
  "ABCDEFGHIJKLMNOPQRSTUVWXYZabcdefghijklmnopqrstuvwxyz0123456789+/".

(** [enc.encode[v]] *)
Definition encodeChar (v : Z) : ascii :=
  match String.get (Z.to_nat v) encodeStd with
  | Some c => c
  | None => "000"%char
  end.

Fixpoint indexOf (c : ascii) (s : string) (i : Z) : option Z :=
  match s with
  | EmptyString => None
  | String a t => if Ascii.eqb a c then Some i else indexOf c t (i + 1)
  end.

(** [enc.decodeMap[c]], with [None] for the entry [0xff]. *)
Definition decodeMap (c : ascii) : option Z := indexOf c encodeStd 0.

(** [Encode]: three bytes give four characters; a last block of one or
    two bytes gives two or three characters and no padding. *)
Fixpoint Encode (src : list ascii) : string :=
  match src with
  | [] => ""
  | [a] =>
      let val := Z.shiftl (byteZ a) 16 in
      String (encodeChar (Z.land (Z.shiftr val 18) 63))
        (String (encodeChar (Z.land (Z.shiftr val 12) 63)) "")
  | [a; b] =>
      let val := Z.lor (Z.shiftl (byteZ a) 16) (Z.shiftl (byteZ b) 8) in
      String (encodeChar (Z.land (Z.shiftr val 18) 63))
        (String (encodeChar (Z.land (Z.shiftr val 12) 63))
           (String (encodeChar (Z.land (Z.shiftr val 6) 63)) ""))
  | a :: b :: c :: rest =>
      let val := Z.lor (Z.lor (Z.shiftl (byteZ a) 16) (Z.shiftl (byteZ b) 8))
                       (byteZ c) in
      String (encodeChar (Z.land (Z.shiftr val 18) 63))
        (String (encodeChar (Z.land (Z.shiftr val 12) 63))
           (String (encodeChar (Z.land (Z.shiftr val 6) 63))
              (String (encodeChar (Z.land val 63)) (Encode rest))))
  end.

(** [EncodeToString] *)
Definition EncodeToString (src : list ascii) : string := Encode src.

(** [DecodedLen(n)] without padding: [n * 6 / 8]. *)
Definition DecodedLen (n : Z) : Z := n * 6 / 8.

(** The three bytes of a quantum of four 6-bit values. *)
Definition quantum (d0 d1 d2 d3 : Z) : Z :=
  Z.lor (Z.lor (Z.lor (Z.shiftl d0 18) (Z.shiftl d1 12)) (Z.shiftl d2 6)) d3.
Definition qbyte0 (val : Z) : ascii := Zbyte (Z.shiftr val 16).
Definition qbyte1 (val : Z) : ascii := Zbyte (Z.shiftr val 8).
Definition qbyte2 (val : Z) : ascii := Zbyte val.

(** [Decode]: the bytes decoded and, on corrupt input, the offset that
    [CorruptInputError] reports.  [si] is the index of the next source
    byte and [dbuf] holds the 6-bit values of the quantum being read.
    Line feeds and carriage returns are skipped; any other byte outside
    the alphabet is an error; input ending after one character of a
    quantum is an error, after two or three it yields one or two bytes.
    An error discards the quantum it occurs in. *)
Fixpoint decodeFrom (src : list ascii) (si : Z) (dbuf : list Z)
  : list ascii * option Z :=
  match src with
  | [] =>
      match dbuf with
      | [] => ([], None)
      | [d0; d1] => ([qbyte0 (quantum d0 d1 0 0)], None)
      | [d0; d1; d2] =>
          let val := quantum d0 d1 d2 0 in ([qbyte0 val; qbyte1 val], None)
      | _ => ([], Some (si - 1))
      end
  | c :: rest =>
      match decodeMap c with
      | Some v =>
          match dbuf with
          | [d0; d1; d2] =>
              let val := quantum d0 d1 d2 v in
              let (bs, e) := decodeFrom rest (si + 1) [] in
              (qbyte0 val :: qbyte1 val :: qbyte2 val :: bs, e)
          | _ => decodeFrom rest (si + 1) (dbuf ++ [v])
          end
      | None =>
          if Ascii.eqb c "010" || Ascii.eqb c "013"
          then decodeFrom rest (si + 1) dbuf
          else ([], Some si)
      end
  end.

Definition Decode (src : list ascii) : list ascii * option Z :=
  decodeFrom src 0 [].

End Base64.

(** ** package net: IP addresses and their text form

    An [IP] is a byte slice of length 4 or 16.  [ParseIP] follows the
    parser of the Go releases of 2020 ([parseIPv4], [parseIPv6], [dtoi],
    [xtoi]); later releases also refuse leading zeroes in an IPv4 field,
    which no address printed by [String] has. *)

Module Net.

Definition IP := list ascii.

Definition IPv4len : nat := 4.
Definition IPv6len : nat := 16.

Definition zeroByte : ascii := "000"%char.
Definition ffByte : ascii := "255"%char.

Definition v4InV6Prefix : list ascii :=
  repeat zeroByte 10 ++ [ffByte; ffByte].

(** [net.IPv4(a, b, c, d)]: the 16-byte form of an IPv4 address. *)
Definition IPv4 (a b c d : ascii) : IP := v4InV6Prefix ++ [a; b; c; d].

Definition isZeros (p : list ascii) : bool :=
  forallb (fun c => Ascii.eqb c zeroByte) p.

(** [ip.To4()]; [None] is Go's [nil]. *)
Definition To4 (ip : IP) : option IP :=
  if Nat.eqb (List.length ip) IPv4len then Some ip
  else if Nat.eqb (List.length ip) IPv6len
          && isZeros (firstn 10 ip)
          && Ascii.eqb (nth 10 ip zeroByte) ffByte
          && Ascii.eqb (nth 11 ip zeroByte) ffByte
       then Some (firstn 4 (skipn 12 ip))
       else None.

(** [ip.To16()] *)
Definition To16 (ip : IP) : option IP :=
  match ip with
  | [a; b; c; d] => Some (IPv4 a b c d)
  | _ => if Nat.eqb (List.length ip) IPv6len then Some ip else None
  end.

(** *** Printing *)

(** [ubtoa]: a byte in decimal. *)
Definition digit10 (v : Z) : ascii := Zbyte (v + byteZ "0").

Definition ubtoa (v : Z) : string :=
  if v <? 10 then String (digit10 v) ""
  else if v <? 100 then String (digit10 (v / 10)) (String (digit10 (v mod 10)) "")
  else String (digit10 (v / 100))
         (String (digit10 ((v / 10) mod 10)) (String (digit10 (v mod 10)) "")).

Definition hexDigit : string := "0123456789abcdef".

Definition hexChar (v : Z) : ascii :=
  match String.get (Z.to_nat v) hexDigit with
  | Some c => c
  | None => zeroByte
  end.

(** The loop of [appendHex], from nibble [j - 1] down to nibble 0: a
    nibble is printed when the value shifted down to it is not zero. *)
Fixpoint hexFrom (j : nat) (i : Z) : string :=
  match j with
  | O => ""
  | S k =>
      let v := Z.shiftr i (4 * Z.of_nat k) in
      (if v >? 0 then String (hexChar (Z.land v 15)) "" else "") ++ hexFrom k i
  end.

(** [appendHex(dst, i)], as the text appended. *)
Definition appendHex (i : Z) : string :=
  if i =? 0 then "0" else hexFrom 8 i.

(** [hexString(b)]: two digits a byte. *)
Fixpoint hexString (b : list ascii) : string :=
  match b with
  | [] => ""
  | c :: t =>
      String (hexChar (Z.shiftr (byteZ c) 4))
        (String (hexChar (Z.land (byteZ c) 15)) (hexString t))
  end.

(** The eight 16-bit groups [(p[i] << 8) | p[i+1]] of a 16-byte address.
    The loops of [String] move through the address two bytes at a time;
    the model moves through the groups, so its indices are Go's divided
    by two.  A group is zero exactly when both its bytes are. *)
Fixpoint groups (p : list ascii) : list Z :=
  match p with
  | hi :: lo :: t => Z.lor (Z.shiftl (byteZ hi) 8) (byteZ lo) :: groups t
  | _ => []
  end.

Definition group (gs : list Z) (i : Z) : Z := nth (Z.to_nat i) gs 0.

(** [for j < IPv6len && p[j] == 0 && p[j+1] == 0 { j += 2 }] *)
Fixpoint zeroRunEnd (fuel : nat) (gs : list Z) (j : Z) : Z :=
  match fuel with
  | O => j
  | S f =>
      if (j <? 8) && (group gs j =? 0) then zeroRunEnd f gs (j + 1) else j
  end.

(** The search for the longest run of zero groups: [(e0, e1)]. *)
Fixpoint longestRun (fuel : nat) (gs : list Z) (i e0 e1 : Z) : Z * Z :=
  match fuel with
  | O => (e0, e1)
  | S f =>
      if i <? 8 then
        let j := zeroRunEnd 8 gs i in
        if (j >? i) && (j - i >? e1 - e0)
        then longestRun f gs (j + 1) i j
        else longestRun f gs (i + 1) e0 e1
      else (e0, e1)
  end.

(** The printing loop, with [::] in place of the run [e0 .. e1). *)
Fixpoint printGroups (fuel : nat) (gs : list Z) (i e0 e1 : Z) : string :=
  match fuel with
  | O => ""
  | S f =>
      if i <? 8 then
        if i =? e0 then
          "::" ++ (if e1 >=? 8 then ""
                   else appendHex (group gs e1) ++ printGroups f gs (e1 + 1) e0 e1)
        else
          (if i >? 0 then ":" else "")
            ++ appendHex (group gs i) ++ printGroups f gs (i + 1) e0 e1
      else ""
  end.

Definition stringGroups (gs : list Z) : string :=
  let (e0, e1) := longestRun 8 gs 0 (-1) (-1) in
  (* "::" is not used to shorten a single zero group *)
  let (e0, e1) := if e1 - e0 <=? 1 then (-1, -1) else (e0, e1) in
  printGroups 8 gs 0 e0 e1.

Definition stringV6 (p : list ascii) : string := stringGroups (groups p).

Definition stringV4 (p4 : list ascii) : string :=
  match p4 with
  | [a; b; c; d] =>
      ubtoa (byteZ a) ++ "." ++ ubtoa (byteZ b) ++ "."
        ++ ubtoa (byteZ c) ++ "." ++ ubtoa (byteZ d)
  | _ => ""
  end.

(** [ip.String()] *)
Definition String_ (ip : IP) : string :=
  match ip with
  | [] => "<nil>"
  | _ =>
      match To4 ip with
      | Some p4 => stringV4 p4
      | None =>
          if Nat.eqb (List.length ip) IPv6len then stringV6 ip
          else "?" ++ hexString ip
      end
  end.

(** *** Parsing *)

Definition big : Z := 16777215.

(** [dtoi]: number, characters consumed, success. *)
Fixpoint dtoiLoop (s : string) (n : Z) (i : nat) : Z * nat * bool :=
  match s with
  | String c t =>
      if inRange "0" "9" c then
        let n' := n * 10 + (byteZ c - byteZ "0") in
        if n' >=? big then (big, i, false) else dtoiLoop t n' (S i)
      else if Nat.eqb i 0 then (0, 0%nat, false) else (n, i, true)
  | EmptyString => if Nat.eqb i 0 then (0, 0%nat, false) else (n, i, true)
  end.

Definition dtoi (s : string) : Z * nat * bool := dtoiLoop s 0 0.

(** [xtoi]: number, characters consumed, success. *)
Definition hexVal (c : ascii) : option Z :=
  if inRange "0" "9" c then Some (byteZ c - byteZ "0")
  else if inRange "a" "f" c then Some (byteZ c - byteZ "a" + 10)
  else if inRange "A" "F" c then Some (byteZ c - byteZ "A" + 10)
  else None.

Fixpoint xtoiLoop (s : string) (n : Z) (i : nat) : Z * nat * bool :=
  match s with
  | String c t =>
      match hexVal c with
      | Some d =>
          let n' := n * 16 + d in
          if n' >=? big then (0, i, false) else xtoiLoop t n' (S i)
      | None => if Nat.eqb i 0 then (0, i, false) else (n, i, true)
      end
  | EmptyString => if Nat.eqb i 0 then (0, i, false) else (n, i, true)
  end.

Definition xtoi (s : string) : Z * nat * bool := xtoiLoop s 0 0.

(** [parseIPv4]: the four bytes, before [IPv4(...)] is applied. *)
Fixpoint parseIPv4Loop (todo : nat) (first : bool) (s : string)
  : option (list ascii) :=
  match todo with
  | O => match s with EmptyString => Some [] | _ => None end
  | S k =>
      match s with
      | EmptyString => None
      | String c t =>
          let s1 := if first then Some s
                    else if Ascii.eqb c "." then Some t else None in
          match s1 with
          | None => None
          | Some s1 =>
              match dtoi s1 with
              | (n, cnt, ok) =>
                  if negb ok || (n >? 255) then None
                  else match parseIPv4Loop k false (drop cnt s1) with
                       | Some p => Some (Zbyte n :: p)
                       | None => None
                       end
              end
          end
      end
  end.

Definition parseIPv4 (s : string) : option IP :=
  match parseIPv4Loop 4 true s with
  | Some [a; b; c; d] => Some (IPv4 a b c d)
  | _ => None
  end.

Definition startsWith (c : ascii) (s : string) : bool :=
  match s with
  | String a _ => Ascii.eqb a c
  | EmptyString => false
  end.

(** [ip[i] = byte(n >> 8); ip[i+1] = byte(n)] *)
Definition groupBytes (n : Z) : list ascii := [Zbyte (Z.shiftr n 8); Zbyte n].

(** The main loop of [parseIPv6].  [ip] holds the bytes written so far
    (Go's [ip[:i]]), [ellipsis] the position of [::] or [-1].  The result
    is the bytes written, the ellipsis and the text left over. *)
Fixpoint parseIPv6Loop (fuel : nat) (s : string) (ip : list ascii)
  (ellipsis : Z) : option (list ascii * Z * string) :=
  match fuel with
  | O => Some (ip, ellipsis, s)
  | S f =>
      if Nat.ltb (List.length ip) IPv6len then
        match xtoi s with
        | (n, c, ok) =>
            if negb ok || (n >? 65535) then None
            else if startsWith "." (drop c s) then
              (* a trailing IPv4 address *)
              if (ellipsis <? 0)
                 && negb (Nat.eqb (List.length ip) (IPv6len - IPv4len)) then None
              else if Nat.ltb IPv6len (List.length ip + IPv4len) then None
              else match parseIPv4 s with
                   | None => None
                   | Some ip4 => Some (ip ++ skipn 12 ip4, ellipsis, "")
                   end
            else
              let ip := ip ++ groupBytes n in
              match drop c s with
              | EmptyString => Some (ip, ellipsis, "")
              | String c0 s1 =>
                  if negb (Ascii.eqb c0 ":") then None
                  else match s1 with
                       | EmptyString => None
                       | String c1 s2 =>
                           if Ascii.eqb c1 ":" then
                             if ellipsis >=? 0 then None
                             else match s2 with
                                  | EmptyString => Some (ip, llenZ ip, "")
                                  | _ => parseIPv6Loop f s2 ip (llenZ ip)
                                  end
                           else parseIPv6Loop f s1 ip ellipsis
                       end
              end
        end
      else Some (ip, ellipsis, s)
  end.

(** The end of [parseIPv6]: the whole text must have been used, and an
    address that is too short has its ellipsis expanded into zero
    bytes. *)
Definition finishIPv6 (r : option (list ascii * Z * string)) : option IP :=
  match r with
  | None => None
  | Some (ip, ellipsis, rest) =>
      match rest with
      | String _ _ => None
      | EmptyString =>
          if Nat.ltb (List.length ip) IPv6len then
            if ellipsis <? 0 then None
            else
              let e := Z.to_nat ellipsis in
              Some (firstn e ip
                      ++ repeat zeroByte (IPv6len - List.length ip)
                      ++ skipn e ip)
          else if ellipsis >=? 0 then None
          else Some ip
      end
  end.

(** [len(s) >= 2 && s[0] == ':' && s[1] == ':'] *)
Definition leadingEllipsis (s : string) : bool :=
  match s with
  | String c0 (String c1 _) => Ascii.eqb c0 ":" && Ascii.eqb c1 ":"
  | _ => false
  end.

(** [parseIPv6] *)
Definition parseIPv6 (s : string) : option IP :=
  (* Might have leading ellipsis *)
  if leadingEllipsis s then
    match drop 2 s with
    | EmptyString =>
        (* Might be only ellipsis *)
        Some (repeat zeroByte IPv6len)
    | s => finishIPv6 (parseIPv6Loop 9 s [] 0)
    end
  else finishIPv6 (parseIPv6Loop 9 s [] (-1)).

(** [net.ParseIP]: the first [.] or [:] decides the family. *)
Fixpoint parseIPScan (s whole : string) : option IP :=
  match s with
  | EmptyString => None
  | String c t =>
      if Ascii.eqb c "." then parseIPv4 whole
      else if Ascii.eqb c ":" then parseIPv6 whole
      else parseIPScan t whole
  end.

Definition ParseIP (s : string) : option IP := parseIPScan s s.

End Net.

(** ** package golang.org/x/net/dns/dnsmessage

    Messages are modelled as the structures the programs read and build.
    Turning a packet into a [Message] ([Message.Unpack]) and a [Message]
    with resource records back into a packet ([Message.AppendPack]) is
    the library's work and is taken as a parameter where a program calls
    it.  Packing a message that holds nothing but questions is small
    enough to write out, and [AppendQuery] needs no more. *)

Module Dnsmessage.

(** [Type], [Class] and [RCode] are 16-bit numbers. *)
Definition TypeA : Z := 1.
Definition TypeTXT : Z := 16.
Definition TypeAAAA : Z := 28.

Definition ClassINET : Z := 1.

Definition RCodeSuccess : Z := 0.
Definition RCodeFormatError : Z := 1.
Definition RCodeServerFailure : Z := 2.
Definition RCodeNameError : Z := 3.
Definition RCodeNotImplemented : Z := 4.
Definition RCodeRefused : Z := 5.

Record Header : Type := mkHeader {
  hID : Z;
  hResponse : bool;
  hOpCode : Z;
  hAuthoritative : bool;
  hTruncated : bool;
  hRecursionDesired : bool;
  hRecursionAvailable : bool;
  hRCode : Z
}.

(** A [Name] is its text, [Data[:Length]]: labels each followed by a dot. *)
Record Question : Type := mkQuestion {
  qName : string;
  qType : Z;
  qClass : Z
}.

Record ResourceHeader : Type := mkResourceHeader {
  rhName : string;
  rhType : Z;
  rhClass : Z;
  rhTTL : Z
}.

(** The bodies the programs build or look at; every other body is
    [OtherResource], and [NoBody] is a nil [Body]. *)
Inductive ResourceBody : Type :=
| AResource (A : list ascii)
| AAAAResource (AAAA : list ascii)
| TXTResource (TXT : list string)
| OtherResource
| NoBody.

Record Resource : Type := mkResource {
  rHeader : ResourceHeader;
  rBody : ResourceBody
}.

Record Message : Type := mkMessage {
  mHeader : Header;
  mQuestions : list Question;
  mAnswers : list Resource;
  mAuthorities : list Resource;
  mAdditionals : list Resource
}.

Definition zeroHeader : Header :=
  mkHeader 0 false 0 false false false false RCodeSuccess.

(** [printUint16]: a 16-bit number in decimal. *)
Fixpoint printDec (rounds : nat) (u : Z) (acc : string) : string :=
  match rounds with
  | O => acc
  | S r =>
      if u <? 10 then String (Zbyte (byteZ "0" + u)) acc
      else printDec r (u / 10) (String (Zbyte (byteZ "0" + u mod 10)) acc)
  end.

Definition printUint16 (u : Z) : string := printDec 5 u "".

(** [RCode.String()]: the name of the code, or the number of a code
    that has no name. *)
Definition RCodeString (rc : Z) : string :=
  if rc =? 0 then "RCodeSuccess"
  else if rc =? 1 then "RCodeFormatError"
  else if rc =? 2 then "RCodeServerFailure"
  else if rc =? 3 then "RCodeNameError"
  else if rc =? 4 then "RCodeNotImplemented"
  else if rc =? 5 then "RCodeRefused"
  else printUint16 rc.

Inductive PackError : Type :=
| errCalcLen
| errNonCanonicalName
| errSegTooLong
| errZeroSegLen.

(** [NewName]: at most 255 bytes. *)
Definition NewName (name : string) : result string PackError :=
  if lenZ name >? 255 then Err errCalcLen else Ok name.

Definition packUint16 (v : Z) : list ascii :=
  [Zbyte (Z.shiftr v 8); Zbyte v].

(** [Header.pack]: the flag bits. *)
Definition headerBits (h : Header) : Z :=
  let bits := Z.lor (Z.shiftl (hOpCode h) 11) (hRCode h) in
  let bits := if hRecursionAvailable h then Z.lor bits (Z.shiftl 1 7) else bits in
  let bits := if hRecursionDesired h then Z.lor bits (Z.shiftl 1 8) else bits in
  let bits := if hTruncated h then Z.lor bits (Z.shiftl 1 9) else bits in
  let bits := if hAuthoritative h then Z.lor bits (Z.shiftl 1 10) else bits in
  if hResponse h then Z.lor bits (Z.shiftl 1 15) else bits.

(** The labels of [Name.pack]: each text before a dot is written with its
    length in front; a label is 1 to 63 bytes long. *)
Fixpoint packLabels (labels : list string) : result (list ascii) PackError :=
  match labels with
  | [] => Ok [Zbyte 0]
  | l :: rest =>
      if lenZ l >=? 64 then Err errSegTooLong
      else if lenZ l =? 0 then Err errZeroSegLen
      else match packLabels rest with
           | Ok bs => Ok (Zbyte (lenZ l) :: list_ascii_of_string l ++ bs)
           | Err e => Err e
           end
  end.

(** [Name.pack] for the first name of a message, where nothing can be
    compressed yet: no suffix of one name equals another of its
    suffixes. *)
Definition packName (name : string) : result (list ascii) PackError :=
  if negb (GoStrings.endsWith "." name) then Err errNonCanonicalName
  else if String.eqb name "." then Ok [Zbyte 0]
  else packLabels (removelast (GoStrings.Split name ".")).

(** [Message.AppendPack(b)] for a message whose only content is one
    question: the 12-byte header with a question count of one, the name,
    the type and the class. *)
Definition AppendPackQuery (h : Header) (q : Question) (b : list ascii)
  : result (list ascii) PackError :=
  match packName (qName q) with
  | Err e => Err e
  | Ok nm =>
      Ok (b ++ packUint16 (hID h) ++ packUint16 (headerBits h)
            ++ packUint16 1 ++ packUint16 0 ++ packUint16 0 ++ packUint16 0
            ++ nm ++ packUint16 (qType q) ++ packUint16 (qClass q))
  end.

End Dnsmessage.

(** ** The files the server reads

    [os.OpenFile(name, O_RDONLY, 0)] gives a [File] or fails.  Of an open
    file the handler uses [Seek(0, SEEK_END)], [Seek(off, SEEK_SET)] and
    one [Read] after that seek. *)

Inductive ioerror : Type :=
| EOF
| IOFailure.

Record File : Type := mkFile {
  (** [f.Seek(0, os.SEEK_END)]: the length, or an error *)
  SeekEnd : result Z ioerror;
  (** [f.Seek(off, os.SEEK_SET)]: [None] when it succeeds *)
  SeekSet : Z -> option ioerror;
  (** [f.Read(p)] with [len(p) = n] after a seek to [off]: the bytes read
      and the error *)
  ReadAt : Z -> nat -> list ascii * option ioerror
}.

(** A regular file holding [data]. *)
Definition regularFile (data : list ascii) : File :=
  {| SeekEnd := Ok (llenZ data);
     SeekSet := fun off => if off <? 0 then Some IOFailure else None;
     ReadAt := fun off n =>
       match skipn (Z.to_nat off) data with
       | [] => ([], Some EOF)
       | rest => (firstn n rest, None)
       end |}.

(** [fill n bs]: an array of [n] zero bytes after [bs] was read into it. *)
Definition fill (n : nat) (bs : list ascii) : list ascii :=
  firstn n (bs ++ repeat Net.zeroByte n).

(** ** dnsfserv.go: the server *)

Module Dnsfserv.

(** [ansAFirstByte] is the first byte of an A record response. *)
Definition ansAFirstByte : ascii := Zbyte 3.

(** [ansTXTMax] is the maximum amount of plaintext to put in a TXT
    record. *)
Definition ansTXTMax : nat := 160.

(** [ansAAAAFirstHalf] is the first half of an AAAA record response:
    26 00 90 00 53 05 ce 00. *)
Definition ansAAAAFirstHalf : list ascii :=
  map Zbyte [38; 0; 144; 0; 83; 5; 206; 0].

(** What a run of [handle] does to the world: the file it tries to open
    and the packet it writes back to the sender. *)
Inductive effect : Type :=
| OpenFile (name : string)
| WriteTo (packet : list ascii).

Definition setRCode (rc : Z) (m : Dnsmessage.Message) : Dnsmessage.Message :=
  let h := Dnsmessage.mHeader m in
  Dnsmessage.mkMessage
    (Dnsmessage.mkHeader (Dnsmessage.hID h) (Dnsmessage.hResponse h)
       (Dnsmessage.hOpCode h) (Dnsmessage.hAuthoritative h)
       (Dnsmessage.hTruncated h) (Dnsmessage.hRecursionDesired h)
       (Dnsmessage.hRecursionAvailable h) rc)
    (Dnsmessage.mQuestions m) (Dnsmessage.mAnswers m)
    (Dnsmessage.mAuthorities m) (Dnsmessage.mAdditionals m).

(** The header of the reply, set up right after unpacking:
    [Response = true], [Authoritative = true],
    [RecursionAvailable = false], [RCode = RCodeSuccess]. *)
Definition setUpHeader (m : Dnsmessage.Message) : Dnsmessage.Message :=
  let h := Dnsmessage.mHeader m in
  Dnsmessage.mkMessage
    (Dnsmessage.mkHeader (Dnsmessage.hID h) true
       (Dnsmessage.hOpCode h) true
       (Dnsmessage.hTruncated h) (Dnsmessage.hRecursionDesired h)
       false Dnsmessage.RCodeSuccess)
    (Dnsmessage.mQuestions m) (Dnsmessage.mAnswers m)
    (Dnsmessage.mAuthorities m) (Dnsmessage.mAdditionals m).

(** [msg.Answers = append(msg.Answers, rr)] *)
Definition appendAnswer (rr : Dnsmessage.Resource) (m : Dnsmessage.Message)
  : Dnsmessage.Message :=
  Dnsmessage.mkMessage (Dnsmessage.mHeader m) (Dnsmessage.mQuestions m)
    (Dnsmessage.mAnswers m ++ [rr])
    (Dnsmessage.mAuthorities m) (Dnsmessage.mAdditionals m).

(** The record bodies of the [switch rr.Header.Type] in [handle], as
    functions of the bytes [f.Read] delivered. *)
Definition bodyA (chunk : list ascii) : Dnsmessage.ResourceBody :=
  Dnsmessage.AResource (ansAFirstByte :: fill 3 chunk).

Definition bodyAAAA (chunk : list ascii) : Dnsmessage.ResourceBody :=
  Dnsmessage.AAAAResource (ansAAAAFirstHalf ++ fill 8 chunk).

Definition bodyTXT (chunk : list ascii) : Dnsmessage.ResourceBody :=
  Dnsmessage.TXTResource [Base64.EncodeToString (firstn ansTXTMax chunk)].

Section Handler.

(** [strings.Map(unicode.ToLower, _)], see [GoStrings.ToLower]. *)
Variable unicodeLower : string -> string.
(** [Message.Unpack]: [None] when it returns an error. *)
Variable Unpack : list ascii -> option Dnsmessage.Message.
(** [Message.AppendPack(buf[:0])]: [None] when it returns an error. *)
Variable AppendPack : Dnsmessage.Message -> option (list ascii).
(** [os.OpenFile(name, os.O_RDONLY, 000)]: [None] when it fails. *)
Variable openFile : string -> option File.
(** Set by flags. *)
Variable ttl : Z.
Variable fdir : string.

(** [sendResponse] sends the message to addr via pc. *)
Definition sendResponse (msg : Dnsmessage.Message) : list effect :=
  match AppendPack msg with
  | None => []
  | Some p => [WriteTo p]
  end.

(** [sendEOF] sets msg to be an NXDomain and sends it. *)
Definition sendEOF (msg : Dnsmessage.Message) : list effect :=
  sendResponse (setRCode Dnsmessage.RCodeNameError msg).

(** [int64(foff)] *)
Definition toInt64 (u : Z) : Z := if u <? 2 ^ 63 then u else u - 2 ^ 64.

(** The second half of [handle], from [fname := filepath.Clean(parts[1])]
    to the end: [msg] is the reply being built, [q0] the first question,
    [foff] the offset parsed and [part1] the text after the first [-] of
    the first label. *)
Definition serveFile (msg : Dnsmessage.Message) (q0 : Dnsmessage.Question)
  (foff : Z) (part1 : string) : list effect :=
  let fname := Filepath.Clean part1 in
  (* Try to open the file *)
  let fname := Filepath.Join [fdir; fname] in
  OpenFile fname ::
  match openFile fname with
  | None => []
  | Some f =>
      (* Seek to the offset; an error of the first Seek is logged and
         leaves flen at 0 *)
      let flen := match SeekEnd f with Ok n => n | Err _ => 0 end in
      if foff >=? wrap64 flen then sendEOF msg
      else
        match SeekSet f (toInt64 foff) with
        | Some _ => []
        | None =>
            (* Roll a response record *)
            let hdr := Dnsmessage.mkResourceHeader
                         (Dnsmessage.qName q0) (Dnsmessage.qType q0)
                         (Dnsmessage.qClass q0) (ttl mod 2 ^ 32) in
            let rolled :=
              if Dnsmessage.qType q0 =? Dnsmessage.TypeA then
                let (chunk, err) := ReadAt f foff 3 in
                Some (bodyA chunk, err)
              else if Dnsmessage.qType q0 =? Dnsmessage.TypeAAAA then
                let (chunk, err) := ReadAt f foff 8 in
                Some (bodyAAAA chunk, err)
              else if Dnsmessage.qType q0 =? Dnsmessage.TypeTXT then
                let (chunk, err) := ReadAt f foff ansTXTMax in
                match err with
                | Some _ => Some (Dnsmessage.NoBody, err)
                | None => Some (bodyTXT chunk, None)
                end
              else None in
            match rolled with
            | None => []
            | Some (_, Some EOF) => sendEOF msg
            | Some (_, Some _) => []
            | Some (body, None) =>
                (* Send the answer back *)
                sendResponse
                  (appendAnswer (Dnsmessage.mkResource hdr body) msg)
            end
        end
  end.

(** The first half of [handle] after the check for a question, from
    [q := strings.ToLower(...)] to [strconv.ParseUint(parts[0], 36, 64)]:
    the offset and the text after the first [-] of the first label, or
    [None] where [handle] logs and returns. *)
Definition parseQuery (name : string) : option (Z * string) :=
  (* Get the filename and offset *)
  let q := GoStrings.ToLower unicodeLower name in
  match GoStrings.SplitN2 q "." with
  | [] => None
  | label0 :: _ =>
      match GoStrings.SplitN2 label0 "-" with
      | [part0; part1] =>
          if Nat.eqb (String.length part0) 0 then None
          else match Strconv.ParseUint36 part0 with
               | Err _ => None
               | Ok foff => Some (foff, part1)
               end
      | _ => None
      end
  end.

(** [handle] responds to the DNS query in [pkt] (Go's [buf[:n]]). *)
Definition handle (pkt : list ascii) : list effect :=
  (* Parse the DNS query *)
  match Unpack pkt with
  | None => []
  | Some msg =>
      (* Set up the header *)
      let msg := setUpHeader msg in
      (* Make sure there's at least one question *)
      match Dnsmessage.mQuestions msg with
      | [] => []
      | q0 :: _ =>
          match parseQuery (Dnsmessage.qName q0) with
          | None => []
          | Some (foff, part1) => serveFile msg q0 foff part1
          end
      end
  end.

End Handler.

End Dnsfserv.

(** ** package dnsfservget: the client library *)

Module Dnsfservget.

(** MaxDecode is the maximum amount of decoded data decoded by
    DecodeResponse. *)
Definition MaxDecode : nat := 160.

(** QType is a DNS query type: [type QType string]. *)
Definition QType := string.

(** Supported QTypes *)
Definition TypeA : QType := "A".
Definition TypeAAAA : QType := "AAAA".
Definition TypeTXT : QType := "TXT".

(** An argument of a [fmt.Errorf] call: a string, a number, a
    [base64.CorruptInputError] with its offset, or an error of
    dnsmessage. *)
Inductive arg : Type :=
| AStr (s : string)
| AInt (z : Z)
| ACorruptInput (offset : Z)
| APackError (e : Dnsmessage.PackError).

(** The error values of the package and of the libraries below it.
    [Errorf] is an [errors.New] or a [fmt.Errorf] without [%w], kept as
    its format and arguments; [Wrapf] is a [fmt.Errorf] whose format ends
    in [%w], so that the error wraps [inner]. *)
Inductive error : Type :=
| ErrorUnsupportedQType (t : QType)
| DNSError (Err_ : string) (Name : string) (IsNotFound : bool)
| Errorf (format : string) (args : list arg)
| Wrapf (format : string) (args : list arg) (inner : error)
| ioEOF
| ioErrUnexpectedEOF
| ioErrClosedPipe
| PackError (e : Dnsmessage.PackError)
| OtherError (text : string).

(** [errors.As(err, &de)] for [de *net.DNSError]: the first DNSError on
    the chain of wrapped errors, as its [IsNotFound] flag. *)
Fixpoint asDNSError (e : error) : option bool :=
  match e with
  | DNSError _ _ nf => Some nf
  | Wrapf _ _ inner => asDNSError inner
  | _ => None
  end.

(** [errors.Is(err, io.ErrUnexpectedEOF)] *)
Fixpoint isUnexpectedEOF (e : error) : bool :=
  match e with
  | ioErrUnexpectedEOF => true
  | Wrapf _ _ inner => isUnexpectedEOF inner
  | _ => false
  end.

(** PayloadSize returns the maximum number of payload bytes returnable
    by a query of type q. *)
Definition PayloadSize (q : QType) : result Z error :=
  if String.eqb q TypeA then Ok 3
  else if String.eqb q TypeAAAA then Ok 8
  else if String.eqb q TypeTXT then Ok 160
  else Err (ErrorUnsupportedQType q).

(** Querier performs DNS queries. *)
Record Querier : Type := mkQuerier {
  A : string -> result (list string) error;
  AAAA : string -> result (list string) error;
  TXT : string -> result (list string) error
}.

(** Getter gets a file from dnsfserv.  [off] is the offset into the
    file; the mutex [l] has no counterpart in a sequential model. *)
Record Getter : Type := mkGetter {
  Type_ : QType;
  Name : string;
  Domain : string;
  StartOff : Z;
  Max : Z;
  Querier_ : option Querier;
  off : Z
}.

Definition setOff (g : Getter) (o : Z) : Getter :=
  mkGetter (Type_ g) (Name g) (Domain g) (StartOff g) (Max g) (Querier_ g) o.
Definition setMax (g : Getter) (m : Z) : Getter :=
  mkGetter (Type_ g) (Name g) (Domain g) (StartOff g) m (Querier_ g) (off g).
Definition setQuerier (g : Getter) (q : Querier) : Getter :=
  mkGetter (Type_ g) (Name g) (Domain g) (StartOff g) (Max g) (Some q) (off g).

(** The name [NextName] rolls:
    [fmt.Sprintf("%s-%s.%s", strconv.FormatUint(uint64(off), 36), name,
    domain)]. *)
Definition queryName (off : Z) (name domain : string) : string :=
  (Strconv.FormatUint36 off ++ "-" ++ name ++ "." ++ domain)%string.

(** NextName returns a DNS name which can be queried to get the next
    chunk of the file, and the getter with its offset advanced. *)
Definition NextName (g : Getter) : result string error * Getter :=
  (* If we're starting, make sure to start at the right offset *)
  let g := if (off g =? 0) && negb (StartOff g =? 0)
           then setOff g (StartOff g) else g in
  (* Roll the query *)
  let q := queryName (off g) (Name g) (Domain g) in
  (* Advance the offset for the next call *)
  match PayloadSize (Type_ g) with
  | Err err => (Err (Wrapf "determining payload size: %w" [] err), g)
  | Ok a => (Ok q, setOff g (wrap64 (off g + a)))
  end.

(** [DecodeResponse], [decodeA] and [decodeTXT] return [(n, err)] and
    fill [buf[:n]]; the model returns those [n] bytes and the error.  Of
    [buf] only the length matters. *)

(** decodeA decodes an IPv4 or IPv6 address and places the payload in
    buf. *)
Definition decodeA (t : QType) (buf : list ascii) (res : string)
  : list ascii * option error :=
  (* Parse as an IP address *)
  match Net.ParseIP res with
  | None => ([], Some (Errorf "invalid IP address %q" [AStr res]))
  | Some ip =>
      (* Parse with the appropriate length *)
      let '(ip, plen, start) :=
        if String.eqb t TypeA then (Net.To4 ip, 4, 1%nat)
        else if String.eqb t TypeAAAA then (Net.To16 ip, 16, 8%nat)
        else (Some ip, 0, 0%nat) in
      match ip with
      | None => ([], Some (Errorf "unable to parse IP address %s" [AStr res]))
      | Some ip =>
          (* Make sure we have enough buffer *)
          if plen >? llenZ buf then
            ([], Some (Errorf "buffer too small for record of type %s"
                         [AStr t]))
          else
            (* Extract the payload: copy(buf, ip[start:]) *)
            (firstn (List.length buf) (skipn start ip), None)
      end
  end.

(** decodeTXT decodes a TXT record and places the payload in buf. *)
Definition decodeTXT (buf : list ascii) (txt : string)
  : list ascii * option error :=
  if Base64.DecodedLen (lenZ txt) >? llenZ buf then
    ([], Some (Errorf "buffer too small for decoded payload" []))
  else
    match Base64.Decode (list_ascii_of_string txt) with
    | (bs, Some pos) =>
        (bs, Some (Errorf "decoding TXT record: %s" [ACorruptInput pos]))
    | (bs, None) => (bs, None)
    end.

(** DecodeResponse extracts the bytes of the file from the DNS response
    and places the decoded bytes in buf.  If buf is too small
    DecodeResponse returns an error. *)
Definition DecodeResponse (t : QType) (buf : list ascii) (res : string)
  : list ascii * option error :=
  if String.eqb t TypeA || String.eqb t TypeAAAA then decodeA t buf res
  else if String.eqb t TypeTXT then decodeTXT buf res
  else ([], Some (ErrorUnsupportedQType t)).

(** What [get] does: the queries it makes and what it does to the write
    end of the pipe. *)
Inductive event : Type :=
| Query (t : QType) (name : string)
| Write (data : list ascii)
| Close
| CloseWithError (e : error).

(** [andThen e r]: the event [e], then the events of the rest of the
    run. *)
Definition andThen (e : event) (r : option (list event))
  : option (list event) :=
  match r with
  | Some l => Some (e :: l)
  | None => None
  end.

Section Get.

(** [DefaultQuerier()], the host's resolver. *)
Variable DefaultQuerier : Querier.
(** [pw.Write(data)] when [written] bytes went through the pipe before:
    [None] when the reader takes the data, an error once the read end
    is closed. *)
Variable pipeWrite : Z -> list ascii -> option error.

Definition query (qr : Querier) (t : QType) (q : string)
  : option (result (list string) error) :=
  if String.eqb t TypeA then Some (A qr q)
  else if String.eqb t TypeAAAA then Some (AAAA qr q)
  else if String.eqb t TypeTXT then Some (TXT qr q)
  else None.

(** The loop of [get].  [written] counts the bytes written so far (it
    is the state of the pipe, not a variable of [get]).  One unit of
    [fuel] is spent an iteration; [None] means the fuel ran out before
    the loop returned.  [buf] has [MaxDecode] bytes.  The check
    [0 > n] cannot succeed: [n] is a count of bytes. *)
Fixpoint getLoop (fuel : nat) (qr : Querier) (umax : bool) (g : Getter)
  (written : Z) : option (list event) :=
  match fuel with
  | O => None
  | S fuel =>
      (* If we've got no more to write, we're done *)
      if (Max g =? 0) && negb umax then Some [Close]
      else
        (* Roll a query *)
        match NextName g with
        | (Err err, _) =>
            Some [CloseWithError (Wrapf "generating query name: %w" [] err)]
        | (Ok q, g) =>
            match query qr (Type_ g) q with
            | None => Some [CloseWithError (ErrorUnsupportedQType (Type_ g))]
            | Some r =>
                andThen (Query (Type_ g) q)
                match r with
                | Err err =>
                    (* NXDomain == EOF *)
                    match asDNSError err with
                    | Some true => Some [Close]
                    | _ => Some [CloseWithError
                                   (Wrapf "querying for %q: %w" [AStr q] err)]
                    end
                | Ok [] =>
                    (* No answer probably means someone's blocking
                       something *)
                    Some [CloseWithError
                            (Errorf "empty response to query for %q" [AStr q])]
                | Ok (as0 :: _) =>
                    (* Decode the response and send it back *)
                    match DecodeResponse (Type_ g) (repeat Net.zeroByte MaxDecode) as0 with
                    | (_, Some err) =>
                        Some [CloseWithError
                                (Wrapf "decoding response %q to %q: %w"
                                   [AStr as0; AStr q] err)]
                    | (data, None) =>
                        (* Don't write too many bytes *)
                        let n := llenZ data in
                        let n := if (Max g <? n) && negb umax then Max g else n in
                        let out := firstn (Z.to_nat n) data in
                        andThen (Write out)
                        match pipeWrite written out with
                        | Some err => Some [CloseWithError err]
                        | None =>
                            (* Note how many we've written *)
                            let g := if negb umax
                                     then setMax g (wrap64 (Max g - n)) else g in
                            getLoop fuel qr umax g (written + n)
                        end
                    end
                end
            end
        end
  end.

(** [get] makes the queries to get the file. *)
Definition get (fuel : nat) (g : Getter) : option (list event) :=
  (* Make sure we have something with which to make queries *)
  let qr := match Querier_ g with Some q => q | None => DefaultQuerier end in
  getLoop fuel qr (Max g =? 0) (setQuerier g qr) 0.

End Get.

(** The bytes a reader of the pipe receives, and how the pipe ends. *)
Fixpoint streamOf (evs : list event) : list ascii :=
  match evs with
  | [] => []
  | Write data :: rest => data ++ streamOf rest
  | _ :: rest => streamOf rest
  end.

Fixpoint queriesOf (evs : list event) : list string :=
  match evs with
  | [] => []
  | Query _ name :: rest => name :: queriesOf rest
  | _ :: rest => queriesOf rest
  end.

(** *** doh.go: DNS over HTTPS *)

(** MaxPOSTBody is the maximum number of bytes from a POST response body
    which will be used by the POSTClients returned from the functions in
    this package. *)
Definition MaxPOSTBody : Z := 65535.

(** A POSTClient performs an HTTP POST query for the URL, sending it
    reqBody as the POST body, and returns the body of the response. *)
Definition POSTClient := string -> list ascii -> result (list ascii) error.

(** An [*http.Response], as far as [WrapPOST] looks at it.  The body is
    a reader: it delivers [bodyData] and then ends with [bodyEnd], which
    is [ioEOF] for a body that was received whole. *)
Record Response : Type := mkResponse {
  StatusCode : Z;
  Status : string;
  bodyData : list ascii;
  bodyEnd : error
}.

(** [io.ReadFull(r, b)] with [len(b) = n]: the bytes read and the error.
    A full buffer is no error; a reader that ends at once gives its own
    error; [io.EOF] after some bytes becomes [io.ErrUnexpectedEOF]. *)
Definition ReadFull (data : list ascii) (ending : error) (n : Z)
  : list ascii * option error :=
  if n <=? llenZ data then (firstn (Z.to_nat n) data, None)
  else match data, ending with
       | _ :: _, ioEOF => (data, Some ioErrUnexpectedEOF)
       | _, _ => (data, Some ending)
       end.

(** WrapPOST wraps a function like http.Post into a POSTClient. *)
Definition WrapPOST
  (post : string -> string -> list ascii -> result Response error)
  : POSTClient :=
  fun URL reqBody =>
    (* Make the query *)
    match post URL "" reqBody with
    | Err err => Err (Wrapf "making request: %w" [] err)
    | Ok res =>
        (* Non-200's are bad *)
        if (200 <? StatusCode res) || (200 >? StatusCode res) then
          Err (Errorf "non-2xx response status %d %s"
                 [AInt (StatusCode res); AStr (Status res)])
        else
          (* Slurp the body *)
          match ReadFull (bodyData res) (bodyEnd res) MaxPOSTBody with
          | (b, Some err) =>
              if negb (isUnexpectedEOF err) then
                Err (Wrapf "reading response body: %w" [] err)
              else Ok b
          | (b, None) => Ok b
          end
    end.

(** The [dnsmessage.Type] that [AppendQuery] asks for. *)
Definition queryType (qtype : QType) : option Z :=
  if String.eqb qtype TypeA then Some Dnsmessage.TypeA
  else if String.eqb qtype TypeAAAA then Some Dnsmessage.TypeA
  else if String.eqb qtype TypeTXT then Some Dnsmessage.TypeTXT
  else None.

(** The header of the message [AppendQuery] packs:
    [Header{RecursionDesired: true}]. *)
Definition queryHeader : Dnsmessage.Header :=
  Dnsmessage.mkHeader 0 false 0 false false true false Dnsmessage.RCodeSuccess.

(** The message [AppendQuery] packs, given its question. *)
Definition queryMessage (q : Dnsmessage.Question) : Dnsmessage.Message :=
  Dnsmessage.mkMessage queryHeader [q] [] [] [].

(** [AppendQuery] up to the question of the message it is about to
    pack: the type is translated, the name is given its final dot and
    checked. *)
Definition rollQuestion (qname : string) (qtype : QType)
  : result Dnsmessage.Question error :=
  (* Translate the type to dnsmessage *)
  match queryType qtype with
  | None => Err (ErrorUnsupportedQType qtype)
  | Some qt =>
      (* Make sure the name ends with a . *)
      let qname := if negb (GoStrings.endsWith "." qname)
                   then (qname ++ ".")%string else qname in
      match Dnsmessage.NewName qname with
      | Err err =>
          Err (Errorf "error processing %q for query: %q"
                 [AStr qname; APackError err])
      | Ok qn => Ok (Dnsmessage.mkQuestion qn qt Dnsmessage.ClassINET)
      end
  end.

(** AppendQuery appends a DNS query for the given domain and type
    suitable for a DoH POST request body to b and returns the resulting
    slice.  The class will always be inet. *)
Definition AppendQuery (qname : string) (qtype : QType) (b : list ascii)
  : result (list ascii) error :=
  match rollQuestion qname qtype with
  | Err e => Err e
  | Ok q =>
      (* Roll a DNS message *)
      match Dnsmessage.AppendPackQuery queryHeader q b with
      | Ok p => Ok p
      | Err e => Err (PackError e)
      end
  end.

(** The [dnsmessage.Type] that [ParseDoHAnswer] keeps; an unsupported
    filter leaves [mt] at zero. *)
Definition filterType (filt : QType) : Z :=
  if String.eqb filt TypeA then Dnsmessage.TypeA
  else if String.eqb filt TypeAAAA then Dnsmessage.TypeAAAA
  else if String.eqb filt TypeTXT then Dnsmessage.TypeTXT
  else 0.

(** The loop over [m.Answers] of [ParseDoHAnswer]; [ss] is the slice
    built so far. *)
Fixpoint extractRecords (mt : Z) (answers : list Dnsmessage.Resource)
  (ss : list string) : list string :=
  match answers with
  | [] => ss
  | ans :: rest =>
      (* Skip records we don't care about *)
      if negb (Dnsmessage.rhType (Dnsmessage.rHeader ans) =? mt)
      then extractRecords mt rest ss
      else
        (* Extract the answer itself *)
        match Dnsmessage.rBody ans with
        | Dnsmessage.AResource a =>
            extractRecords mt rest (ss ++ [Net.String_ a])
        | Dnsmessage.AAAAResource a =>
            extractRecords mt rest (ss ++ [Net.String_ a])
        | Dnsmessage.TXTResource txt =>
            extractRecords mt rest (ss ++ txt)
        | _ => extractRecords mt rest ss
        end
  end.

(** The strings one answer record contributes to the result of
    [ParseDoHAnswer] under the filter type [mt]: one iteration of the
    loop of [extractRecords]. *)
Definition recordStrings (mt : Z) (ans : Dnsmessage.Resource) : list string :=
  if negb (Dnsmessage.rhType (Dnsmessage.rHeader ans) =? mt) then []
  else match Dnsmessage.rBody ans with
       | Dnsmessage.AResource a => [Net.String_ a]
       | Dnsmessage.AAAAResource a => [Net.String_ a]
       | Dnsmessage.TXTResource txt => txt
       | _ => []
       end.

Section DoH.

(** [Message.Unpack], with the library's error when it fails. *)
Variable Unpack : list ascii -> result Dnsmessage.Message error.

(** ParseDoHAnswer parses an answer from a DoH server.  It returns a
    slice of the records of the given type.  If the answer indicates an
    NXDomain, a *net.DNSError is returned with its IsNotFound field
    true. *)
Definition ParseDoHAnswer (ans : list ascii) (filt : QType)
  : result (list string) error :=
  (* Work out what type we need *)
  let mt := filterType filt in
  (* Unpack the message *)
  match Unpack ans with
  | Err err => Err (Wrapf "unpacking response: %w" [] err)
  | Ok m =>
      (* Make sure we got a good answer *)
      let rc := Dnsmessage.hRCode (Dnsmessage.mHeader m) in
      if rc =? Dnsmessage.RCodeSuccess then
        (* Extract the records *)
        Ok (extractRecords mt (Dnsmessage.mAnswers m) [])
      else if rc =? Dnsmessage.RCodeNameError then
        (* Maybe we get a name *)
        let n := match Dnsmessage.mQuestions m with
                 | q :: _ => Dnsmessage.qName q
                 | [] => ""
                 end in
        Err (DNSError "name not found" n true)
      else
        Err (Errorf "unsuccessful DNS response code %s (%d)"
               [AStr (Dnsmessage.RCodeString rc); AInt rc])
  end.

(** dohQuery does a DoH query for the given name and record type. *)
Definition dohQuery (u : string) (post : POSTClient) (name : string)
  (qtype : QType) : result (list string) error :=
  (* Roll a Query *)
  match AppendQuery name qtype [] with
  | Err err => Err (Wrapf "generating query: %w" [] err)
  | Ok qb =>
      (* Send query off *)
      match post u qb with
      | Err err => Err (Wrapf "sending query: %w" [] err)
      | Ok res =>
          (* Send back answer *)
          match ParseDoHAnswer res qtype with
          | Err err => Err (Wrapf "parsing response: %w" [] err)
          | Ok as_ => Ok as_
          end
      end
  end.

(** The Querier that [DOHQuerier] returns for a configuration with
    [POST] set. *)
Definition DOHQuerier (URL : string) (POST : POSTClient) : Querier :=
  mkQuerier (fun name => dohQuery URL POST name TypeA)
            (fun name => dohQuery URL POST name TypeAAAA)
            (fun name => dohQuery URL POST name TypeTXT).

End DoH.

End Dnsfservget.

(** ** Sample data for the examples *)

(** A message as a DoH server sends it: one question, result code [rc],
    the answers [answers]. *)
Definition answerMessage (rc : Z) (answers : list Dnsmessage.Resource)
  : Dnsmessage.Message :=
  Dnsmessage.mkMessage
    (Dnsmessage.mkHeader 7 true 0 false false true true rc)
    [Dnsmessage.mkQuestion "0-f.example.com." Dnsmessage.TypeTXT
       Dnsmessage.ClassINET]
    answers [] [].

Definition txtRecord (txt : list string) : Dnsmessage.Resource :=
  Dnsmessage.mkResource
    (Dnsmessage.mkResourceHeader "0-f.example.com." Dnsmessage.TypeTXT
       Dnsmessage.ClassINET 1800)
    (Dnsmessage.TXTResource txt).

(** A POST function that answers every request with the given status
    and body. *)
Definition postAnswering (code : Z) (status : string) (body : list ascii)
  : string -> string -> list ascii -> result Dnsfservget.Response Dnsfservget.error :=
  fun _ _ _ => Ok (Dnsfservget.mkResponse code status body Dnsfservget.ioEOF).

(** A query as a resolver sends it: one question, nothing else. *)
Definition queryFor (name : string) (qtype : Z) : Dnsmessage.Message :=
  Dnsmessage.mkMessage
    (Dnsmessage.mkHeader 7 false 0 false false true false 0)
    [Dnsmessage.mkQuestion name qtype Dnsmessage.ClassINET]
    [] [] [].

(** A file system holding one file. *)
Definition oneFile (path : string) (data : list ascii) : string -> option File :=
  fun name => if String.eqb name path then Some (regularFile data) else None.

(** A querier whose every method gives the same answer to every name. *)
Definition constQuerier (answers : list string) : Dnsfservget.Querier :=
  Dnsfservget.mkQuerier (fun _ => Ok answers) (fun _ => Ok answers)
    (fun _ => Ok answers).

(** ** Vocabulary of the statements *)

(** A file name that survives the trip through a DNS name: ASCII bytes,
    no upper-case letter (names are folded to lower case) and no dot (the
    first dot ends the first label). *)
Definition validFilenameByte (c : ascii) : bool :=
  GoStrings.isASCIIByte c && negb (inRange "A" "Z" c) && negb (Ascii.eqb c ".").

Definition validFilename (name : string) : bool :=
  GoStrings.allBytes validFilenameByte name.

(** A digit of [strconv.FormatUint(_, 36)]. *)
Definition isDigit36 (c : ascii) : bool :=
  inRange "0" "9" c || inRange "a" "z" c.


(** A path element that names an entry of a directory: not empty, not
    [.] or [..], and without a separator. *)
Definition plainElement (e : string) : bool :=
  negb (String.eqb e "") && negb (String.eqb e ".")
  && negb (String.eqb e "..")
  && GoStrings.allBytes (fun c => negb (Ascii.eqb c "/")) e.

(** [within dir p]: the clean path [p] is the clean form of [dir]
    followed by the plain elements [below]; so [p] names [dir] itself or
    something below it.  ([Filepath.Clean dir] is
    [render (isRooted dir) (elements dir)].) *)
Definition within (dir p : string) : Prop :=
  exists below : list string,
    forallb plainElement below = true
    /\ p = Filepath.render (Filepath.isRooted dir)
             (rev below ++ Filepath.elements dir).

(** The paths a run of the handler tried to open. *)
Fixpoint opened (effects : list Dnsfserv.effect) : list string :=
  match effects with
  | [] => []
  | Dnsfserv.OpenFile name :: rest => name :: opened rest
  | Dnsfserv.WriteTo _ :: rest => opened rest
  end.



(** A text that does not go on with a hex digit. *)
Definition stops (rest : string) : Prop :=
  match rest with
  | EmptyString => True
  | String c _ => Net.hexVal c = None
  end.

(** A byte that is neither a dot nor a colon. *)
Definition hexish (c : ascii) : bool :=
  negb (Ascii.eqb c ".") && negb (Ascii.eqb c ":").

(** The 16-bit group of two bytes, as [Net.groups] forms it. *)
Definition group16 (hi lo : ascii) : Z :=
  Z.lor (Z.shiftl (byteZ hi) 8) (byteZ lo).

(** The text a Querier hands to the Getter for an answer record with this
    body: an address as [net.IP.String] prints it, or the text of a TXT
    record with one character-string. *)
Definition answerText (body : Dnsmessage.ResourceBody) : string :=
  match body with
  | Dnsmessage.AResource a => Net.String_ a
  | Dnsmessage.AAAAResource a => Net.String_ a
  | Dnsmessage.TXTResource [s] => s
  | _ => ""
  end.

(** [padded n chunk]: the chunk followed by zero bytes up to [n] bytes. *)
Definition padded (n : nat) (chunk : list ascii) : list ascii :=
  chunk ++ repeat Net.zeroByte (n - List.length chunk).

(** The bytes of [data] that one answer carries: up to [n] bytes from
    offset [foff]. *)
Definition chunkAt (data : list ascii) (foff : Z) (n : nat) : list ascii :=
  firstn n (skipn (Z.to_nat foff) data).

(** The record body the server rolls for a query of type [qtype]. *)
Definition bodyFor (qtype : Z) (data : list ascii) (foff : Z)
  : Dnsmessage.ResourceBody :=
  if qtype =? Dnsmessage.TypeA then Dnsfserv.bodyA (chunkAt data foff 3)
  else if qtype =? Dnsmessage.TypeAAAA
  then Dnsfserv.bodyAAAA (chunkAt data foff 8)
  else Dnsfserv.bodyTXT (chunkAt data foff Dnsfserv.ansTXTMax).

(** Addresses written as lists of numbers. *)
Definition ipz (l : list Z) : list ascii := map Zbyte l.

(** The offset [NextName] puts into the name: [StartOff] when the
    getter's offset is still 0, the getter's offset otherwise. *)
Definition nextOffset (g : Dnsfservget.Getter) : Z :=
  if (Dnsfservget.off g =? 0) && negb (Dnsfservget.StartOff g =? 0)
  then Dnsfservget.StartOff g else Dnsfservget.off g.

(** The packets a run of the handler wrote back. *)
Fixpoint written (effects : list Dnsfserv.effect) : list (list ascii) :=
  match effects with
  | [] => []
  | Dnsfserv.OpenFile _ :: rest => written rest
  | Dnsfserv.WriteTo p :: rest => p :: written rest
  end.

(** [answers qr t q d]: the querier answers the query [q] of type [t] with
    at least one record, and the first record decodes, into the buffer of
    [MaxDecode] bytes that [get] uses, to the bytes [d]. *)
Definition answers (qr : Dnsfservget.Querier) (t : Dnsfservget.QType)
  (q : string) (d : list ascii) : Prop :=
  exists s rest,
    Dnsfservget.query qr t q = Some (Ok (s :: rest))
    /\ Dnsfservget.DecodeResponse t (repeat Net.zeroByte Dnsfservget.MaxDecode) s
       = (d, None).

(** The offset of query number [i] of a transfer that starts at [start]
    with [a] bytes a query. *)
Definition offsetAt (start a : Z) (i : nat) : Z := start + a * Z.of_nat i.

(** The events of the rounds of [get] that fetch the chunks [ds], the
    first of them with query number [i]: for each chunk the query and
    the write of its bytes. *)
Fixpoint chunkEvents (t : Dnsfservget.QType) (name domain : string)
  (start a : Z) (i : nat) (ds : list (list ascii)) : list Dnsfservget.event :=
  match ds with
  | [] => []
  | d :: rest =>
      Dnsfservget.Query t (Dnsfservget.queryName (offsetAt start a i) name domain)
        :: Dnsfservget.Write d
        :: chunkEvents t name domain start a (S i) rest
  end.

(** The number of bytes in a list of chunks. *)
Definition total (ds : list (list ascii)) : Z := llenZ (List.concat ds).

(** The events [l], then the events of the rest of the run. *)
Definition after (l : list Dnsfservget.event)
  (r : option (list Dnsfservget.event)) : option (list Dnsfservget.event) :=
  match r with
  | Some evs => Some (l ++ evs)
  | None => None
  end.

(** A getter that was not used yet. *)
Definition newGetter (t : Dnsfservget.QType) (name domain : string)
  (start max : Z) (qr : Dnsfservget.Querier) : Dnsfservget.Getter :=
  Dnsfservget.mkGetter t name domain start max (Some qr) 0.

(** A querier that answers from a table of names, the same for every
    record type, and fails with [miss q] for a name [q] that is not in
    the table. *)
Fixpoint lookupName (tbl : list (string * list string)) (q : string)
  : option (list string) :=
  match tbl with
  | [] => None
  | (n, l) :: rest => if String.eqb n q then Some l else lookupName rest q
  end.

Definition tableQuerier (tbl : list (string * list string))
  (miss : string -> Dnsfservget.error) : Dnsfservget.Querier :=
  let f := fun q => match lookupName tbl q with
                    | Some l => Ok l
                    | None => Err (miss q)
                    end in
  Dnsfservget.mkQuerier f f f.

(** The error of the resolver for a name that does not exist. *)
Definition notFound (q : string) : Dnsfservget.error :=
  Dnsfservget.DNSError "no such host" q true.

(** The names of [n] calls of [NextName], one after the other. *)
Fixpoint nextNames (n : nat) (g : Dnsfservget.Getter)
  : list (result string Dnsfservget.error) :=
  match n with
  | O => []
  | S k => let (r, g') := Dnsfservget.NextName g in r :: nextNames k g'
  end.

(** A DoH server in front of dnsfserv: the body of the POST goes to the
    handler as a packet and the packet the handler writes comes back as
    the body of the response; when the handler writes nothing the
    request fails, as it does when it times out. *)
Definition relayPost (handler : list ascii -> list Dnsfserv.effect)
  : Dnsfservget.POSTClient :=
  fun _ reqBody =>
    match written (handler reqBody) with
    | p :: _ => Ok p
    | [] => Err (Dnsfservget.OtherError "timeout")
    end.

(** What dnsfserv answers the question [q] for the offset [foff] of a
    regular file holding [data]: the chunk at the offset, or the name
    error from the end of the file on. *)
Definition serverReply (ttl : Z) (data : list ascii) (foff : Z)
  (q : Dnsmessage.Question) : Dnsmessage.Message :=
  let msg := Dnsfserv.setUpHeader (Dnsfservget.queryMessage q) in
  if foff <? llenZ data then
    Dnsfserv.appendAnswer
      (Dnsmessage.mkResource
         (Dnsmessage.mkResourceHeader (Dnsmessage.qName q) (Dnsmessage.qType q)
            (Dnsmessage.qClass q) (ttl mod 2 ^ 32))
         (bodyFor (Dnsmessage.qType q) data foff))
      msg
  else Dnsfserv.setRCode Dnsmessage.RCodeNameError msg.

(** [exchanged UnpackS AppendPack UnpackC qname t reply]: the packets of
    one query pass between client and server unharmed.  The query that
    [AppendQuery] packs for [qname] and [t] unpacks at the server to the
    message that was packed, and the server's reply to its question
    packs to a packet that unpacks at the client to that reply. *)
Definition exchanged
  (UnpackS : list ascii -> option Dnsmessage.Message)
  (AppendPack : Dnsmessage.Message -> option (list ascii))
  (UnpackC : list ascii -> result Dnsmessage.Message Dnsfservget.error)
  (qname : string) (t : Dnsfservget.QType)
  (reply : Dnsmessage.Question -> Dnsmessage.Message) : Prop :=
  exists q qb p,
    Dnsfservget.rollQuestion qname t = Ok q
    /\ Dnsfservget.AppendQuery qname t [] = Ok qb
    /\ UnpackS qb = Some (Dnsfservget.queryMessage q)
    /\ AppendPack (reply q) = Some p
    /\ UnpackC p = Ok (reply q).

(** Codecs for the examples.  [unpackQueries t names] is a server-side
    unpacker that knows the queries for the names [names]: it gives back
    the message that [AppendQuery] packed.  [toyPack] packs a message as
    the name of its first question (at most 255 bytes of it) and its
    result code, which tells the replies of one example apart, and [unpackReplies] is the client-side
    unpacker that knows the replies [replies]. *)
Definition samePacket (a b : list ascii) : bool :=
  String.eqb (string_of_list_ascii a) (string_of_list_ascii b).

Fixpoint unpackQueries (t : Dnsfservget.QType) (names : list string)
  (pkt : list ascii) : option Dnsmessage.Message :=
  match names with
  | [] => None
  | nm :: rest =>
      match Dnsfservget.AppendQuery nm t [], Dnsfservget.rollQuestion nm t with
      | Ok qb, Ok q =>
          if samePacket qb pkt then Some (Dnsfservget.queryMessage q)
          else unpackQueries t rest pkt
      | _, _ => unpackQueries t rest pkt
      end
  end.

Definition toyPack (m : Dnsmessage.Message) : option (list ascii) :=
  Some (firstn 255
          (list_ascii_of_string
             match Dnsmessage.mQuestions m with
             | q :: _ => Dnsmessage.qName q
             | [] => ""
             end)
        ++ [Zbyte (Dnsmessage.hRCode (Dnsmessage.mHeader m))]).

Fixpoint unpackReplies (replies : list Dnsmessage.Message) (pkt : list ascii)
  : result Dnsmessage.Message Dnsfservget.error :=
  match replies with
  | [] => Err (Dnsfservget.OtherError "unpack")
  | m :: rest =>
      match toyPack m with
      | Some p => if samePacket p pkt then Ok m else unpackReplies rest pkt
      | None => unpackReplies rest pkt
      end
  end.

(** The question [AppendQuery] rolls for a name with its final dot. *)
Definition questionFor (dotted : string) (qtype : Z) : Dnsmessage.Question :=
  Dnsmessage.mkQuestion dotted qtype Dnsmessage.ClassINET.

(** ** doh.go: the buffer pool

    [getBuf] and [putBuf] look at the length and the capacity of a
    buffer and never at its bytes, so a buffer is modelled as these two
    numbers.  [bufPool] is a [sync.Pool]: [Get] hands out any one of the
    buffers that were put into it and not taken since, or, when it finds
    none (which it may at any time, since a pool is free to drop what it
    holds), a new one from [New].  The pool is the list of the buffers
    it holds, and the choice [Get] makes is an argument: [Some i] for
    the buffer number [i], [None] for a new one. *)

Module BufPool.

Record Buf : Type := mkBuf {
  len_ : Z;
  cap_ : Z
}.

Definition Pool := list Buf.

(** [New: func() interface{} { return make([]byte, MaxPOSTBody) }] *)
Definition New : Buf :=
  mkBuf Dnsfservget.MaxPOSTBody Dnsfservget.MaxPOSTBody.

Definition Get (choice : option nat) (pool : Pool) : Buf * Pool :=
  match choice with
  | Some i =>
      match nth_error pool i with
      | Some b => (b, firstn i pool ++ skipn (S i) pool)
      | None => (New, pool)
      end
  | None => (New, pool)
  end.

Definition Put (b : Buf) (pool : Pool) : Pool := b :: pool.

(** How a function ends: with a value, with a panic, or, in the model
    only, short of choices for the calls of [Get] it still makes. *)
Inductive outcome (A : Type) : Type :=
| Done (a : A)
| Panic
| MoreChoices.
Arguments Done {A} a.
Arguments Panic {A}.
Arguments MoreChoices {A}.

(** [b[:n]], which panics when [n] is larger than [cap(b)]. *)
Definition reslice (b : Buf) (n : Z) : option Buf :=
  if n <=? cap_ b then Some (mkBuf n (cap_ b)) else None.

(** The loop of [getBuf] and the return after it. *)
Fixpoint getBufLoop (choices : list (option nat)) (pool : Pool) (b : Buf)
  : outcome (Buf * Pool) :=
  if Dnsfservget.MaxPOSTBody >? cap_ b then
    match choices with
    | [] => MoreChoices
    | c :: rest => let (b', pool') := Get c pool in getBufLoop rest pool' b'
    end
  else
    match reslice b Dnsfservget.MaxPOSTBody with
    | Some r => Done (r, pool)
    | None => Panic
    end.

(** getBuf gets a buffer from bufPool; [var b []byte] is the nil slice,
    of length and capacity 0. *)
Definition getBuf (choices : list (option nat)) (pool : Pool)
  : outcome (Buf * Pool) :=
  getBufLoop choices pool (mkBuf 0 0).

(** putBuf puts b into the pool if cap(b) == MaxPOSTBody. *)
Definition putBuf (b : Buf) (pool : Pool) : outcome Pool :=
  if negb (Dnsfservget.MaxPOSTBody =? cap_ b) then Done pool
  else match reslice b Dnsfservget.MaxPOSTBody with
       | Some r => Done (Put r pool)
       | None => Panic
       end.

(** A buffer as [getBuf] promises it: length and capacity
    [MaxPOSTBody]. *)
Definition sized (b : Buf) : Prop :=
  len_ b = Dnsfservget.MaxPOSTBody /\ cap_ b = Dnsfservget.MaxPOSTBody.

End BufPool.

(** ** package net: host and port

    [SplitHostPort] and [JoinHostPort] as in the Go releases of 2020.
    The error is the [Err] text of the [*AddrError]. *)

Module NetAddr.

(** [bytealg.IndexByteString(s, c)]; [None] is Go's -1. *)
Fixpoint indexByte (s : string) (c : ascii) : option nat :=
  match s with
  | EmptyString => None
  | String a t =>
      if Ascii.eqb a c then Some 0%nat
      else match indexByte t c with
           | Some i => Some (S i)
           | None => None
           end
  end.

(** [last(s, c)]: the index of the last [c] in [s]. *)
Fixpoint last (s : string) (c : ascii) : option nat :=
  match s with
  | EmptyString => None
  | String a t =>
      match last t c with
      | Some i => Some (S i)
      | None => if Ascii.eqb a c then Some 0%nat else None
      end
  end.

Definition has (s : string) (c : ascii) : bool :=
  match indexByte s c with
  | Some _ => true
  | None => false
  end.

Definition missingPort : string := "missing port in address".
Definition tooManyColons : string := "too many colons in address".

(** [SplitHostPort] splits a network address of the form [host:port],
    [host%zone:port], [[host]:port] or [[host%zone]:port] into host (or
    host%zone) and port. *)
Definition SplitHostPort (hostport : string) : result (string * string) string :=
  (* The port starts after the last colon. *)
  match last hostport ":" with
  | None => Err missingPort
  | Some i =>
      let bracket : result (string * nat * nat) string :=
        if Net.startsWith "[" hostport then
          (* Expect the first ']' just before the last ':'. *)
          match indexByte hostport "]" with
          | None => Err "missing ']' in address"
          | Some end_ =>
              if Nat.eqb (end_ + 1) (String.length hostport) then
                (* There can't be a ':' behind the ']' now. *)
                Err missingPort
              else if Nat.eqb (end_ + 1) i then
                (* The expected result. *)
                Ok (take (end_ - 1) (drop 1 hostport), 1%nat, (end_ + 1)%nat)
              else
                (* Either ']' isn't followed by a colon, or it is followed
                   by a colon that is not the last one. *)
                match String.get (end_ + 1) hostport with
                | Some c => if Ascii.eqb c ":" then Err tooManyColons
                            else Err missingPort
                | None => Err missingPort
                end
          end
        else
          let host := take i hostport in
          if has host ":" then Err tooManyColons else Ok (host, 0%nat, 0%nat) in
      match bracket with
      | Err e => Err e
      | Ok (host, j, k) =>
          if has (drop j hostport) "[" then Err "unexpected '[' in address"
          else if has (drop k hostport) "]" then Err "unexpected ']' in address"
          else Ok (host, drop (i + 1) hostport)
      end
  end.

(** [JoinHostPort] combines host and port into a network address of the
    form [host:port]; a host with a colon in it is put into square
    brackets. *)
Definition JoinHostPort (host port : string) : string :=
  if has host ":" then ("[" ++ host ++ "]:" ++ port)%string
  else (host ++ ":" ++ port)%string.

End NetAddr.

(** ** doh.go: the POST clients *)

Module DohClients.

(** DefaultDOHPort is used by BuiltinDFPost as the default port for TLS
    connections. *)
Definition DefaultDOHPort : string := "443".

(** [http.Post], and [http.Client.Post] over a transport whose
    [DialTLSContext] connects to [addr] whatever address it is asked
    for, are the network; they are arguments. *)

(** BuiltinPOST returns a POSTClient which is a thin wrapper around
    http.Client.Post. *)
Definition BuiltinPOST
  (httpPost : string -> string -> list ascii
              -> result Dnsfservget.Response Dnsfservget.error)
  : Dnsfservget.POSTClient :=
  Dnsfservget.WrapPOST httpPost.

(** The address [BuiltinDFPOST] connects to: the start of the function,
    which makes sure there is a port. *)
Definition dialAddress (sni : string) : string :=
  match NetAddr.SplitHostPort sni with
  | Ok (_, p) =>
      if String.eqb p "" then NetAddr.JoinHostPort sni DefaultDOHPort else sni
  | Err _ => NetAddr.JoinHostPort sni DefaultDOHPort
  end.

(** BuiltinDFPOST returns a POSTClient which uses the provided sni both
    to obtain the IP address of the server as well as in the SNI of the
    TLS connection. *)
Definition BuiltinDFPOST
  (postVia : string -> string -> string -> list ascii
             -> result Dnsfservget.Response Dnsfservget.error)
  (sni : string) : Dnsfservget.POSTClient :=
  Dnsfservget.WrapPOST (postVia (dialAddress sni)).

(** DOHConfig is used to configure a querier which uses DoH; a [POST]
    that is not set is [None]. *)
Record DOHConfig : Type := mkDOHConfig {
  URL : string;
  POST : option Dnsfservget.POSTClient
}.

(** DOHQuerier: if POST is not set, BuiltinPOST() is used. *)
Definition DOHQuerier
  (httpPost : string -> string -> list ascii
              -> result Dnsfservget.Response Dnsfservget.error)
  (Unpack : list ascii -> result Dnsmessage.Message Dnsfservget.error)
  (conf : DOHConfig) : Dnsfservget.Querier :=
  Dnsfservget.DOHQuerier Unpack (URL conf)
    match POST conf with
    | Some p => p
    | None => BuiltinPOST httpPost
    end.

End DohClients.

(** A text without colon and square brackets. *)
Definition plainText (s : string) : bool :=
  GoStrings.allBytes
    (fun c => negb (Ascii.eqb c ":") && negb (Ascii.eqb c "[")
              && negb (Ascii.eqb c "]")) s.

(** ** dnsfservstager.go: the stager

    [main] as a function of the four parameters set at link time and of
    what it calls: the resolver, the HTTP clients, the unpacking of DNS
    messages and the interpreter, whose [Eval] returns an error or
    none.  [ioutil.ReadAll(g.Get())] reads the pipe that [get] writes:
    it takes every write and returns at the close, with the error of a
    [CloseWithError]. *)

Module Dnsfservstager.

Inductive outcome : Type :=
| Panicked (msg : string)
| Fatalf (format : string) (err : Dnsfservget.error)
| Ran (src : list ascii).

(** What [ioutil.ReadAll] returns for the events of [get]; [None] when
    the pipe is never closed. *)
Fixpoint ReadAll (evs : list Dnsfservget.event)
  : option (list ascii * option Dnsfservget.error) :=
  match evs with
  | [] => None
  | Dnsfservget.Query _ _ :: rest => ReadAll rest
  | Dnsfservget.Write data :: rest =>
      match ReadAll rest with
      | Some (b, err) => Some (data ++ b, err)
      | None => None
      end
  | Dnsfservget.Close :: _ => Some ([], None)
  | Dnsfservget.CloseWithError e :: _ => Some ([], Some e)
  end.

Section Main.

(** Set with [-ldflags "-X ..."]. *)
Variables dohURL dohSNI domain fname : string.

Variable DefaultQuerier : Dnsfservget.Querier.
Variable httpPost : string -> string -> list ascii
                    -> result Dnsfservget.Response Dnsfservget.error.
Variable postVia : string -> string -> string -> list ascii
                   -> result Dnsfservget.Response Dnsfservget.error.
Variable Unpack : list ascii -> result Dnsmessage.Message Dnsfservget.error.
Variable Eval : list ascii -> option Dnsfservget.error.

Definition main (fuel : nat) : option outcome :=
  (* Make sure we have a filename and domain, at least *)
  if String.eqb "" fname then Some (Panicked "missing filename")
  else if String.eqb "" domain then Some (Panicked "missing domain")
  else
    (* Configure the file download *)
    let g := Dnsfservget.mkGetter Dnsfservget.TypeA fname domain 0 0 None 0 in
    let g :=
      if negb (String.eqb "" dohURL) then
        (* Maybe even domain-front *)
        let POST := if negb (String.eqb "" dohSNI)
                    then Some (DohClients.BuiltinDFPOST postVia dohSNI)
                    else None in
        (* Query with DoH *)
        Dnsfservget.setQuerier g
          (DohClients.DOHQuerier httpPost Unpack
             (DohClients.mkDOHConfig dohURL POST))
      else g in
    (* Actually do the download *)
    match Dnsfservget.get DefaultQuerier (fun _ _ => None) fuel g with
    | None => None
    | Some evs =>
        match ReadAll evs with
        | None => None
        | Some (_, Some err) => Some (Fatalf "Get: %s" err)
        | Some (b, None) =>
            (* Run it as Go code *)
            match Eval b with
            | Some err => Some (Fatalf "Eval: %s" err)
            | None => Some (Ran b)
            end
        end
    end.

End Main.

End Dnsfservstager.

(** An HTTP server in front of dnsfserv, as [http.Post] sees it: the body
    of the request goes to the handler as a packet, and the packet the
    handler writes comes back as the body of a response with status
    200; when the handler writes nothing the request fails. *)
Definition relayHTTP (handler : list ascii -> list Dnsfserv.effect)
  : string -> string -> list ascii
    -> result Dnsfservget.Response Dnsfservget.error :=
  fun _ _ reqBody =>
    match written (handler reqBody) with
    | p :: _ => Ok (Dnsfservget.mkResponse 200 "200 OK" p Dnsfservget.ioEOF)
    | [] => Err (Dnsfservget.OtherError "timeout")
    end.


(** * Properties *)

Import Dnsfservget.

(** ** ParseDoHAnswer *)

Section ParseDoHAnswerFacts.

Variable Unpack : list ascii -> result Dnsmessage.Message error.

Lemma extractRecords_app mt answers ss :
  extractRecords mt answers ss = ss ++ extractRecords mt answers [].
Proof.
  revert ss; induction answers as [|a rest IH]; intros ss; simpl.
  - now rewrite app_nil_r.
  - destruct (negb _); [apply IH|].
    destruct (Dnsmessage.rBody a); simpl; try apply IH;
      match goal with
      | |- extractRecords _ _ (ss ++ ?x) = _ =>
          rewrite (IH (ss ++ x)), (IH x); now rewrite app_assoc
      end.
Qed.

Lemma extractRecords_none mt answers :
  Forall (fun a => Dnsmessage.rhType (Dnsmessage.rHeader a) <> mt) answers ->
  extractRecords mt answers [] = [].
Proof.
  induction 1 as [|a rest Ha _ IH]; simpl; [reflexivity|].
  apply Z.eqb_neq in Ha. now rewrite Ha.
Qed.

Lemma extractRecords_flat_map mt answers :
  extractRecords mt answers [] = flat_map (recordStrings mt) answers.
Proof.
  induction answers as [|a rest IH]; simpl; [reflexivity|].
  unfold recordStrings.
  destruct (negb _); [exact IH|].
  destruct (Dnsmessage.rBody a); simpl; try exact IH;
    rewrite extractRecords_app, IH; reflexivity.
Qed.

Lemma ParseDoHAnswer_success ans filt m :
  Unpack ans = Ok m ->
  Dnsmessage.hRCode (Dnsmessage.mHeader m) = Dnsmessage.RCodeSuccess ->
  ParseDoHAnswer Unpack ans filt
  = Ok (flat_map (recordStrings (filterType filt)) (Dnsmessage.mAnswers m)).
Proof.
  intros HU Hrc. unfold ParseDoHAnswer. rewrite HU, Hrc. simpl.
  now rewrite extractRecords_flat_map.
Qed.

(** C3, as the code has it: for an answer message with result code
    success, every character-string of a TXT answer record becomes an
    entry of its own in the list that [ParseDoHAnswer] returns under the
    filter [TypeTXT]; the entries keep the order of the records and,
    inside a record, the order of its character-strings.  Nothing is
    joined. *)
Theorem ParseDoHAnswer_TXT_appends_strings :
  forall ans m before r after txt,
    Unpack ans = Ok m ->
    Dnsmessage.hRCode (Dnsmessage.mHeader m) = Dnsmessage.RCodeSuccess ->
    Dnsmessage.mAnswers m = before ++ r :: after ->
    Dnsmessage.rhType (Dnsmessage.rHeader r) = Dnsmessage.TypeTXT ->
    Dnsmessage.rBody r = Dnsmessage.TXTResource txt ->
    ParseDoHAnswer Unpack ans TypeTXT
    = Ok (flat_map (recordStrings Dnsmessage.TypeTXT) before
            ++ txt
            ++ flat_map (recordStrings Dnsmessage.TypeTXT) after).
Proof.
  intros ans m before r after txt HU Hrc Hans Hty Hbody.
  rewrite (ParseDoHAnswer_success ans TypeTXT m HU Hrc), Hans.
  rewrite flat_map_app. simpl. unfold filterType. simpl.
  unfold recordStrings at 2. rewrite Hty, Hbody. reflexivity.
Qed.

(** C8: what [ParseDoHAnswer] returns for a message that unpacks, by
    result code.  Name error: a [DNSError] with [IsNotFound] set, which
    [errors.As] finds, carrying the name of the first question if there
    is one.  Success with no answer of the requested type: the empty list
    and no error.  Any other code: an error made from the name and the
    number of the code, which is not a [DNSError]. *)
Theorem ParseDoHAnswer_result_codes :
  forall ans filt m,
    Unpack ans = Ok m ->
    let rc := Dnsmessage.hRCode (Dnsmessage.mHeader m) in
    let r := ParseDoHAnswer Unpack ans filt in
    (rc = Dnsmessage.RCodeNameError ->
       r = Err (DNSError "name not found"
                  match Dnsmessage.mQuestions m with
                  | q :: _ => Dnsmessage.qName q
                  | [] => ""
                  end true)
       /\ (forall e, r = Err e -> asDNSError e = Some true))
    /\ (rc = Dnsmessage.RCodeSuccess ->
        Forall (fun a => Dnsmessage.rhType (Dnsmessage.rHeader a)
                         <> filterType filt) (Dnsmessage.mAnswers m) ->
        r = Ok [])
    /\ (rc <> Dnsmessage.RCodeSuccess -> rc <> Dnsmessage.RCodeNameError ->
        r = Err (Errorf "unsuccessful DNS response code %s (%d)"
                   [AStr (Dnsmessage.RCodeString rc); AInt rc])
        /\ (forall e, r = Err e -> asDNSError e = None)).
Proof.
  intros ans filt m HU rc r. subst r. unfold ParseDoHAnswer. rewrite HU.
  fold rc. split; [|split].
  - intros ->. simpl. split; [reflexivity|].
    intros e [= <-]. reflexivity.
  - intros Hrc Hnone. rewrite Hrc. simpl.
    now rewrite extractRecords_none.
  - intros H0 H3. apply Z.eqb_neq in H0, H3. rewrite H0, H3.
    split; [reflexivity|]. intros e [= <-]. reflexivity.
Qed.

End ParseDoHAnswerFacts.

Lemma ParseDoHAnswer_TXT_appends_strings_witness :
  ParseDoHAnswer
    (fun _ => Ok (answerMessage 0 [txtRecord ["YQ"]; txtRecord ["ab"; "cd"]]))
    [] TypeTXT
  = Ok (flat_map (recordStrings Dnsmessage.TypeTXT) [txtRecord ["YQ"]]
          ++ ["ab"; "cd"] ++ flat_map (recordStrings Dnsmessage.TypeTXT) []).
Proof.
  apply (ParseDoHAnswer_TXT_appends_strings
           (fun _ => Ok (answerMessage 0 [txtRecord ["YQ"]; txtRecord ["ab"; "cd"]]))
           [] (answerMessage 0 [txtRecord ["YQ"]; txtRecord ["ab"; "cd"]])
           [txtRecord ["YQ"]] (txtRecord ["ab"; "cd"]) [] ["ab"; "cd"]);
    reflexivity.
Defined.

(** C3 as the claim states it fails: the two character-strings of one TXT
    record come back as two entries, not as one joined string. *)
Lemma ParseDoHAnswer_TXT_not_joined :
  ParseDoHAnswer (fun _ => Ok (answerMessage 0 [txtRecord ["ab"; "cd"]]))
    [] TypeTXT = Ok ["ab"; "cd"]
  /\ ParseDoHAnswer (fun _ => Ok (answerMessage 0 [txtRecord ["ab"; "cd"]]))
       [] TypeTXT <> Ok [("ab" ++ "cd")%string].
Proof.
  split; [reflexivity | discriminate].
Qed.

Lemma ParseDoHAnswer_result_codes_witness :
  ParseDoHAnswer (fun _ => Ok (answerMessage 3 [])) [] TypeA
  = Err (DNSError "name not found" "0-f.example.com." true)
  /\ ParseDoHAnswer (fun _ => Ok (answerMessage 0 [txtRecord ["YQ"]])) [] TypeA
     = Ok []
  /\ ParseDoHAnswer (fun _ => Ok (answerMessage 2 [])) [] TypeA
     = Err (Errorf "unsuccessful DNS response code %s (%d)"
              [AStr "RCodeServerFailure"; AInt 2]).
Proof.
  split; [|split].
  - apply (ParseDoHAnswer_result_codes
             (fun _ => Ok (answerMessage 3 [])) [] TypeA
             (answerMessage 3 []) eq_refl).
    reflexivity.
  - apply (ParseDoHAnswer_result_codes
             (fun _ => Ok (answerMessage 0 [txtRecord ["YQ"]])) [] TypeA
             (answerMessage 0 [txtRecord ["YQ"]]) eq_refl); [reflexivity|].
    repeat constructor. discriminate.
  - apply (ParseDoHAnswer_result_codes
             (fun _ => Ok (answerMessage 2 [])) [] TypeA
             (answerMessage 2 []) eq_refl); discriminate.
Defined.

(** ** AppendQuery *)

Lemma rollQuestion_class_INET qname qtype q :
  rollQuestion qname qtype = Ok q ->
  Dnsmessage.qClass q = Dnsmessage.ClassINET
  /\ Dnsmessage.hRecursionDesired
       (Dnsmessage.mHeader (queryMessage q)) = true
  /\ Dnsmessage.mQuestions (queryMessage q) = [q].
Proof.
  unfold rollQuestion. destruct (queryType qtype); [|discriminate].
  destruct (Dnsmessage.NewName _); [|discriminate].
  intros [= <-]. repeat split.
Qed.

Lemma rollQuestion_type qname qtype q :
  rollQuestion qname qtype = Ok q -> queryType qtype = Some (Dnsmessage.qType q).
Proof.
  unfold rollQuestion. destruct (queryType qtype); [|discriminate].
  destruct (Dnsmessage.NewName _); [|discriminate].
  now intros [= <-].
Qed.

(** For [TypeA] and [TypeTXT] the question asks for the type requested. *)
Lemma rollQuestion_A_TXT qname q :
  (rollQuestion qname TypeA = Ok q -> Dnsmessage.qType q = Dnsmessage.TypeA)
  /\ (rollQuestion qname TypeTXT = Ok q ->
      Dnsmessage.qType q = Dnsmessage.TypeTXT).
Proof.
  split; intros H; apply rollQuestion_type in H; now inversion H.
Qed.

(** C2 fails for [TypeAAAA]: the question that [AppendQuery] packs for a
    [TypeAAAA] request has type A (1), not AAAA (28).  On the wire the
    query for ["0-f.example.com"] ends in the type 00 01 and the class
    00 01; the header has only the RecursionDesired bit (01 00) and a
    question count of one. *)
Theorem AppendQuery_AAAA_question_is_A :
  rollQuestion "0-f.example.com" TypeAAAA
  = Ok (Dnsmessage.mkQuestion "0-f.example.com." Dnsmessage.TypeA
          Dnsmessage.ClassINET)
  /\ Dnsmessage.TypeA <> Dnsmessage.TypeAAAA
  /\ AppendQuery "0-f.example.com" TypeAAAA []
     = Ok (map Zbyte [0; 0; 1; 0; 0; 1; 0; 0; 0; 0; 0; 0]
             ++ [Zbyte 3] ++ list_ascii_of_string "0-f"
             ++ [Zbyte 7] ++ list_ascii_of_string "example"
             ++ [Zbyte 3] ++ list_ascii_of_string "com"
             ++ map Zbyte [0; 0; 1; 0; 1]).
Proof.
  split; [reflexivity | split; [discriminate | vm_compute; reflexivity]].
Qed.

(** A name that dnsmessage cannot pack gives an error, not a message:
    here a label of 64 bytes. *)
Example AppendQuery_long_label :
  AppendQuery
    "0123456789012345678901234567890123456789012345678901234567890123.com"
    TypeA []
  = Err (PackError Dnsmessage.errSegTooLong).
Proof. vm_compute. reflexivity. Qed.

Lemma rollQuestion_AAAA_never_AAAA qname q :
  rollQuestion qname TypeAAAA = Ok q -> Dnsmessage.qType q = Dnsmessage.TypeA.
Proof.
  intros H; apply rollQuestion_type in H; now inversion H.
Qed.

(** ** WrapPOST *)

Lemma WrapPOST_not_200 post URL reqBody res :
  post URL "" reqBody = Ok res ->
  StatusCode res <> 200 ->
  WrapPOST post URL reqBody
  = Err (Errorf "non-2xx response status %d %s"
           [AInt (StatusCode res); AStr (Status res)]).
Proof.
  intros Hp Hs. unfold WrapPOST. rewrite Hp.
  destruct ((200 <? StatusCode res) || (200 >? StatusCode res)) eqn:E;
    [reflexivity|].
  apply orb_false_iff in E as [E1 E2].
  apply Z.ltb_ge in E1. rewrite Z.gtb_ltb in E2. apply Z.ltb_ge in E2. lia.
Qed.

Lemma ReadFull_long data ending n :
  0 <= n <= llenZ data ->
  ReadFull data ending n = (firstn (Z.to_nat n) data, None).
Proof.
  intros H. unfold ReadFull.
  destruct (n <=? llenZ data) eqn:E; [reflexivity|].
  apply Z.leb_gt in E. lia.
Qed.

(** A body of 1 to [MaxPOSTBody] bytes that ends with [io.EOF] comes back
    whole; a longer one is cut at [MaxPOSTBody] bytes without an error.
    An empty body is an error: [io.ReadFull] reports a plain [io.EOF]
    for it. *)
Lemma WrapPOST_200 post URL reqBody res :
  post URL "" reqBody = Ok res ->
  StatusCode res = 200 ->
  bodyEnd res = ioEOF ->
  WrapPOST post URL reqBody
  = match bodyData res with
    | [] => Err (Wrapf "reading response body: %w" [] ioEOF)
    | _ => Ok (firstn (Z.to_nat MaxPOSTBody) (bodyData res))
    end.
Proof.
  intros Hp Hs He. unfold WrapPOST. rewrite Hp, Hs, He.
  change ((200 <? 200) || (200 >? 200)) with false. cbv iota.
  unfold ReadFull.
  destruct (MaxPOSTBody <=? llenZ (bodyData res)) eqn:E.
  - destruct (bodyData res); [|reflexivity].
    apply Z.leb_le in E. unfold MaxPOSTBody, llenZ in E. simpl in E. lia.
  - apply Z.leb_gt in E.
    destruct (bodyData res) as [|c t] eqn:Eb; [reflexivity|].
    cbv iota. change (isUnexpectedEOF ioErrUnexpectedEOF) with true.
    cbv iota beta. change (negb true) with false. cbv iota.
    rewrite firstn_all2; [reflexivity|].
    unfold llenZ, MaxPOSTBody in *. lia.
Qed.

(** C4 fails on the code for every 2xx status other than 200: the
    client made by [WrapPOST] turns a response with a status from 201 to
    299 into the "non-2xx" error, whatever its body. *)
Theorem WrapPOST_2xx_above_200_is_error :
  forall post URL reqBody res,
    post URL "" reqBody = Ok res ->
    200 < StatusCode res <= 299 ->
    WrapPOST post URL reqBody
    = Err (Errorf "non-2xx response status %d %s"
             [AInt (StatusCode res); AStr (Status res)]).
Proof.
  intros post URL reqBody res Hp Hs.
  apply WrapPOST_not_200; [exact Hp | lia].
Qed.

Lemma WrapPOST_2xx_above_200_is_error_witness :
  WrapPOST (postAnswering 201 "201 Created" (list_ascii_of_string "x"))
    "https://example.net/dns-query" []
  = Err (Errorf "non-2xx response status %d %s"
           [AInt 201; AStr "201 Created"]).
Proof.
  apply (WrapPOST_2xx_above_200_is_error
           (postAnswering 201 "201 Created" (list_ascii_of_string "x"))
           "https://example.net/dns-query" []
           (mkResponse 201 "201 Created" (list_ascii_of_string "x") ioEOF)).
  - reflexivity.
  - simpl. lia.
Defined.

(** With status 200 the same body comes back. *)
Example WrapPOST_200_run :
  WrapPOST (postAnswering 200 "200 OK" (list_ascii_of_string "x"))
    "https://example.net/dns-query" []
  = Ok (list_ascii_of_string "x").
Proof. vm_compute. reflexivity. Qed.

(** ** DecodeResponse on addresses *)

Lemma To4_length ip p : Net.To4 ip = Some p -> List.length p = 4%nat.
Proof.
  unfold Net.To4.
  destruct (Nat.eqb (List.length ip) Net.IPv4len) eqn:E4.
  - intros [= <-]. now apply Nat.eqb_eq in E4.
  - destruct (Nat.eqb (List.length ip) Net.IPv6len) eqn:E16; [|discriminate].
    apply Nat.eqb_eq in E16.
    match goal with
    | |- (if ?c then _ else _) = _ -> _ => destruct c; [|discriminate]
    end.
    remember (firstn 4 (skipn 12 ip)) as r eqn:Er.
    intros [= <-]. subst r.
    rewrite length_firstn, length_skipn, E16. reflexivity.
Qed.

Lemma To16_length ip p : Net.To16 ip = Some p -> List.length p = 16%nat.
Proof.
  unfold Net.To16.
  destruct ip as [|a [|b [|c [|d [|e t]]]]]; try discriminate.
  - intros [= <-]. reflexivity.
  - destruct (Nat.eqb _ _) eqn:E; [|discriminate].
    intros [= <-]. now apply Nat.eqb_eq in E.
Qed.

Lemma DecodeResponse_A buf res :
  DecodeResponse TypeA buf res =
  match Net.ParseIP res with
  | None => ([], Some (Errorf "invalid IP address %q" [AStr res]))
  | Some ip =>
      match Net.To4 ip with
      | None => ([], Some (Errorf "unable to parse IP address %s" [AStr res]))
      | Some ip4 =>
          if 4 >? llenZ buf
          then ([], Some (Errorf "buffer too small for record of type %s"
                            [AStr TypeA]))
          else (firstn (List.length buf) (skipn 1 ip4), None)
      end
  end.
Proof.
  unfold DecodeResponse, decodeA. simpl.
  destruct (Net.ParseIP res); reflexivity.
Qed.

Lemma DecodeResponse_AAAA buf res :
  DecodeResponse TypeAAAA buf res =
  match Net.ParseIP res with
  | None => ([], Some (Errorf "invalid IP address %q" [AStr res]))
  | Some ip =>
      match Net.To16 ip with
      | None => ([], Some (Errorf "unable to parse IP address %s" [AStr res]))
      | Some ip16 =>
          if 16 >? llenZ buf
          then ([], Some (Errorf "buffer too small for record of type %s"
                            [AStr TypeAAAA]))
          else (firstn (List.length buf) (skipn 8 ip16), None)
      end
  end.
Proof.
  unfold DecodeResponse, decodeA. simpl.
  destruct (Net.ParseIP res); reflexivity.
Qed.

(** A decoded A answer has 3 bytes and a decoded AAAA answer 8. *)
Lemma DecodeResponse_A_length buf res d :
  DecodeResponse TypeA buf res = (d, None) -> List.length d = 3%nat.
Proof.
  rewrite DecodeResponse_A.
  destruct (Net.ParseIP res); [|discriminate].
  destruct (Net.To4 i) as [ip4|] eqn:E4; [|discriminate].
  destruct (4 >? llenZ buf) eqn:Eb; [discriminate|].
  intros H.
  assert (Hd : d = firstn (List.length buf) (skipn 1 ip4)) by congruence.
  subst d. clear H. apply To4_length in E4.
  rewrite Z.gtb_ltb in Eb. apply Z.ltb_ge in Eb. unfold llenZ in Eb.
  rewrite length_firstn, length_skipn, E4. lia.
Qed.

Lemma DecodeResponse_AAAA_length buf res d :
  DecodeResponse TypeAAAA buf res = (d, None) -> List.length d = 8%nat.
Proof.
  rewrite DecodeResponse_AAAA.
  destruct (Net.ParseIP res); [|discriminate].
  destruct (Net.To16 i) as [ip16|] eqn:E16; [|discriminate].
  destruct (16 >? llenZ buf) eqn:Eb; [discriminate|].
  intros H.
  assert (Hd : d = firstn (List.length buf) (skipn 8 ip16)) by congruence.
  subst d. clear H. apply To16_length in E16.
  rewrite Z.gtb_ltb in Eb. apply Z.ltb_ge in Eb. unfold llenZ in Eb.
  rewrite length_firstn, length_skipn, E16. lia.
Qed.

(** C10: with a buffer shorter than 4 bytes [DecodeResponse] fails for
    type A on every response, and returns no byte.  The response is parsed
    before the buffer is looked at, so the error is the buffer-too-small
    one exactly for the responses that are an IPv4 address; a response
    that is no IP address gets "invalid IP address" and an address that
    has no 4-byte form "unable to parse IP address".  The same holds with
    16 bytes for type AAAA.  A buffer of [PayloadSize] bytes (3 or 8) is
    such a buffer. *)
Theorem DecodeResponse_short_buffer :
  forall buf res,
    (llenZ buf < 4 ->
       DecodeResponse TypeA buf res
       = ([], Some match Net.ParseIP res with
                   | None => Errorf "invalid IP address %q" [AStr res]
                   | Some ip =>
                       match Net.To4 ip with
                       | None =>
                           Errorf "unable to parse IP address %s" [AStr res]
                       | Some _ =>
                           Errorf "buffer too small for record of type %s"
                             [AStr TypeA]
                       end
                   end))
    /\ (llenZ buf < 16 ->
          DecodeResponse TypeAAAA buf res
          = ([], Some match Net.ParseIP res with
                      | None => Errorf "invalid IP address %q" [AStr res]
                      | Some ip =>
                          match Net.To16 ip with
                          | None =>
                              Errorf "unable to parse IP address %s" [AStr res]
                          | Some _ =>
                              Errorf "buffer too small for record of type %s"
                                [AStr TypeAAAA]
                          end
                      end)).
Proof.
  intros buf res. split; intros Hlen.
  - rewrite DecodeResponse_A.
    assert (E : (4 >? llenZ buf) = true) by (rewrite Z.gtb_ltb; now apply Z.ltb_lt).
    destruct (Net.ParseIP res) as [ip|]; [|reflexivity].
    destruct (Net.To4 ip); [|reflexivity]. now rewrite E.
  - rewrite DecodeResponse_AAAA.
    assert (E : (16 >? llenZ buf) = true) by (rewrite Z.gtb_ltb; now apply Z.ltb_lt).
    destruct (Net.ParseIP res) as [ip|]; [|reflexivity].
    destruct (Net.To16 ip); [|reflexivity]. now rewrite E.
Qed.

Lemma DecodeResponse_short_buffer_witness :
  DecodeResponse TypeA (repeat Net.zeroByte 3) "3.1.2.3"
  = ([], Some (Errorf "buffer too small for record of type %s" [AStr TypeA]))
  /\ DecodeResponse TypeAAAA (repeat Net.zeroByte 8) "2600:9000:5305:ce00::1"
     = ([], Some (Errorf "buffer too small for record of type %s"
                    [AStr TypeAAAA])).
Proof.
  split.
  - apply (proj1 (DecodeResponse_short_buffer (repeat Net.zeroByte 3) "3.1.2.3")).
    vm_compute. reflexivity.
  - apply (proj2 (DecodeResponse_short_buffer (repeat Net.zeroByte 8)
                    "2600:9000:5305:ce00::1")).
    vm_compute. reflexivity.
Defined.

(** With a 3-byte buffer, the payload size of type A, a response that is
    no IP address fails with "invalid IP address", and an IPv6 address,
    the answer to a AAAA query, with "unable to parse IP address": neither
    is the buffer-too-small error.  The buffer is checked only after the
    response has parsed. *)
Lemma DecodeResponse_short_buffer_other_error :
  PayloadSize TypeA = Ok 3
  /\ DecodeResponse TypeA (repeat Net.zeroByte 3) "example.com."
     = ([], Some (Errorf "invalid IP address %q" [AStr "example.com."]))
  /\ DecodeResponse TypeA (repeat Net.zeroByte 3) "2600:9000:5305:ce00::1"
     = ([], Some (Errorf "unable to parse IP address %s"
                    [AStr "2600:9000:5305:ce00::1"]))
  /\ DecodeResponse TypeA (repeat Net.zeroByte 3) "example.com."
     <> ([], Some (Errorf "buffer too small for record of type %s"
                     [AStr TypeA]))
  /\ DecodeResponse TypeA (repeat Net.zeroByte 3) "2600:9000:5305:ce00::1"
     <> ([], Some (Errorf "buffer too small for record of type %s"
                     [AStr TypeA])).
Proof.
  repeat split; try (vm_compute; reflexivity); vm_compute; discriminate.
Qed.

(** ** The server at the end of a file *)

Import Dnsfserv.

Section HandleFacts.

Variable unicodeLower : string -> string.
Variable Unpack : list ascii -> option Dnsmessage.Message.
Variable AppendPack : Dnsmessage.Message -> option (list ascii).
Variable openFile : string -> option File.
Variable ttl : Z.
Variable fdir : string.

Let handle' := handle unicodeLower Unpack AppendPack openFile ttl fdir.
Let serveFile' := serveFile AppendPack openFile ttl fdir.

Lemma handle_parsed pkt msg q0 qs foff part1 :
  Unpack pkt = Some msg ->
  Dnsmessage.mQuestions msg = q0 :: qs ->
  parseQuery unicodeLower (Dnsmessage.qName q0) = Some (foff, part1) ->
  handle' pkt = serveFile' (setUpHeader msg) q0 foff part1.
Proof.
  intros HU HQ HP. unfold handle', handle. rewrite HU. simpl.
  rewrite HQ, HP. reflexivity.
Qed.

(** C9: a query that unpacks, has a first question whose name parses to
    an offset and a file name, and names a file that opens, whose length
    is at most the offset: the handler writes back one packet and stops.
    The packet is the query with the reply header and the result code
    name-error; it has the answer records of the query, that is none. *)
Theorem handle_eof_negative_answer :
  forall pkt msg q0 qs foff part1 f flen p,
    Unpack pkt = Some msg ->
    Dnsmessage.mQuestions msg = q0 :: qs ->
    Dnsmessage.mAnswers msg = [] ->
    parseQuery unicodeLower (Dnsmessage.qName q0) = Some (foff, part1) ->
    openFile (Filepath.Join [fdir; Filepath.Clean part1]) = Some f ->
    SeekEnd f = Ok flen ->
    0 <= flen < 2 ^ 63 ->
    flen <= foff ->
    let reply := setRCode Dnsmessage.RCodeNameError (setUpHeader msg) in
    AppendPack reply = Some p ->
    handle' pkt
    = [OpenFile (Filepath.Join [fdir; Filepath.Clean part1]); WriteTo p]
    /\ Dnsmessage.hRCode (Dnsmessage.mHeader reply) = Dnsmessage.RCodeNameError
    /\ Dnsmessage.hResponse (Dnsmessage.mHeader reply) = true
    /\ Dnsmessage.mAnswers reply = [].
Proof.
  intros pkt msg q0 qs foff part1 f flen p HU HQ HA HP HO HS Hlen Hoff reply HPk.
  split; [|split; [reflexivity | split; [reflexivity | exact HA]]].
  rewrite (handle_parsed pkt msg q0 qs foff part1 HU HQ HP).
  unfold serveFile', serveFile. rewrite HO, HS.
  assert (Hw : wrap64 flen = flen).
  { unfold wrap64. apply Z.mod_small. lia. }
  rewrite Hw.
  assert (E : (foff >=? flen) = true) by (apply Z.geb_le; lia).
  rewrite E. unfold sendEOF, sendResponse. fold reply. now rewrite HPk.
Qed.

(** When the first [Seek] fails the length stays 0 and every offset is at
    the end of the file. *)
Lemma handle_seek_error pkt msg q0 qs foff part1 f e :
  Unpack pkt = Some msg ->
  Dnsmessage.mQuestions msg = q0 :: qs ->
  parseQuery unicodeLower (Dnsmessage.qName q0) = Some (foff, part1) ->
  openFile (Filepath.Join [fdir; Filepath.Clean part1]) = Some f ->
  SeekEnd f = Err e ->
  0 <= foff ->
  handle' pkt
  = OpenFile (Filepath.Join [fdir; Filepath.Clean part1])
      :: sendEOF AppendPack (setUpHeader msg).
Proof.
  intros HU HQ HP HO HS Hoff.
  rewrite (handle_parsed pkt msg q0 qs foff part1 HU HQ HP).
  unfold serveFile', serveFile. rewrite HO, HS.
  assert (E : (foff >=? wrap64 0) = true) by (apply Z.geb_le; exact Hoff).
  now rewrite E.
Qed.

End HandleFacts.

Lemma handle_eof_negative_answer_witness :
  handle (fun s => s) (fun _ => Some (queryFor "3-f.example.com." Dnsmessage.TypeA))
    (fun _ => Some (list_ascii_of_string "packed"))
    (oneFile "fserv/f" (map Zbyte [1; 2; 3])) 1800 "fserv" []
  = [OpenFile "fserv/f"; WriteTo (list_ascii_of_string "packed")].
Proof.
  refine (proj1 (handle_eof_negative_answer (fun s => s)
            (fun _ => Some (queryFor "3-f.example.com." Dnsmessage.TypeA))
            (fun _ => Some (list_ascii_of_string "packed"))
            (oneFile "fserv/f" (map Zbyte [1; 2; 3])) 1800 "fserv"
            [] (queryFor "3-f.example.com." Dnsmessage.TypeA)
            (Dnsmessage.mkQuestion "3-f.example.com." Dnsmessage.TypeA
               Dnsmessage.ClassINET)
            [] 3 "f" (regularFile (map Zbyte [1; 2; 3])) 3
            (list_ascii_of_string "packed")
            eq_refl _ eq_refl _ eq_refl eq_refl _ _ eq_refl)).
  - reflexivity.
  - vm_compute; reflexivity.
  - lia.
  - lia.
Defined.

(** ** The transfer loop *)

Section GetFacts.

Variable DefaultQuerier : Querier.
Variable pipeWrite : Z -> list ascii -> option error.

Lemma NextName_A g :
  Type_ g = TypeA ->
  NextName g
  = (Ok (queryName (nextOffset g) (Name g) (Domain g)),
     setOff g (wrap64 (nextOffset g + 3))).
Proof.
  intros HT. unfold NextName, nextOffset.
  destruct ((off g =? 0) && negb (StartOff g =? 0));
    destruct g; simpl in *; subst; reflexivity.
Qed.

(** One iteration of the loop for type A that ends in a write. *)
Lemma getLoop_A_step fuel qr g written o s rest d :
  Type_ g = TypeA ->
  Max g <> 0 ->
  NextName g = (Ok (queryName o (Name g) (Domain g)), setOff g (wrap64 (o + 3))) ->
  A qr (queryName o (Name g) (Domain g)) = Ok (s :: rest) ->
  DecodeResponse TypeA (repeat Net.zeroByte MaxDecode) s = (d, None) ->
  pipeWrite written (firstn (Z.to_nat (Z.min (Max g) (llenZ d))) d) = None ->
  getLoop pipeWrite (S fuel) qr false g written
  = andThen (Query TypeA (queryName o (Name g) (Domain g)))
      (andThen (Write (firstn (Z.to_nat (Z.min (Max g) (llenZ d))) d))
         (getLoop pipeWrite fuel qr false
            (setMax (setOff g (wrap64 (o + 3)))
               (wrap64 (Max g - Z.min (Max g) (llenZ d))))
            (written + Z.min (Max g) (llenZ d)))).
Proof.
  intros HT HM HN HA HD HW.
  cbn [getLoop]. apply Z.eqb_neq in HM. rewrite HM, HN.
  cbn [andb negb Type_ setOff]. rewrite HT.
  change (query qr TypeA ?q) with (Some (A qr q)).
  cbv iota beta. rewrite HA, HD. cbv iota beta.
  cbn [Max setOff andb negb].
  assert (Emin : (if (Max g <? llenZ d) && true then Max g else llenZ d)
                 = Z.min (Max g) (llenZ d)).
  { rewrite andb_true_r. destruct (Max g <? llenZ d) eqn:E.
    - apply Z.ltb_lt in E. lia.
    - apply Z.ltb_ge in E. lia. }
  rewrite Emin, HW. reflexivity.
Qed.

(** C7: a getter with [Max = 5] and type A, a querier whose [A] gives
    every name an answer that decodes (to 3 bytes), and a reader that
    takes whatever is written.  With fuel for three iterations the run
    ends; it makes two queries, the first for the start offset, writes
    the 3 bytes decoded from the first answer and the first 2 of the 3
    bytes decoded from the second, and closes the pipe without an error:
    5 bytes in all. *)
Theorem get_max5_typeA :
  forall qr name domain startOff fuel,
    (forall written data, pipeWrite written data = None) ->
    (forall q, exists s rest d,
        A qr q = Ok (s :: rest)
        /\ DecodeResponse TypeA (repeat Net.zeroByte MaxDecode) s = (d, None)) ->
    (3 <= fuel)%nat ->
    exists s1 rest1 d1 o2 s2 rest2 d2,
      let q1 := queryName startOff name domain in
      let q2 := queryName o2 name domain in
      let evs := [Query TypeA q1; Write d1;
                  Query TypeA q2; Write (firstn 2 d2); Close] in
      A qr q1 = Ok (s1 :: rest1)
      /\ DecodeResponse TypeA (repeat Net.zeroByte MaxDecode) s1 = (d1, None)
      /\ A qr q2 = Ok (s2 :: rest2)
      /\ DecodeResponse TypeA (repeat Net.zeroByte MaxDecode) s2 = (d2, None)
      /\ get DefaultQuerier pipeWrite fuel
           (mkGetter TypeA name domain startOff 5 (Some qr) 0)
         = Some evs
      /\ List.length (streamOf evs) = 5%nat
      /\ List.length (queriesOf evs) = 2%nat.
Proof.
  intros qr name domain startOff fuel HW HQ Hfuel.
  destruct fuel as [|[|[|fuel]]]; try lia.
  unfold get. cbn [Querier_ Max]. change (5 =? 0) with false.
  set (g0 := setQuerier _ qr).
  pose proof (NextName_A g0 eq_refl) as HN1.
  assert (Ho1 : nextOffset g0 = startOff).
  { unfold nextOffset, g0. cbn [off StartOff setQuerier].
    destruct (startOff =? 0) eqn:E; [|reflexivity].
    apply Z.eqb_eq in E. now subst. }
  rewrite Ho1 in HN1.
  destruct (HQ (queryName startOff (Name g0) (Domain g0)))
    as (s1 & r1 & d1 & HA1 & HD1).
  pose proof (DecodeResponse_A_length _ _ _ HD1) as L1.
  assert (Z1 : llenZ d1 = 3) by (unfold llenZ; lia).
  rewrite (getLoop_A_step _ qr g0 0 startOff s1 r1 d1 eq_refl
             ltac:(discriminate) HN1 HA1 HD1 (HW _ _)).
  cbn [Max g0 setQuerier]. rewrite Z1.
  change (Z.min 5 3) with 3. change (wrap64 (5 - 3)) with 2.
  set (g1 := setMax _ 2).
  pose proof (NextName_A g1 eq_refl) as HN2.
  destruct (HQ (queryName (nextOffset g1) (Name g1) (Domain g1)))
    as (s2 & r2 & d2 & HA2 & HD2).
  pose proof (DecodeResponse_A_length _ _ _ HD2) as L2.
  assert (Z2 : llenZ d2 = 3) by (unfold llenZ; lia).
  rewrite (getLoop_A_step _ qr g1 _ (nextOffset g1) s2 r2 d2 eq_refl
             ltac:(discriminate) HN2 HA2 HD2 (HW _ _)).
  cbn [Max g1 setMax]. rewrite Z2.
  change (Z.min 2 3) with 2. change (wrap64 (2 - 2)) with 0.
  cbn [getLoop Max setMax andThen]. change (0 =? 0) with true.
  cbn [andb negb andThen].
  change (Z.to_nat 3) with 3%nat. change (Z.to_nat 2) with 2%nat.
  rewrite (firstn_all2 d1) by lia.
  exists s1, r1, d1, (nextOffset g1), s2, r2, d2.
  cbv zeta. repeat split; try assumption.
  cbn [streamOf]. rewrite !length_app, length_firstn, L1, L2. reflexivity.
Qed.

End GetFacts.

Lemma get_max5_typeA_witness :
  exists s1 rest1 d1 o2 s2 rest2 d2,
    let q1 := queryName 0 "f" "example.com" in
    let q2 := queryName o2 "f" "example.com" in
    let evs := [Query TypeA q1; Write d1;
                Query TypeA q2; Write (firstn 2 d2); Close] in
    A (constQuerier ["3.1.2.3"]) q1 = Ok (s1 :: rest1)
    /\ DecodeResponse TypeA (repeat Net.zeroByte MaxDecode) s1 = (d1, None)
    /\ A (constQuerier ["3.1.2.3"]) q2 = Ok (s2 :: rest2)
    /\ DecodeResponse TypeA (repeat Net.zeroByte MaxDecode) s2 = (d2, None)
    /\ get (constQuerier []) (fun _ _ => None) 3
         (mkGetter TypeA "f" "example.com" 0 5
            (Some (constQuerier ["3.1.2.3"])) 0)
       = Some evs
    /\ List.length (streamOf evs) = 5%nat
    /\ List.length (queriesOf evs) = 2%nat.
Proof.
  apply (get_max5_typeA (constQuerier []) (fun _ _ => None)
           (constQuerier ["3.1.2.3"]) "f" "example.com" 0 3).
  - intros; reflexivity.
  - intros q. exists "3.1.2.3", [], (map Zbyte [1; 2; 3]).
    split; [reflexivity | vm_compute; reflexivity].
  - apply le_n.
Defined.

Example get_max5_typeA_run :
  get (constQuerier []) (fun _ _ => None) 3
    (mkGetter TypeA "f" "example.com" 0 5 (Some (constQuerier ["3.1.2.3"])) 0)
  = Some [Query TypeA "0-f.example.com"; Write (map Zbyte [1; 2; 3]);
          Query TypeA "3-f.example.com"; Write (map Zbyte [1; 2]); Close].
Proof. vm_compute. reflexivity. Qed.

(** ** Strings *)

Lemma append_nil_r s : (s ++ "")%string = s.
Proof. induction s; simpl; congruence. Qed.

Lemma append_assoc s t u : ((s ++ t) ++ u)%string = (s ++ (t ++ u))%string.
Proof. induction s; simpl; congruence. Qed.

Lemma length_append s t :
  String.length (s ++ t) = (String.length s + String.length t)%nat.
Proof. induction s; simpl; congruence. Qed.

Lemma allBytes_append p s t :
  GoStrings.allBytes p (s ++ t)
  = GoStrings.allBytes p s && GoStrings.allBytes p t.
Proof.
  induction s as [|c s IH]; simpl; [reflexivity|].
  now rewrite IH, andb_assoc.
Qed.

Lemma allBytes_impl (p q : ascii -> bool) s :
  (forall c, p c = true -> q c = true) ->
  GoStrings.allBytes p s = true -> GoStrings.allBytes q s = true.
Proof.
  intros Hpq. induction s as [|c s IH]; simpl; [reflexivity|].
  intros H. apply andb_true_iff in H as [H1 H2].
  now rewrite (Hpq _ H1), IH.
Qed.

Lemma mapBytes_append f s t :
  GoStrings.mapBytes f (s ++ t)
  = (GoStrings.mapBytes f s ++ GoStrings.mapBytes f t)%string.
Proof. induction s; simpl; congruence. Qed.

Lemma mapBytes_id f p s :
  (forall c, p c = true -> f c = c) ->
  GoStrings.allBytes p s = true -> GoStrings.mapBytes f s = s.
Proof.
  intros Hf. induction s as [|c s IH]; simpl; [reflexivity|].
  intros H. apply andb_true_iff in H as [H1 H2].
  now rewrite (Hf _ H1), IH.
Qed.

(** The first separator is found behind a text that has none. *)
Lemma cut_append sep s t :
  GoStrings.allBytes (fun c => negb (Ascii.eqb c sep)) s = true ->
  GoStrings.cut sep (s ++ String sep t) = Some (s, t).
Proof.
  induction s as [|c s IH]; simpl.
  - now rewrite Ascii.eqb_refl.
  - intros H. apply andb_true_iff in H as [H1 H2].
    apply negb_true_iff in H1. now rewrite H1, IH.
Qed.

Lemma cut_none sep s :
  GoStrings.allBytes (fun c => negb (Ascii.eqb c sep)) s = true ->
  GoStrings.cut sep s = None.
Proof.
  induction s as [|c s IH]; simpl; [reflexivity|].
  intros H. apply andb_true_iff in H as [H1 H2].
  apply negb_true_iff in H1. now rewrite H1, IH.
Qed.

(** What [cut] returns: the text before the separator has none. *)
Lemma cut_some sep s a b :
  GoStrings.cut sep s = Some (a, b) ->
  s = (a ++ String sep b)%string
  /\ GoStrings.allBytes (fun c => negb (Ascii.eqb c sep)) a = true.
Proof.
  revert a b. induction s as [|c s IH]; simpl; intros a b; [discriminate|].
  destruct (Ascii.eqb c sep) eqn:E.
  - intros [= <- <-]. apply Ascii.eqb_eq in E. subst. now split.
  - destruct (GoStrings.cut sep s) as [[a' b']|]; [|discriminate].
    intros [= <- <-]. destruct (IH a' b' eq_refl) as [-> Hn].
    split; [reflexivity|]. simpl. now rewrite E, Hn.
Qed.

(** A property of all [n] numbers below [n], checked one by one. *)
Lemma below_ind (P : Z -> Prop) (n : nat) :
  (forall k, (k < n)%nat -> P (Z.of_nat k)) ->
  forall d, 0 <= d < Z.of_nat n -> P d.
Proof.
  intros H d Hd. rewrite <- (Z2Nat.id d) by lia. apply H. lia.
Qed.

(** ** Base 36 *)

Module Strconv_facts.
Import Strconv.

Lemma digitChar_props d :
  0 <= d < 36 ->
  isDigit36 (digitChar d) = true /\ digitVal (digitChar d) = Some d.
Proof.
  revert d. apply (below_ind _ 36). intros k Hk.
  do 36 (destruct k as [|k]; [vm_compute; split; reflexivity|]). lia.
Qed.

Lemma isDigit36_props c :
  isDigit36 c = true ->
  validFilenameByte c = true
  /\ Ascii.eqb c "-" = false
  /\ GoStrings.lowerByte c = c.
Proof.
  destruct c as [[] [] [] [] [] [] [] []]; vm_compute;
    try discriminate; intros _; repeat split.
Qed.

Lemma formatBits_digits rounds u acc :
  0 <= u ->
  GoStrings.allBytes isDigit36 acc = true ->
  GoStrings.allBytes isDigit36 (formatBits rounds u acc) = true.
Proof.
  revert u acc. induction rounds as [|r IH]; intros u acc Hu Hacc; simpl.
  - exact Hacc.
  - destruct (u <? 36) eqn:E.
    + apply Z.ltb_lt in E. simpl.
      now rewrite (proj1 (digitChar_props u (conj Hu E))).
    + apply IH; [apply Z.div_pos; lia|]. simpl.
      rewrite (proj1 (digitChar_props (u mod 36)
                        (Z.mod_pos_bound u 36 eq_refl))).
      exact Hacc.
Qed.

Lemma formatBits_not_empty rounds u acc :
  (rounds <> 0%nat \/ acc <> "") -> formatBits rounds u acc <> "".
Proof.
  revert u acc. induction rounds as [|r IH]; intros u acc H; simpl.
  - destruct H as [H|H]; [now elim H | exact H].
  - destruct (u <? 36); [discriminate|].
    apply IH. right. discriminate.
Qed.

Lemma parseLoop_digit n d s :
  0 <= d < 36 -> 0 <= n -> n * 36 + d <= uint64_max ->
  parseLoop n (String (digitChar d) s) = parseLoop (n * 36 + d) s.
Proof.
  intros Hd Hn Hmax. simpl.
  rewrite (proj2 (digitChar_props d Hd)).
  assert (C : cutoff = 512409557603043101) by reflexivity.
  assert (M : uint64_max = 18446744073709551615) by reflexivity.
  destruct (n >=? cutoff) eqn:E1.
  - rewrite Z.geb_leb in E1. apply Z.leb_le in E1. lia.
  - assert (W1 : wrap64 (n * 36) = n * 36)
      by (unfold wrap64; apply Z.mod_small; lia).
    rewrite W1.
    assert (W2 : wrap64 (n * 36 + d) = n * 36 + d)
      by (unfold wrap64; apply Z.mod_small; lia).
    rewrite W2.
    destruct (n * 36 + d <? n * 36) eqn:E2; [apply Z.ltb_lt in E2; lia|].
    destruct (n * 36 + d >? uint64_max) eqn:E3;
      [rewrite Z.gtb_ltb in E3; apply Z.ltb_lt in E3; lia|].
    reflexivity.
Qed.

Lemma parseLoop_formatBits rounds u acc :
  0 <= u <= uint64_max ->
  u < 36 ^ Z.of_nat rounds ->
  parseLoop 0 (formatBits rounds u acc) = parseLoop u acc.
Proof.
  revert u acc. induction rounds as [|r IH]; intros u acc Hu Hr.
  - simpl in Hr. assert (u = 0) by lia. subst. reflexivity.
  - simpl formatBits. destruct (u <? 36) eqn:E.
    + apply Z.ltb_lt in E.
      rewrite parseLoop_digit; [reflexivity | lia | lia | lia].
    + apply Z.ltb_ge in E.
      assert (Hq : 0 <= u / 36 <= u) by
        (split; [apply Z.div_pos; lia | apply Z.div_le_upper_bound; lia]).
      rewrite IH; [| lia |].
      * pose proof (Z.mod_pos_bound u 36 eq_refl) as Hm.
        pose proof (Z.div_mod u 36 ltac:(lia)) as Hdm.
        rewrite parseLoop_digit; [f_equal; lia | lia | lia | lia].
      * rewrite Nat2Z.inj_succ, Z.pow_succ_r in Hr by lia.
        apply Z.div_lt_upper_bound; lia.
Qed.

(** [ParseUint(FormatUint(u, 36), 36, 64) = u] for every 64-bit [u]. *)
Lemma ParseUint36_FormatUint36 u :
  0 <= u <= uint64_max -> ParseUint36 (FormatUint36 u) = Ok u.
Proof.
  intros Hu. unfold ParseUint36.
  assert (Hne : FormatUint36 u <> "").
  { unfold FormatUint36. apply formatBits_not_empty. left. discriminate. }
  destruct (FormatUint36 u) eqn:E; [now elim Hne|].
  rewrite <- E. unfold FormatUint36.
  rewrite parseLoop_formatBits; [reflexivity | exact Hu |].
  assert (H64 : uint64_max < 36 ^ Z.of_nat 64) by (vm_compute; reflexivity).
  lia.
Qed.

End Strconv_facts.

(** ** The query name round trip *)

Lemma validFilenameByte_props c :
  validFilenameByte c = true ->
  GoStrings.isASCIIByte c = true
  /\ GoStrings.lowerByte c = c
  /\ negb (Ascii.eqb c ".") = true.
Proof.
  unfold validFilenameByte, GoStrings.lowerByte. intros H.
  apply andb_true_iff in H as [H H3]. apply andb_true_iff in H as [H1 H2].
  apply negb_true_iff in H2. now rewrite H2.
Qed.

Lemma digits_valid s :
  GoStrings.allBytes isDigit36 s = true -> validFilename s = true.
Proof.
  apply allBytes_impl. intros c H.
  now apply Strconv_facts.isDigit36_props.
Qed.

Lemma digits_no_dash s :
  GoStrings.allBytes isDigit36 s = true ->
  GoStrings.allBytes (fun c => negb (Ascii.eqb c "-")) s = true.
Proof.
  apply allBytes_impl. intros c H.
  apply Strconv_facts.isDigit36_props in H as (_ & H & _). now rewrite H.
Qed.

Lemma valid_ascii s :
  validFilename s = true -> GoStrings.isASCII s = true.
Proof.
  apply allBytes_impl. intros c H. now apply validFilenameByte_props.
Qed.

Lemma valid_no_dot s :
  validFilename s = true ->
  GoStrings.allBytes (fun c => negb (Ascii.eqb c ".")) s = true.
Proof.
  apply allBytes_impl. intros c H. now apply validFilenameByte_props.
Qed.

Lemma valid_lower s :
  validFilename s = true -> GoStrings.mapBytes GoStrings.lowerByte s = s.
Proof.
  apply mapBytes_id. intros c H. now apply validFilenameByte_props.
Qed.

Section NameRoundTrip.

Variable unicodeLower : string -> string.

Lemma parseQuery_queryName off name domain :
  0 <= off <= uint64_max ->
  validFilename name = true ->
  GoStrings.isASCII domain = true ->
  parseQuery unicodeLower (queryName off name domain) = Some (off, name).
Proof.
  intros Hoff Hname Hdom.
  pose proof (Strconv_facts.formatBits_digits 64 off ""
                (proj1 Hoff) eq_refl) as Hdig.
  fold (Strconv.FormatUint36 off) in Hdig.
  pose proof (Strconv_facts.ParseUint36_FormatUint36 off Hoff) as Hparse.
  unfold parseQuery, queryName.
  set (fmt := Strconv.FormatUint36 off) in *.
  (* the first label, with no dot in it *)
  set (label0 := (fmt ++ "-" ++ name)%string).
  assert (Hlab : validFilename label0 = true).
  { unfold label0, validFilename. rewrite !allBytes_append.
    fold (validFilename fmt) (validFilename name).
    now rewrite (digits_valid fmt Hdig), Hname. }
  assert (Hq : (fmt ++ "-" ++ name ++ "." ++ domain)%string
               = (label0 ++ String "." domain)%string).
  { unfold label0. now rewrite !append_assoc. }
  rewrite Hq.
  (* lower case changes the domain at most *)
  unfold GoStrings.ToLower.
  assert (Hasc : GoStrings.isASCII (label0 ++ String "." domain) = true).
  { unfold GoStrings.isASCII. rewrite allBytes_append.
    fold (GoStrings.isASCII label0). rewrite (valid_ascii _ Hlab).
    simpl. exact Hdom. }
  rewrite Hasc, mapBytes_append, (valid_lower _ Hlab). simpl GoStrings.mapBytes.
  change (GoStrings.lowerByte ".") with "."%char.
  unfold GoStrings.SplitN2.
  rewrite (cut_append "." label0 _ (valid_no_dot _ Hlab)).
  unfold label0. change ("-" ++ name)%string with (String "-" name).
  rewrite (cut_append "-" fmt name (digits_no_dash _ Hdig)).
  rewrite Hparse.
  destruct fmt; [discriminate Hparse | reflexivity].
Qed.

(** The server reads back the offset and the name of what [NextName]
    rolls. *)
Lemma NextName_parseQuery g q g' :
  NextName g = (Ok q, g') ->
  0 <= off g <= uint64_max ->
  0 <= StartOff g <= uint64_max ->
  validFilename (Name g) = true ->
  GoStrings.isASCII (Domain g) = true ->
  parseQuery unicodeLower q = Some (nextOffset g, Name g).
Proof.
  unfold NextName, nextOffset. intros H Hoff Hstart Hname Hdom.
  destruct ((off g =? 0) && negb (StartOff g =? 0));
    destruct (PayloadSize _); try discriminate;
    injection H as <- _; now apply parseQuery_queryName.
Qed.

(** C5: for every 64-bit offset, every file name of ASCII bytes without
    upper-case letters and dots, and every ASCII domain, the server's
    parse of the name that [NextName] rolls gives back the offset and the
    file name. *)
Theorem name_round_trip :
  forall off name domain,
    0 <= off <= uint64_max ->
    validFilename name = true ->
    GoStrings.isASCII domain = true ->
    parseQuery unicodeLower (queryName off name domain) = Some (off, name).
Proof.
  intros off name domain Hoff Hname Hdom.
  now apply parseQuery_queryName.
Qed.

End NameRoundTrip.

Lemma name_round_trip_witness :
  parseQuery (fun s => s) (queryName 1296 "pay-load" "example.com.")
  = Some (1296, "pay-load").
Proof.
  apply (name_round_trip (fun s => s) 1296 "pay-load" "example.com.").
  - unfold uint64_max; lia.
  - reflexivity.
  - reflexivity.
Defined.

(** Outside these conditions the name does not come back: an upper-case
    letter is folded, and a dot ends the name. *)
Example name_round_trip_upper :
  parseQuery (fun s => s) (queryName 0 "Payload" "example.com")
  = Some (0, "payload").
Proof. vm_compute. reflexivity. Qed.

Example name_round_trip_dot :
  parseQuery (fun s => s) (queryName 0 "payload.bin" "example.com")
  = Some (0, "payload").
Proof. vm_compute. reflexivity. Qed.

(** ** Paths *)

Module Filepath_facts.
Import Filepath.

Lemma Split_not_nil s sep : GoStrings.Split s sep <> [].
Proof.
  destruct s as [|c s]; simpl; [discriminate|].
  destruct (Ascii.eqb c sep); [discriminate|].
  destruct (GoStrings.Split s sep); discriminate.
Qed.













Lemma render_unrooted out :
  out <> [] -> render false out = GoStrings.Join (rev out) "/".
Proof. destruct out; [now intros H; elim H | reflexivity]. Qed.




End Filepath_facts.

(** ** What the handler opens *)


Section OpenedFacts.

Variable unicodeLower : string -> string.
Variable Unpack : list ascii -> option Dnsmessage.Message.
Variable AppendPack : Dnsmessage.Message -> option (list ascii).
Variable openFile : string -> option File.
Variable ttl : Z.
Variable fdir : string.






End OpenedFacts.


Lemma not_within_fserv_secret : ~ within "fserv" "secret".
Proof.
  intros [below [_ H]].
  change (Filepath.elements "fserv") with ["fserv"] in H.
  change (Filepath.isRooted "fserv") with false in H.
  rewrite Filepath_facts.render_unrooted in H
    by (destruct (rev below); discriminate).
  rewrite rev_app_distr, rev_involutive in H. simpl in H.
  destruct below; discriminate H.
Qed.

(** The second half of [handle] rejects nothing by itself: handed the
    file name ["../secret"] it would open ["secret"], a path outside the
    serving directory ["fserv"].  No packet gets it there: the file name
    that [parseQuery] hands on has no dot ([parseQuery_noDot]). *)
Lemma serveFile_dotdot_not_rejected :
  serveFile (fun _ => Some (list_ascii_of_string "packed"))
    (oneFile "secret" (map Zbyte [1; 2; 3])) 1800 "fserv"
    (setUpHeader (queryFor "0-x.example.com." Dnsmessage.TypeA))
    (Dnsmessage.mkQuestion "0-x.example.com." Dnsmessage.TypeA
       Dnsmessage.ClassINET)
    0 "../secret"
  = [OpenFile "secret"; WriteTo (list_ascii_of_string "packed")]
  /\ ~ within "fserv" "secret".
Proof.
  split; [vm_compute; reflexivity | exact not_within_fserv_secret].
Qed.

(** The name a client rolls for the file ["../secret"] is read by the
    server as the empty file name: the handler tries to open the
    serving directory itself. *)
Example handle_dotdot_query :
  parseQuery (fun s => s) (queryName 0 "../secret" "example.com.")
  = Some (0, "")
  /\ handle (fun s => s)
       (fun _ => Some (queryFor (queryName 0 "../secret" "example.com.")
                         Dnsmessage.TypeA))
       (fun _ => Some (list_ascii_of_string "packed"))
       (oneFile "secret" (map Zbyte [1; 2; 3])) 1800 "fserv" []
     = [OpenFile "fserv"].
Proof. split; vm_compute; reflexivity. Qed.

(** With the empty string as serving directory [filepath.Join] drops the
    directory, and a rooted file name without a dot is opened as it
    is. *)
Example handle_empty_fdir :
  opened (handle (fun s => s)
            (fun _ => Some (queryFor "0-/etc/shadow.example.com."
                              Dnsmessage.TypeA))
            (fun _ => None) (fun _ => None) 1800 "" [])
  = ["/etc/shadow"].
Proof. vm_compute. reflexivity. Qed.



(** ** Bytes *)

Lemma byteZ_range c : 0 <= byteZ c < 256.
Proof.
  unfold byteZ. pose proof (N_ascii_bounded c). lia.
Qed.

Lemma Zbyte_byteZ c : Zbyte (byteZ c) = c.
Proof.
  unfold Zbyte. rewrite Z.mod_small by apply byteZ_range.
  unfold byteZ. rewrite N2Z.id. apply ascii_N_embedding.
Qed.

Lemma byteZ_Zbyte z : 0 <= z < 256 -> byteZ (Zbyte z) = z.
Proof.
  intros H. unfold Zbyte, byteZ. rewrite Z.mod_small by exact H.
  rewrite N_ascii_embedding by lia. lia.
Qed.

Lemma Zbyte_mod z : Zbyte (z mod 256) = Zbyte z.
Proof. unfold Zbyte. now rewrite Z.mod_mod. Qed.

Lemma drop_append s t : drop (String.length s) (s ++ t) = t.
Proof. induction s; simpl; auto. Qed.

Lemma length_fill n bs : List.length (fill n bs) = n.
Proof.
  unfold fill. rewrite length_firstn, length_app, repeat_length. lia.
Qed.

(** ** IPv4 text *)

Module Net_facts.
Import Net.

(** [dtoi] reads back what [ubtoa] printed, up to a dot or the end. *)
Lemma dtoi_ubtoa v :
  0 <= v < 256 ->
  dtoi (ubtoa v) = (v, String.length (ubtoa v), true)
  /\ forall r, dtoi (ubtoa v ++ String "." r)
               = (v, String.length (ubtoa v), true).
Proof.
  revert v. apply (below_ind _ 256). intros k Hk.
  do 256 (destruct k as [|k]; [split; [|intros r]; reflexivity|]). lia.
Qed.

Lemma parseIPv4Loop_last c :
  parseIPv4Loop 1 false (String "." (ubtoa (byteZ c))) = Some [c].
Proof.
  cbn [parseIPv4Loop]. change (Ascii.eqb "." ".") with true. cbv iota.
  rewrite (proj1 (dtoi_ubtoa _ (byteZ_range c))).
  cbn [negb orb]. destruct (byteZ c >? 255) eqn:E.
  - rewrite Z.gtb_ltb in E. apply Z.ltb_lt in E. pose proof (byteZ_range c). lia.
  - rewrite <- (append_nil_r (ubtoa (byteZ c))) at 2.
    rewrite drop_append. now rewrite Zbyte_byteZ.
Qed.

Lemma parseIPv4Loop_next k c r rest :
  parseIPv4Loop k false (String "." r) = Some rest ->
  parseIPv4Loop (S k) false (String "." (ubtoa (byteZ c) ++ String "." r))
  = Some (c :: rest).
Proof.
  intros H. cbn [parseIPv4Loop]. change (Ascii.eqb "." ".") with true.
  cbv iota.
  rewrite (proj2 (dtoi_ubtoa _ (byteZ_range c))).
  cbn [negb orb]. destruct (byteZ c >? 255) eqn:E.
  - rewrite Z.gtb_ltb in E. apply Z.ltb_lt in E. pose proof (byteZ_range c). lia.
  - rewrite drop_append, H. now rewrite Zbyte_byteZ.
Qed.

Lemma parseIPv4Loop_first3 k r :
  parseIPv4Loop (S k) true (String "3" (String "." r))
  = match parseIPv4Loop k false (String "." r) with
    | Some p => Some (Zbyte 3 :: p)
    | None => None
    end.
Proof. reflexivity. Qed.

(** An address [3.a.b.c] printed and parsed again. *)
Lemma ParseIP_stringV4_3 a b c :
  ParseIP (stringV4 [Zbyte 3; a; b; c]) = Some (IPv4 (Zbyte 3) a b c).
Proof.
  unfold stringV4. change (ubtoa (byteZ (Zbyte 3))) with "3".
  change ("3" ++ "." ++ ubtoa (byteZ a) ++ "." ++ ubtoa (byteZ b) ++ "."
            ++ ubtoa (byteZ c))%string
    with (String "3" (String "." (ubtoa (byteZ a) ++ String "."
            (ubtoa (byteZ b) ++ String "." (ubtoa (byteZ c)))))).
  unfold ParseIP. cbn [parseIPScan]. change (Ascii.eqb "3" ".") with false.
  change (Ascii.eqb "3" ":") with false. change (Ascii.eqb "." ".") with true.
  cbv iota. unfold parseIPv4.
  assert (H : parseIPv4Loop 4 true
                (String "3" (String "." (ubtoa (byteZ a) ++ String "."
                   (ubtoa (byteZ b) ++ String "." (ubtoa (byteZ c))))))
              = Some [Zbyte 3; a; b; c]).
  { rewrite parseIPv4Loop_first3.
    now rewrite (parseIPv4Loop_next 2 a _ _
                   (parseIPv4Loop_next 1 b _ _ (parseIPv4Loop_last c))). }
  rewrite H. reflexivity.
Qed.

End Net_facts.

(** ** Base64 *)

Module Base64_facts.
Import Base64.

Lemma testbit_small lo k n :
  0 <= lo < 2 ^ k -> k <= n -> Z.testbit lo n = false.
Proof.
  intros Hlo Hn. destruct (Z.eq_dec lo 0) as [->|Hnz]; [apply Z.bits_0|].
  apply Z.bits_above_log2; [lia|].
  assert (Z.log2 lo < k) by (apply Z.log2_lt_pow2; lia). lia.
Qed.

(** Or-ing a value below [2^k] into a multiple of [2^k] adds it. *)
Lemma lor_mul_pow2 hi lo k :
  0 <= k -> 0 <= lo < 2 ^ k -> Z.lor (hi * 2 ^ k) lo = hi * 2 ^ k + lo.
Proof.
  intros Hk Hlo.
  assert (Hland : Z.land (hi * 2 ^ k) lo = 0).
  { apply Z.bits_inj'. intros n Hn. rewrite Z.land_spec, Z.bits_0.
    destruct (Z.lt_ge_cases n k).
    - now rewrite Z.mul_pow2_bits_low.
    - rewrite (testbit_small lo k n) by assumption. apply andb_false_r. }
  rewrite <- Z.lxor_lor by exact Hland.
  symmetry. now apply Z.add_nocarry_lxor.
Qed.

Lemma shiftl_mul a n : 0 <= n -> Z.shiftl a n = a * 2 ^ n.
Proof. apply Z.shiftl_mul_pow2. Qed.

Lemma sextet val n :
  0 <= n -> Z.land (Z.shiftr val n) 63 = (val / 2 ^ n) mod 64.
Proof.
  intros Hn. rewrite Z.shiftr_div_pow2 by exact Hn.
  change 63 with (Z.ones 6). now rewrite Z.land_ones.
Qed.

Lemma lor_shiftl hi lo k :
  0 <= k -> 0 <= lo < 2 ^ k -> Z.lor (Z.shiftl hi k) lo = hi * 2 ^ k + lo.
Proof.
  intros Hk Hlo. rewrite shiftl_mul by exact Hk. now apply lor_mul_pow2.
Qed.

(** A quantum is the number whose base-64 digits are its four values. *)
Lemma quantum_add d0 d1 d2 d3 :
  0 <= d1 < 64 -> 0 <= d2 < 64 -> 0 <= d3 < 64 ->
  quantum d0 d1 d2 d3 = d0 * 262144 + d1 * 4096 + d2 * 64 + d3.
Proof.
  intros H1 H2 H3.
  assert (E : quantum d0 d1 d2 d3
              = Z.lor (Z.shiftl
                         (Z.lor (Z.shiftl (Z.lor (Z.shiftl d0 6) d1) 6) d2) 6)
                  d3).
  { unfold quantum. rewrite !Z.shiftl_lor, !Z.shiftl_shiftl by lia.
    reflexivity. }
  rewrite E, !lor_shiftl by (change (2 ^ 6) with 64; lia). lia.
Qed.

(** The four values that [Encode] takes from 24 bits give the 24 bits
    back. *)
Lemma quantum_sextets val :
  0 <= val < 2 ^ 24 ->
  quantum (Z.land (Z.shiftr val 18) 63) (Z.land (Z.shiftr val 12) 63)
    (Z.land (Z.shiftr val 6) 63) (Z.land val 63) = val.
Proof.
  intros Hval. rewrite <- (Z.shiftr_0_r val) at 4.
  rewrite !sextet by lia.
  change (2 ^ 0) with 1. change (2 ^ 6) with 64.
  change (2 ^ 12) with 4096. change (2 ^ 18) with 262144.
  change (2 ^ 24) with 16777216 in Hval.
  rewrite quantum_add by (apply Z.mod_pos_bound; lia).
  rewrite Z.div_1_r.
  Z.div_mod_to_equations. lia.
Qed.

Lemma decodeMap_encodeChar v :
  0 <= v < 64 -> decodeMap (encodeChar v) = Some v.
Proof.
  revert v. apply (below_ind _ 64). intros k Hk.
  do 64 (destruct k as [|k]; [reflexivity|]). lia.
Qed.

Lemma sextet_range val n : 0 <= Z.land (Z.shiftr val n) 63 < 64.
Proof.
  change 63 with (Z.ones 6). rewrite Z.land_ones by lia.
  apply Z.mod_pos_bound. reflexivity.
Qed.

Lemma decodeMap_sextet val n :
  decodeMap (encodeChar (Z.land (Z.shiftr val n) 63))
  = Some (Z.land (Z.shiftr val n) 63).
Proof. apply decodeMap_encodeChar, sextet_range. Qed.

Lemma decodeMap_sextet0 val :
  decodeMap (encodeChar (Z.land val 63)) = Some (Z.land val 63).
Proof. rewrite <- (Z.shiftr_0_r val). apply decodeMap_sextet. Qed.

(** The 24 bits of three bytes. *)
Lemma val3 a b c :
  Z.lor (Z.lor (Z.shiftl (byteZ a) 16) (Z.shiftl (byteZ b) 8)) (byteZ c)
  = byteZ a * 65536 + byteZ b * 256 + byteZ c.
Proof.
  pose proof (byteZ_range a). pose proof (byteZ_range b).
  pose proof (byteZ_range c).
  replace (Z.shiftl (byteZ a) 16) with (Z.shiftl (Z.shiftl (byteZ a) 8) 8)
    by (rewrite Z.shiftl_shiftl by lia; reflexivity).
  rewrite <- Z.shiftl_lor.
  rewrite !lor_shiftl by (change (2 ^ 8) with 256; lia).
  change (2 ^ 8) with 256. lia.
Qed.

Lemma val2 a b :
  Z.lor (Z.shiftl (byteZ a) 16) (Z.shiftl (byteZ b) 8)
  = byteZ a * 65536 + byteZ b * 256.
Proof.
  pose proof (byteZ_range a). pose proof (byteZ_range b).
  replace (Z.shiftl (byteZ a) 16) with (Z.shiftl (Z.shiftl (byteZ a) 8) 8)
    by (rewrite Z.shiftl_shiftl by lia; reflexivity).
  rewrite <- Z.shiftl_lor.
  rewrite lor_shiftl by (change (2 ^ 8) with 256; lia).
  rewrite shiftl_mul by lia. change (2 ^ 8) with 256. lia.
Qed.

Lemma qbytes val a b c :
  val = byteZ a * 65536 + byteZ b * 256 + byteZ c ->
  qbyte0 val = a /\ qbyte1 val = b /\ qbyte2 val = c.
Proof.
  pose proof (byteZ_range a). pose proof (byteZ_range b).
  pose proof (byteZ_range c). intros ->.
  unfold qbyte0, qbyte1, qbyte2.
  rewrite !Z.shiftr_div_pow2 by lia.
  change (2 ^ 16) with 65536. change (2 ^ 8) with 256.
  assert (E0 : (byteZ a * 65536 + byteZ b * 256 + byteZ c) / 65536 = byteZ a)
    by (Z.div_mod_to_equations; lia).
  assert (E1 : ((byteZ a * 65536 + byteZ b * 256 + byteZ c) / 256) mod 256
               = byteZ b)
    by (Z.div_mod_to_equations; lia).
  assert (E2 : (byteZ a * 65536 + byteZ b * 256 + byteZ c) mod 256 = byteZ c)
    by (Z.div_mod_to_equations; lia).
  rewrite E0, <- (Zbyte_mod (_ / 256)), E1, <- (Zbyte_mod (_ + _ + _)), E2.
  now rewrite !Zbyte_byteZ.
Qed.

Lemma list_ind3 {A} (P : list A -> Prop) :
  P [] -> (forall a, P [a]) -> (forall a b, P [a; b]) ->
  (forall a b c l, P l -> P (a :: b :: c :: l)) ->
  forall l, P l.
Proof.
  intros H0 H1 H2 H3.
  refine (fix F l := match l with
                     | [] => H0
                     | [a] => H1 a
                     | [a; b] => H2 a b
                     | a :: b :: c :: l' => H3 a b c l' (F l')
                     end).
Qed.

(** Four characters of the alphabet decode to the three bytes of their
    quantum. *)
Lemma decodeFrom_quantum c0 c1 c2 c3 d0 d1 d2 d3 rest si :
  decodeMap c0 = Some d0 -> decodeMap c1 = Some d1 ->
  decodeMap c2 = Some d2 -> decodeMap c3 = Some d3 ->
  decodeFrom (c0 :: c1 :: c2 :: c3 :: rest) si []
  = let (bs, e) := decodeFrom rest (si + 1 + 1 + 1 + 1) [] in
    (qbyte0 (quantum d0 d1 d2 d3) :: qbyte1 (quantum d0 d1 d2 d3)
       :: qbyte2 (quantum d0 d1 d2 d3) :: bs, e).
Proof.
  intros H0 H1 H2 H3. cbn [decodeFrom]. rewrite H0. cbn [app decodeFrom].
  rewrite H1. cbn [app decodeFrom]. rewrite H2. cbn [app decodeFrom].
  rewrite H3. reflexivity.
Qed.

(** [Decode] reads back what [Encode] wrote. *)
Lemma decodeFrom_Encode chunk :
  forall si,
    decodeFrom (list_ascii_of_string (Encode chunk)) si [] = (chunk, None).
Proof.
  induction chunk as [|a|a b|a b c rest IH] using list_ind3; intros si.
  - reflexivity.
  - cbn [Encode list_ascii_of_string decodeFrom].
    rewrite !decodeMap_sextet. cbn [app].
    set (val := Z.shiftl (byteZ a) 16).
    assert (Hval : val = byteZ a * 65536 + byteZ Net.zeroByte * 256
                         + byteZ Net.zeroByte).
    { unfold val. rewrite shiftl_mul by lia.
      change (byteZ Net.zeroByte) with 0. change (2 ^ 16) with 65536. lia. }
    pose proof (byteZ_range a) as Ha.
    assert (Hq : quantum (Z.land (Z.shiftr val 18) 63)
                   (Z.land (Z.shiftr val 12) 63) 0 0 = val).
    { rewrite <- (quantum_sextets val) at 3
        by (rewrite Hval; change (byteZ Net.zeroByte) with 0;
            change (2 ^ 24) with 16777216; lia).
      f_equal.
      - rewrite sextet by lia. rewrite Hval.
        change (byteZ Net.zeroByte) with 0. change (2 ^ 6) with 64.
        Z.div_mod_to_equations. lia.
      - rewrite <- (Z.shiftr_0_r val), sextet by lia. rewrite Hval.
        change (byteZ Net.zeroByte) with 0. change (2 ^ 0) with 1.
        Z.div_mod_to_equations. lia. }
    rewrite Hq. now rewrite (proj1 (qbytes val a _ _ Hval)).
  - cbn [Encode list_ascii_of_string decodeFrom].
    rewrite !decodeMap_sextet. cbn [app].
    rewrite val2.
    set (val := byteZ a * 65536 + byteZ b * 256).
    assert (Hval : val = byteZ a * 65536 + byteZ b * 256 + byteZ Net.zeroByte).
    { unfold val. change (byteZ Net.zeroByte) with 0. lia. }
    pose proof (byteZ_range a) as Ha. pose proof (byteZ_range b) as Hb.
    assert (Hq : quantum (Z.land (Z.shiftr val 18) 63)
                   (Z.land (Z.shiftr val 12) 63)
                   (Z.land (Z.shiftr val 6) 63) 0 = val).
    { rewrite <- (quantum_sextets val) at 4
        by (unfold val; change (2 ^ 24) with 16777216; lia).
      f_equal.
      rewrite <- (Z.shiftr_0_r val), sextet by lia. unfold val.
      change (2 ^ 0) with 1. Z.div_mod_to_equations. lia. }
    rewrite Hq.
    destruct (qbytes val a b _ Hval) as (-> & -> & _). reflexivity.
  - cbn [Encode list_ascii_of_string].
    rewrite (decodeFrom_quantum _ _ _ _ _ _ _ _ _ si
               (decodeMap_sextet _ 18) (decodeMap_sextet _ 12)
               (decodeMap_sextet _ 6) (decodeMap_sextet0 _)).
    rewrite IH, val3.
    pose proof (byteZ_range a) as Ha. pose proof (byteZ_range b) as Hb.
    pose proof (byteZ_range c) as Hc.
    rewrite quantum_sextets by (change (2 ^ 24) with 16777216; lia).
    destruct (qbytes _ a b c eq_refl) as (-> & -> & ->). reflexivity.
Qed.

Lemma Decode_Encode chunk :
  Decode (list_ascii_of_string (EncodeToString chunk)) = (chunk, None).
Proof. apply decodeFrom_Encode. Qed.

Lemma length_Encode chunk :
  lenZ (Encode chunk) = (4 * llenZ chunk + 2) / 3.
Proof.
  unfold lenZ, llenZ.
  induction chunk as [|a|a b|a b c rest IH] using list_ind3;
    try reflexivity.
  cbn [Encode String.length List.length].
  rewrite !Nat2Z.inj_succ, IH. Z.div_mod_to_equations. lia.
Qed.

(** The decoded length of an encoded chunk is the length of the chunk. *)
Lemma DecodedLen_Encode chunk :
  DecodedLen (lenZ (EncodeToString chunk)) = llenZ chunk.
Proof.
  unfold DecodedLen, EncodeToString. rewrite length_Encode.
  assert (0 <= llenZ chunk) by (unfold llenZ; lia).
  Z.div_mod_to_equations. lia.
Qed.

End Base64_facts.

(** ** IPv6 text *)

Module Net6_facts.
Import Net.

Lemma hexChar_props d :
  0 <= d < 16 ->
  hexVal (hexChar d) = Some d
  /\ Ascii.eqb (hexChar d) ":" = false
  /\ Ascii.eqb (hexChar d) "." = false.
Proof.
  revert d. apply (below_ind _ 16). intros k Hk.
  do 16 (destruct k as [|k]; [repeat split|]). lia.
Qed.

Lemma xtoiLoop_stops rest n i :
  stops rest ->
  xtoiLoop rest n i = if Nat.eqb i 0 then (0, i, false) else (n, i, true).
Proof.
  destruct rest as [|c rest]; simpl; [reflexivity|]. now intros ->.
Qed.

Lemma shiftr_le g m : 0 <= g -> 0 <= m -> 0 <= Z.shiftr g m <= g.
Proof.
  intros Hg Hm. rewrite Z.shiftr_div_pow2 by exact Hm.
  pose proof (Z.pow_pos_nonneg 2 m ltac:(lia) Hm) as Hp.
  split; [apply Z.div_pos; lia|].
  apply Z.div_le_upper_bound; nia.
Qed.

Lemma xtoiLoop_hexFrom j :
  forall g rest n i,
    0 <= g < big ->
    n = Z.shiftr g (4 * Z.of_nat j) ->
    xtoiLoop (hexFrom j g ++ rest) n i
    = xtoiLoop rest g (i + String.length (hexFrom j g)).
Proof.
  induction j as [|k IH]; intros g rest n i Hg Hn.
  - simpl in *. rewrite Z.shiftr_0_r in Hn. subst. now rewrite Nat.add_0_r.
  - cbn [hexFrom].
    remember (Z.shiftr g (4 * Z.of_nat k)) as v eqn:Ev.
    assert (Hv : 0 <= v <= g) by (subst v; apply shiftr_le; lia).
    assert (Hnv : n = v / 16).
    { subst n v. rewrite !Z.shiftr_div_pow2 by lia.
      replace (4 * Z.of_nat (S k)) with (4 * Z.of_nat k + 4) by lia.
      rewrite Z.pow_add_r by lia. rewrite Z.div_div by lia.
      reflexivity. }
    destruct (v >? 0) eqn:E.
    + rewrite Z.gtb_ltb in E. apply Z.ltb_lt in E.
      cbn [append xtoiLoop String.length].
      assert (Hd : 0 <= Z.land v 15 < 16).
      { change 15 with (Z.ones 4). rewrite Z.land_ones by lia.
        apply Z.mod_pos_bound. reflexivity. }
      rewrite (proj1 (hexChar_props _ Hd)).
      assert (Hn' : n * 16 + Z.land v 15 = v).
      { change 15 with (Z.ones 4). rewrite Z.land_ones by lia.
        change (2 ^ 4) with 16. subst n. Z.div_mod_to_equations. lia. }
      rewrite Hn'.
      destruct (v >=? big) eqn:Eb;
        [rewrite Z.geb_leb in Eb; apply Z.leb_le in Eb; lia|].
      rewrite (IH g rest v (S i) Hg Ev). f_equal. lia.
    + rewrite Z.gtb_ltb in E. apply Z.ltb_ge in E.
      assert (H0 : v = 0) by lia.
      assert (Hn0 : n = v) by (rewrite Hnv, H0; reflexivity).
      cbn [append String.length].
      rewrite (IH g rest n i Hg); [reflexivity|]. now rewrite Hn0.
Qed.

Lemma hexFrom_not_empty k g : 0 < g -> hexFrom (S k) g <> "".
Proof.
  intros Hg. induction k as [|k IH].
  - cbn [hexFrom]. rewrite Z.shiftr_0_r.
    destruct (g >? 0) eqn:E; [discriminate|].
    rewrite Z.gtb_ltb in E. apply Z.ltb_ge in E. lia.
  - change (hexFrom (S (S k)) g)
      with ((if Z.shiftr g (4 * Z.of_nat (S k)) >? 0
             then String (hexChar (Z.land (Z.shiftr g (4 * Z.of_nat (S k))) 15)) ""
             else "") ++ hexFrom (S k) g)%string.
    destruct (_ >? 0); [discriminate|]. exact IH.
Qed.

(** The first character of a printed group is a hex digit. *)
Lemma hexFrom_head j g :
  0 <= g ->
  hexFrom j g = ""
  \/ exists d t, 0 <= d < 16 /\ hexFrom j g = String (hexChar d) t.
Proof.
  intros Hg. induction j as [|k IH]; [now left|].
  cbn [hexFrom]. destruct (_ >? 0).
  - right. eexists _, _. split; [|reflexivity].
    change 15 with (Z.ones 4). rewrite Z.land_ones by lia.
    apply Z.mod_pos_bound. reflexivity.
  - exact IH.
Qed.

Lemma appendHex_head g :
  0 <= g -> exists d t, 0 <= d < 16 /\ appendHex g = String (hexChar d) t.
Proof.
  intros Hg. unfold appendHex. destruct (g =? 0) eqn:E.
  - exists 0, "". split; [lia | reflexivity].
  - apply Z.eqb_neq in E.
    destruct (hexFrom_head 8 g Hg) as [H|H]; [|exact H].
    now apply hexFrom_not_empty in H; [|lia].
Qed.

(** [xtoi] reads back a group that [appendHex] printed. *)
Lemma xtoi_appendHex g rest :
  0 <= g <= 65535 -> stops rest ->
  xtoi (appendHex g ++ rest) = (g, String.length (appendHex g), true).
Proof.
  intros Hg Hrest. unfold xtoi, appendHex. destruct (g =? 0) eqn:E.
  - apply Z.eqb_eq in E. subst. cbn [append xtoiLoop].
    change (hexVal "0") with (Some 0). cbv iota beta.
    change (0 * 16 + 0 >=? big) with false. cbv iota.
    now rewrite xtoiLoop_stops.
  - apply Z.eqb_neq in E.
    rewrite (xtoiLoop_hexFrom 8 g rest 0 0).
    + rewrite xtoiLoop_stops by exact Hrest.
      destruct (String.length (hexFrom 8 g)) eqn:El; [|reflexivity].
      destruct (hexFrom 8 g) eqn:Eh; [|discriminate].
      now apply hexFrom_not_empty in Eh; [|lia].
    + unfold big. lia.
    + rewrite Z.shiftr_div_pow2 by lia. symmetry. apply Z.div_small.
      change (2 ^ (4 * Z.of_nat 8)) with 4294967296. lia.
Qed.

End Net6_facts.

Module Net6_parse.
Import Net Net6_facts.

Lemma hexFrom_hexish j g :
  0 <= g -> GoStrings.allBytes hexish (hexFrom j g) = true.
Proof.
  intros Hg. induction j as [|k IH]; [reflexivity|].
  cbn [hexFrom]. destruct (_ >? 0); [|exact IH].
  cbn [append GoStrings.allBytes]. rewrite IH, andb_true_r.
  assert (Hd : 0 <= Z.land (Z.shiftr g (4 * Z.of_nat k)) 15 < 16).
  { change 15 with (Z.ones 4). rewrite Z.land_ones by lia.
    apply Z.mod_pos_bound. reflexivity. }
  destruct (hexChar_props _ Hd) as (_ & H1 & H2).
  unfold hexish. now rewrite H1, H2.
Qed.

Lemma appendHex_hexish g :
  0 <= g -> GoStrings.allBytes hexish (appendHex g) = true.
Proof.
  intros Hg. unfold appendHex. destruct (g =? 0); [reflexivity|].
  now apply hexFrom_hexish.
Qed.

Lemma parseIPScan_colon h r whole :
  GoStrings.allBytes hexish h = true ->
  parseIPScan (h ++ String ":" r) whole = parseIPv6 whole.
Proof.
  induction h as [|c h IH]; intros H.
  - reflexivity.
  - cbn [GoStrings.allBytes] in H. apply andb_true_iff in H as [Hc Hh].
    unfold hexish in Hc. apply andb_true_iff in Hc as [H1 H2].
    apply negb_true_iff in H1, H2.
    cbn [append parseIPScan]. rewrite H1, H2. now apply IH.
Qed.

(** A text that begins with a printed group and a colon is parsed as an
    IPv6 address without a leading ellipsis. *)
Lemma ParseIP_group g r :
  0 <= g ->
  ParseIP (appendHex g ++ String ":" r)
  = finishIPv6 (parseIPv6Loop 9 (appendHex g ++ String ":" r) [] (-1)).
Proof.
  intros Hg. unfold ParseIP.
  rewrite parseIPScan_colon by now apply appendHex_hexish.
  unfold parseIPv6.
  destruct (appendHex_head g Hg) as (d & t & Hd & ->).
  cbn [append leadingEllipsis].
  rewrite (proj1 (proj2 (hexChar_props d Hd))).
  destruct (t ++ String ":" r)%string; reflexivity.
Qed.

Lemma stops_colon r : stops (String ":" r).
Proof. reflexivity. Qed.

(** One round of the loop of [parseIPv6] on a printed group. *)
Lemma parseIPv6Loop_group f g rest ip ell :
  (List.length ip < 16)%nat ->
  0 <= g <= 65535 ->
  stops rest ->
  startsWith "." rest = false ->
  parseIPv6Loop (S f) (appendHex g ++ rest) ip ell
  = match rest with
    | EmptyString => Some (ip ++ groupBytes g, ell, "")
    | String c0 s1 =>
        if negb (Ascii.eqb c0 ":") then None
        else match s1 with
             | EmptyString => None
             | String c1 s2 =>
                 if Ascii.eqb c1 ":" then
                   if ell >=? 0 then None
                   else match s2 with
                        | EmptyString =>
                            Some (ip ++ groupBytes g,
                                  llenZ (ip ++ groupBytes g), "")
                        | _ => parseIPv6Loop f s2 (ip ++ groupBytes g)
                                 (llenZ (ip ++ groupBytes g))
                        end
                 else parseIPv6Loop f s1 (ip ++ groupBytes g) ell
             end
    end.
Proof.
  intros Hlen Hg Hstops Hdot. cbn [parseIPv6Loop].
  assert (E : Nat.ltb (List.length ip) IPv6len = true)
    by (apply Nat.ltb_lt; exact Hlen).
  rewrite E, (xtoi_appendHex g rest Hg Hstops).
  cbn [negb orb].
  assert (E2 : (g >? 65535) = false)
    by (rewrite Z.gtb_ltb; apply Z.ltb_ge; lia).
  rewrite E2, drop_append, Hdot. reflexivity.
Qed.

(** The four shapes in which a printed group is followed. *)
Lemma step_colon f g g' r ip ell :
  (List.length ip < 16)%nat -> 0 <= g <= 65535 -> 0 <= g' ->
  parseIPv6Loop (S f) (appendHex g ++ String ":" (appendHex g' ++ r)) ip ell
  = parseIPv6Loop f (appendHex g' ++ r) (ip ++ groupBytes g) ell.
Proof.
  intros Hlen Hg Hg'.
  rewrite parseIPv6Loop_group by (assumption || reflexivity).
  destruct (appendHex_head g' Hg') as (d & t & Hd & ->).
  cbn [append negb]. change (Ascii.eqb ":" ":") with true. cbv iota.
  cbn [negb]. now rewrite (proj1 (proj2 (hexChar_props d Hd))).
Qed.

Lemma step_ellipsis f g g' r ip :
  (List.length ip < 16)%nat -> 0 <= g <= 65535 -> 0 <= g' ->
  parseIPv6Loop (S f)
    (appendHex g ++ String ":" (String ":" (appendHex g' ++ r))) ip (-1)
  = parseIPv6Loop f (appendHex g' ++ r) (ip ++ groupBytes g)
      (llenZ (ip ++ groupBytes g)).
Proof.
  intros Hlen Hg Hg'.
  rewrite parseIPv6Loop_group by (assumption || reflexivity).
  destruct (appendHex_head g' Hg') as (d & t & Hd & ->).
  reflexivity.
Qed.

Lemma step_ellipsis_end f g ip :
  (List.length ip < 16)%nat -> 0 <= g <= 65535 ->
  parseIPv6Loop (S f) (appendHex g ++ String ":" (String ":" "")) ip (-1)
  = Some (ip ++ groupBytes g, llenZ (ip ++ groupBytes g), "").
Proof.
  intros Hlen Hg.
  now rewrite parseIPv6Loop_group by (assumption || reflexivity).
Qed.

Lemma step_end f g ip ell :
  (List.length ip < 16)%nat -> 0 <= g <= 65535 ->
  parseIPv6Loop (S f) (appendHex g ++ "") ip ell
  = Some (ip ++ groupBytes g, ell, "").
Proof.
  intros Hlen Hg.
  now rewrite parseIPv6Loop_group by (assumption || reflexivity).
Qed.

End Net6_parse.

Module Net6_roundtrip.
Import Net Net6_facts Net6_parse.

Lemma group16_value hi lo : group16 hi lo = byteZ hi * 256 + byteZ lo.
Proof.
  unfold group16. pose proof (byteZ_range lo).
  rewrite Base64_facts.lor_shiftl by (change (2 ^ 8) with 256; lia).
  reflexivity.
Qed.

Lemma group16_range hi lo : 0 <= group16 hi lo <= 65535.
Proof.
  rewrite group16_value.
  pose proof (byteZ_range hi). pose proof (byteZ_range lo). lia.
Qed.

Lemma groupBytes_group16 hi lo : groupBytes (group16 hi lo) = [hi; lo].
Proof.
  unfold groupBytes. rewrite group16_value.
  pose proof (byteZ_range hi). pose proof (byteZ_range lo).
  rewrite Z.shiftr_div_pow2 by lia. change (2 ^ 8) with 256.
  assert (E1 : (byteZ hi * 256 + byteZ lo) / 256 = byteZ hi)
    by (Z.div_mod_to_equations; lia).
  assert (E2 : (byteZ hi * 256 + byteZ lo) mod 256 = byteZ lo)
    by (Z.div_mod_to_equations; lia).
  rewrite E1, <- (Zbyte_mod (_ + _)), E2. now rewrite !Zbyte_byteZ.
Qed.

Lemma group16_zero hi lo :
  group16 hi lo = 0 -> hi = zeroByte /\ lo = zeroByte.
Proof.
  rewrite group16_value.
  pose proof (byteZ_range hi). pose proof (byteZ_range lo). intros H1.
  assert (Hh : byteZ hi = 0) by lia. assert (Hl : byteZ lo = 0) by lia.
  split.
  - rewrite <- (Zbyte_byteZ hi), Hh. reflexivity.
  - rewrite <- (Zbyte_byteZ lo), Hl. reflexivity.
Qed.

Ltac side_condition :=
  first [ lia | assumption | cbn [List.length app groupBytes]; lia ].

Ltac parse_groups :=
  repeat first
    [ rewrite step_colon by side_condition
    | rewrite step_ellipsis by side_condition
    | rewrite step_ellipsis_end by side_condition
    | rewrite step_end by side_condition ].

(** An address with the server's prefix, printed and parsed again.  The
    four groups of the payload are zero or not, which decides where
    [String] puts [::]: sixteen ways to print, each read back group by
    group. *)
Lemma ParseIP_String_AAAA b0 b1 b2 b3 b4 b5 b6 b7 :
  ParseIP (String_ (Dnsfserv.ansAAAAFirstHalf
                      ++ [b0; b1; b2; b3; b4; b5; b6; b7]))
  = Some (Dnsfserv.ansAAAAFirstHalf ++ [b0; b1; b2; b3; b4; b5; b6; b7]).
Proof.
  assert (HS : String_ (Dnsfserv.ansAAAAFirstHalf
                          ++ [b0; b1; b2; b3; b4; b5; b6; b7])
               = stringGroups [9728; 36864; 21253; 52736; group16 b0 b1;
                               group16 b2 b3; group16 b4 b5; group16 b6 b7])
    by reflexivity.
  rewrite HS. clear HS.
  pose proof (group16_range b0 b1) as R4.
  pose proof (group16_range b2 b3) as R5.
  pose proof (group16_range b4 b5) as R6.
  pose proof (group16_range b6 b7) as R7.
  pose proof (groupBytes_group16 b0 b1) as B4.
  pose proof (groupBytes_group16 b2 b3) as B5.
  pose proof (groupBytes_group16 b4 b5) as B6.
  pose proof (groupBytes_group16 b6 b7) as B7.
  remember (group16 b0 b1) as g4 eqn:E4.
  remember (group16 b2 b3) as g5 eqn:E5.
  remember (group16 b4 b5) as g6 eqn:E6.
  remember (group16 b6 b7) as g7 eqn:E7.
  destruct g4 as [|p4|p4];
    [destruct (group16_zero b0 b1 (eq_sym E4)) as [-> ->] | | lia];
  (destruct g5 as [|p5|p5];
    [destruct (group16_zero b2 b3 (eq_sym E5)) as [-> ->] | | lia]);
  (destruct g6 as [|p6|p6];
    [destruct (group16_zero b4 b5 (eq_sym E6)) as [-> ->] | | lia]);
  (destruct g7 as [|p7|p7];
    [destruct (group16_zero b6 b7 (eq_sym E7)) as [-> ->] | | lia]).
  all: set (str := stringGroups _);
    lazy -[appendHex append] in str; cbn [append] in str; subst str.
  all: rewrite ParseIP_group by lia.
  all: parse_groups.
  all: rewrite ?B4, ?B5, ?B6, ?B7.
  all: vm_compute; reflexivity.
Qed.

End Net6_roundtrip.

(** ** The payload round trip *)

Lemma firstn_repeat_le {A} (x : A) k n :
  (k <= n)%nat -> firstn k (repeat x n) = repeat x k.
Proof.
  revert n. induction k as [|k IH]; intros n H; [reflexivity|].
  destruct n as [|n]; [lia|]. simpl. f_equal. apply IH. lia.
Qed.

Lemma fill_padded n chunk :
  (List.length chunk <= n)%nat -> fill n chunk = padded n chunk.
Proof.
  intros H. unfold fill, padded.
  rewrite firstn_app, firstn_all2 by exact H.
  now rewrite firstn_repeat_le by lia.
Qed.

Lemma fill3 chunk : exists a b c, fill 3 chunk = [a; b; c].
Proof.
  pose proof (length_fill 3 chunk) as H.
  destruct (fill 3 chunk) as [|a [|b [|c [|d t]]]]; try discriminate.
  now exists a, b, c.
Qed.

Lemma fill8 chunk :
  exists b0 b1 b2 b3 b4 b5 b6 b7,
    fill 8 chunk = [b0; b1; b2; b3; b4; b5; b6; b7].
Proof.
  pose proof (length_fill 8 chunk) as H.
  destruct (fill 8 chunk)
    as [|b0 [|b1 [|b2 [|b3 [|b4 [|b5 [|b6 [|b7 [|b8 t]]]]]]]]];
    try discriminate.
  now exists b0, b1, b2, b3, b4, b5, b6, b7.
Qed.

(** The bodies the server rolls for a chunk within the capacity: the
    fixed first byte or prefix, then the chunk and zero bytes. *)
Lemma server_bodies chunk :
  ((List.length chunk <= 3)%nat ->
   bodyA chunk = Dnsmessage.AResource (Zbyte 3 :: padded 3 chunk))
  /\ ((List.length chunk <= 8)%nat ->
      bodyAAAA chunk
      = Dnsmessage.AAAAResource
          (map Zbyte [38; 0; 144; 0; 83; 5; 206; 0] ++ padded 8 chunk))
  /\ ((List.length chunk <= 160)%nat ->
      bodyTXT chunk = Dnsmessage.TXTResource [Base64.EncodeToString chunk]).
Proof.
  repeat split; intros H.
  - unfold bodyA. now rewrite fill_padded.
  - unfold bodyAAAA. now rewrite fill_padded.
  - unfold bodyTXT. now rewrite firstn_all2.
Qed.

(** What the client decodes from the A record the server rolls. *)
Lemma DecodeResponse_bodyA chunk buf :
  (4 <= List.length buf)%nat ->
  DecodeResponse TypeA buf (answerText (bodyA chunk)) = (fill 3 chunk, None).
Proof.
  intros Hbuf. unfold bodyA, answerText.
  destruct (fill3 chunk) as (a & b & c & ->).
  change (Net.String_ [ansAFirstByte; a; b; c])
    with (Net.stringV4 [Zbyte 3; a; b; c]).
  rewrite DecodeResponse_A, Net_facts.ParseIP_stringV4_3.
  change (Net.To4 (Net.IPv4 (Zbyte 3) a b c)) with (Some [Zbyte 3; a; b; c]).
  assert (E : (4 >? llenZ buf) = false)
    by (rewrite Z.gtb_ltb; apply Z.ltb_ge; unfold llenZ; lia).
  rewrite E. cbn [skipn]. rewrite firstn_all2 by (simpl; lia). reflexivity.
Qed.

(** What the client decodes from the AAAA record the server rolls. *)
Lemma DecodeResponse_bodyAAAA chunk buf :
  (16 <= List.length buf)%nat ->
  DecodeResponse TypeAAAA buf (answerText (bodyAAAA chunk))
  = (fill 8 chunk, None).
Proof.
  intros Hbuf. unfold bodyAAAA, answerText.
  destruct (fill8 chunk) as (b0 & b1 & b2 & b3 & b4 & b5 & b6 & b7 & ->).
  rewrite DecodeResponse_AAAA, Net6_roundtrip.ParseIP_String_AAAA.
  change (Net.To16 (ansAAAAFirstHalf ++ [b0; b1; b2; b3; b4; b5; b6; b7]))
    with (Some (ansAAAAFirstHalf ++ [b0; b1; b2; b3; b4; b5; b6; b7])).
  assert (E : (16 >? llenZ buf) = false)
    by (rewrite Z.gtb_ltb; apply Z.ltb_ge; unfold llenZ; lia).
  rewrite E.
  change (skipn 8 (ansAAAAFirstHalf ++ [b0; b1; b2; b3; b4; b5; b6; b7]))
    with [b0; b1; b2; b3; b4; b5; b6; b7].
  rewrite firstn_all2 by (simpl; lia). reflexivity.
Qed.

(** What the client decodes from the TXT record the server rolls. *)
Lemma DecodeResponse_bodyTXT chunk buf :
  (List.length chunk <= ansTXTMax)%nat ->
  (List.length chunk <= List.length buf)%nat ->
  DecodeResponse TypeTXT buf (answerText (bodyTXT chunk)) = (chunk, None).
Proof.
  intros Hchunk Hbuf. unfold bodyTXT, answerText.
  rewrite firstn_all2 by exact Hchunk.
  unfold DecodeResponse. cbn [String.eqb Ascii.eqb TypeTXT TypeA TypeAAAA].
  change ((String.eqb TypeTXT TypeA || String.eqb TypeTXT TypeAAAA)) with false.
  change (String.eqb TypeTXT TypeTXT) with true. cbv iota.
  unfold decodeTXT. rewrite Base64_facts.DecodedLen_Encode.
  assert (E : (llenZ chunk >? llenZ buf) = false)
    by (rewrite Z.gtb_ltb; apply Z.ltb_ge; unfold llenZ; lia).
  rewrite E, Base64_facts.Decode_Encode. reflexivity.
Qed.

(** C6: for each record type and every chunk no longer than the type's
    capacity, the client decodes from the answer the server rolls for the
    chunk exactly the chunk followed by zero bytes up to 3 (A) or 8
    (AAAA) bytes, and exactly the chunk for TXT.  The buffer is any
    buffer of at least [MaxDecode] bytes, as [get] uses. *)
Theorem payload_round_trip :
  forall chunk buf,
    (MaxDecode <= List.length buf)%nat ->
    (llenZ chunk <= 3 ->
       PayloadSize TypeA = Ok 3
       /\ DecodeResponse TypeA buf (answerText (bodyA chunk))
          = (padded 3 chunk, None))
    /\ (llenZ chunk <= 8 ->
          PayloadSize TypeAAAA = Ok 8
          /\ DecodeResponse TypeAAAA buf (answerText (bodyAAAA chunk))
             = (padded 8 chunk, None))
    /\ (llenZ chunk <= 160 ->
          PayloadSize TypeTXT = Ok 160
          /\ DecodeResponse TypeTXT buf (answerText (bodyTXT chunk))
             = (chunk, None)).
Proof.
  intros chunk buf Hbuf. unfold MaxDecode in Hbuf. unfold llenZ.
  split; [|split]; intros Hlen; (split; [reflexivity|]).
  - rewrite <- fill_padded by lia. apply DecodeResponse_bodyA. lia.
  - rewrite <- fill_padded by lia. apply DecodeResponse_bodyAAAA. lia.
  - apply DecodeResponse_bodyTXT; unfold ansTXTMax; lia.
Qed.

Lemma payload_round_trip_witness :
  DecodeResponse TypeA (repeat Net.zeroByte MaxDecode)
    (answerText (bodyA (map Zbyte [7; 9])))
  = (map Zbyte [7; 9; 0], None)
  /\ DecodeResponse TypeAAAA (repeat Net.zeroByte MaxDecode)
       (answerText (bodyAAAA (map Zbyte [7; 0; 0; 9; 1])))
     = (map Zbyte [7; 0; 0; 9; 1; 0; 0; 0], None)
  /\ DecodeResponse TypeTXT (repeat Net.zeroByte MaxDecode)
       (answerText (bodyTXT (map Zbyte [7; 9])))
     = (map Zbyte [7; 9], None).
Proof.
  split; [|split].
  - apply (proj1 (payload_round_trip (map Zbyte [7; 9])
                    (repeat Net.zeroByte MaxDecode) (le_n _))).
    unfold llenZ; simpl; lia.
  - apply (proj1 (proj2 (payload_round_trip (map Zbyte [7; 0; 0; 9; 1])
                           (repeat Net.zeroByte MaxDecode) (le_n _)))).
    unfold llenZ; simpl; lia.
  - apply (proj2 (proj2 (payload_round_trip (map Zbyte [7; 9])
                           (repeat Net.zeroByte MaxDecode) (le_n _)))).
    unfold llenZ; simpl; lia.
Defined.

(** The texts of the three answers above. *)
Example answer_texts :
  answerText (bodyA (map Zbyte [7; 9])) = "3.7.9.0"
  /\ answerText (bodyAAAA (map Zbyte [7; 0; 0; 9; 1]))
     = "2600:9000:5305:ce00:700:9:100:0"
  /\ answerText (bodyTXT (map Zbyte [7; 9])) = "Bwk".
Proof. repeat split; vm_compute; reflexivity. Qed.

(** ** What the server answers from a regular file *)

Section ServeFacts.

Variable unicodeLower : string -> string.
Variable Unpack : list ascii -> option Dnsmessage.Message.
Variable AppendPack : Dnsmessage.Message -> option (list ascii).
Variable openFile : string -> option File.
Variable ttl : Z.
Variable fdir : string.

(** For an offset inside a regular file and a query of type A, AAAA or
    TXT the handler sends the query back with one answer record added,
    whose body is [bodyA], [bodyAAAA] or [bodyTXT] of the bytes at the
    offset. *)
Lemma handle_serves_chunk pkt msg q0 qs foff part1 data :
  Unpack pkt = Some msg ->
  Dnsmessage.mQuestions msg = q0 :: qs ->
  parseQuery unicodeLower (Dnsmessage.qName q0) = Some (foff, part1) ->
  openFile (Filepath.Join [fdir; Filepath.Clean part1])
  = Some (regularFile data) ->
  0 <= foff < llenZ data ->
  llenZ data < 2 ^ 63 ->
  Dnsmessage.qType q0 = Dnsmessage.TypeA
  \/ Dnsmessage.qType q0 = Dnsmessage.TypeAAAA
  \/ Dnsmessage.qType q0 = Dnsmessage.TypeTXT ->
  handle unicodeLower Unpack AppendPack openFile ttl fdir pkt
  = OpenFile (Filepath.Join [fdir; Filepath.Clean part1])
      :: sendResponse AppendPack
           (appendAnswer
              (Dnsmessage.mkResource
                 (Dnsmessage.mkResourceHeader (Dnsmessage.qName q0)
                    (Dnsmessage.qType q0) (Dnsmessage.qClass q0)
                    (ttl mod 2 ^ 32))
                 (bodyFor (Dnsmessage.qType q0) data foff))
              (setUpHeader msg)).
Proof.
  intros HU HQ HP HO Hoff Hlen Hty.
  rewrite (handle_parsed unicodeLower Unpack AppendPack openFile ttl fdir
             pkt msg q0 qs foff part1 HU HQ HP).
  unfold serveFile. rewrite HO. f_equal.
  cbn [SeekEnd SeekSet ReadAt regularFile].
  assert (Hw : wrap64 (llenZ data) = llenZ data)
    by (unfold wrap64; apply Z.mod_small; lia).
  rewrite Hw.
  assert (E1 : (foff >=? llenZ data) = false)
    by (rewrite Z.geb_leb; apply Z.leb_gt; lia).
  rewrite E1.
  assert (E2 : toInt64 foff = foff).
  { unfold toInt64. destruct (foff <? 2 ^ 63) eqn:E; [reflexivity|].
    apply Z.ltb_ge in E. lia. }
  rewrite E2.
  assert (E3 : (foff <? 0) = false) by (apply Z.ltb_ge; lia).
  rewrite E3.
  assert (Hrest : skipn (Z.to_nat foff) data <> []).
  { intros H. apply (f_equal (@List.length ascii)) in H.
    rewrite length_skipn in H. unfold llenZ in Hoff. simpl in H. lia. }
  unfold bodyFor, chunkAt.
  destruct (skipn (Z.to_nat foff) data) as [|c rest] eqn:Es;
    [now elim Hrest|].
  destruct Hty as [-> | [-> | ->]]; reflexivity.
Qed.

End ServeFacts.

(** The strings [ParseDoHAnswer] takes from a record of the server are
    the one text [answerText] gives. *)
Lemma recordStrings_answerText hdr data foff :
  Dnsmessage.rhType hdr = Dnsmessage.TypeA
  \/ Dnsmessage.rhType hdr = Dnsmessage.TypeAAAA
  \/ Dnsmessage.rhType hdr = Dnsmessage.TypeTXT ->
  recordStrings (Dnsmessage.rhType hdr)
    (Dnsmessage.mkResource hdr (bodyFor (Dnsmessage.rhType hdr) data foff))
  = [answerText (bodyFor (Dnsmessage.rhType hdr) data foff)].
Proof.
  intros [H | [H | H]]; unfold recordStrings; cbn [Dnsmessage.rHeader Dnsmessage.rBody];
    rewrite Z.eqb_refl, H; reflexivity.
Qed.

(** The decoded bytes of what the handler sends for an offset of a
    file. *)
Lemma bodyFor_decodes data foff buf :
  (MaxDecode <= List.length buf)%nat ->
  DecodeResponse TypeA buf (answerText (bodyFor Dnsmessage.TypeA data foff))
  = (padded 3 (chunkAt data foff 3), None)
  /\ DecodeResponse TypeAAAA buf
       (answerText (bodyFor Dnsmessage.TypeAAAA data foff))
     = (padded 8 (chunkAt data foff 8), None)
  /\ DecodeResponse TypeTXT buf
       (answerText (bodyFor Dnsmessage.TypeTXT data foff))
     = (chunkAt data foff ansTXTMax, None).
Proof.
  intros Hbuf. unfold MaxDecode in Hbuf.
  assert (L : forall n, (List.length (chunkAt data foff n) <= n)%nat)
    by (intros n; unfold chunkAt; rewrite length_firstn; lia).
  change (bodyFor Dnsmessage.TypeA data foff)
    with (bodyA (chunkAt data foff 3)).
  change (bodyFor Dnsmessage.TypeAAAA data foff)
    with (bodyAAAA (chunkAt data foff 8)).
  change (bodyFor Dnsmessage.TypeTXT data foff)
    with (bodyTXT (chunkAt data foff ansTXTMax)).
  repeat split.
  - rewrite <- fill_padded by apply L. apply DecodeResponse_bodyA. lia.
  - rewrite <- fill_padded by apply L. apply DecodeResponse_bodyAAAA. lia.
  - apply DecodeResponse_bodyTXT; [apply L|].
    specialize (L ansTXTMax). unfold ansTXTMax in *. lia.
Qed.

(** ** The models of the libraries on the libraries' own examples *)

Module Filepath_examples.
Import Filepath.

Example Clean_table :
  map Clean
    [""; "abc"; "abc/def"; "a/b/c"; "."; ".."; "../.."; "../../abc"; "/abc";
     "/"; "abc/"; "abc/def/"; "a/b/c/"; "./"; "../"; "../../"; "/abc/";
     "abc//def//ghi"; "//abc"; "///abc"; "//abc//"; "abc//";
     "abc/./def"; "/./abc/def"; "abc/.";
     "abc/def/ghi/../jkl"; "abc/def/../ghi/../jkl"; "abc/def/..";
     "abc/def/../.."; "/abc/def/../.."; "abc/def/../../..";
     "/abc/def/../../.."; "abc/def/../../../ghi/jkl/../../../mno"; "/../abc";
     "abc/./../def"; "abc//./../def"; "abc/../../././../def"]
  = ["."; "abc"; "abc/def"; "a/b/c"; "."; ".."; "../.."; "../../abc"; "/abc";
     "/"; "abc"; "abc/def"; "a/b/c"; "."; ".."; "../.."; "/abc";
     "abc/def/ghi"; "/abc"; "/abc"; "/abc"; "abc";
     "abc/def"; "/abc/def"; "abc";
     "abc/def/jkl"; "abc/jkl"; "abc";
     "."; "/"; "..";
     "/"; "../../mno"; "/abc";
     "def"; "def"; "../../def"].
Proof. vm_compute. reflexivity. Qed.

Example Join_table :
  map Join
    [[]; [""]; ["a"]; ["a"; "b"]; ["a"; ""]; [""; "b"]; ["/"; "a"];
     ["/"; ""]; ["a/"; "b"]; ["a/"; ""]; [""; ""]; ["fserv"; ".."];
     [""; "/etc/shadow"]]
  = [""; ""; "a"; "a/b"; "a"; "b"; "/a"; "/"; "a/b"; "a"; ""; ".";
     "/etc/shadow"].
Proof. vm_compute. reflexivity. Qed.

End Filepath_examples.

Module Base64_examples.
Import Base64.

Example Encode_table :
  map (fun s => EncodeToString (list_ascii_of_string s))
    [""; "f"; "fo"; "foo"; "foob"; "fooba"; "foobar"]
  = [""; "Zg"; "Zm8"; "Zm9v"; "Zm9vYg"; "Zm9vYmE"; "Zm9vYmFy"].
Proof. vm_compute. reflexivity. Qed.

Example Decode_corrupt :
  Decode (list_ascii_of_string "Zm9vY") = (list_ascii_of_string "foo", Some 4)
  /\ Decode (list_ascii_of_string "Zm9=") = ([], Some 3)
  /\ Decode (list_ascii_of_string "Zm9v" ++ ["010"%char]
               ++ list_ascii_of_string "Yg")
     = (list_ascii_of_string "foob", None).
Proof. repeat split; vm_compute; reflexivity. Qed.

End Base64_examples.

Module Strconv_examples.
Import Strconv.

Example FormatUint36_table :
  map FormatUint36 [0; 35; 36; 1296; uint64_max]
  = ["0"; "z"; "10"; "100"; "3w5e11264sgsf"].
Proof. vm_compute. reflexivity. Qed.

Example ParseUint36_table :
  map ParseUint36 [""; "0"; "Z"; "3w5e11264sgsf"; "3w5e11264sgsg"; "-1"; "1_0"]
  = [Err ErrSyntax; Ok 0; Ok 35; Ok uint64_max; Err ErrRange;
     Err ErrSyntax; Err ErrSyntax].
Proof. vm_compute. reflexivity. Qed.

End Strconv_examples.

Module Net_examples.
Import Net.

Example ip_ex1 : Net.String_ (ipz [3;1;2;3]) = "3.1.2.3". Proof. vm_compute. reflexivity. Qed.
Example ip_ex2 : Net.String_ (ipz [38;0;144;0;83;5;206;0;0;0;0;0;0;0;0;1]) = "2600:9000:5305:ce00::1". Proof. vm_compute. reflexivity. Qed.
Example ip_ex3 : Net.String_ (ipz [38;0;144;0;83;5;206;0;0;1;0;0;0;0;0;1]) = "2600:9000:5305:ce00:1::1". Proof. vm_compute. reflexivity. Qed.
Example ip_ex4 : Net.String_ (ipz [38;0;144;0;83;5;206;0;0;0;0;1;0;0;0;1]) = "2600:9000:5305:ce00:0:1:0:1". Proof. vm_compute. reflexivity. Qed.
Example ip_ex5 : Net.String_ (ipz [38;0;144;0;83;5;206;0;0;0;0;0;0;0;0;0]) = "2600:9000:5305:ce00::". Proof. vm_compute. reflexivity. Qed.
Example ip_ex6 : Net.String_ (ipz [0;0;0;0;0;0;0;0;0;0;255;255;1;2;3;4]) = "1.2.3.4". Proof. vm_compute. reflexivity. Qed.
Example ip_ex7 : Net.String_ (ipz [0;0;0;0;0;0;0;0;0;0;0;0;0;0;0;0]) = "::". Proof. vm_compute. reflexivity. Qed.
Example ip_ex8 : Net.String_ (ipz [0;1;0;0;0;0;0;0;0;0;0;0;0;0;0;0]) = "1::". Proof. vm_compute. reflexivity. Qed.
Example ip_ex9 : Net.String_ (ipz [0;0;0;0;0;1;0;0;0;0;0;0;0;0;0;5]) = "0:0:1::5". Proof. vm_compute. reflexivity. Qed.
Example ip_ex10 : Net.String_ (ipz [0;0;0;0;0;1;0;0;0;0;0;1;0;0;0;5]) = "::1:0:0:1:0:5". Proof. vm_compute. reflexivity. Qed.
Example pip_ex1 : Net.ParseIP "3.1.2.3" = Some (ipz [0;0;0;0;0;0;0;0;0;0;255;255;3;1;2;3]). Proof. vm_compute. reflexivity. Qed.
Example pip_ex2 : Net.ParseIP "2600:9000:5305:ce00::1" = Some (ipz [38;0;144;0;83;5;206;0;0;0;0;0;0;0;0;1]). Proof. vm_compute. reflexivity. Qed.
Example pip_ex3 : Net.ParseIP "2600:9000:5305:ce00:1::1" = Some (ipz [38;0;144;0;83;5;206;0;0;1;0;0;0;0;0;1]). Proof. vm_compute. reflexivity. Qed.
Example pip_ex4 : Net.ParseIP "2600:9000:5305:ce00::" = Some (ipz [38;0;144;0;83;5;206;0;0;0;0;0;0;0;0;0]). Proof. vm_compute. reflexivity. Qed.
Example pip_ex5 : Net.ParseIP "::" = Some (ipz [0;0;0;0;0;0;0;0;0;0;0;0;0;0;0;0]). Proof. vm_compute. reflexivity. Qed.
Example pip_ex6 : Net.ParseIP "::ffff:1.2.3.4" = Some (ipz [0;0;0;0;0;0;0;0;0;0;255;255;1;2;3;4]). Proof. vm_compute. reflexivity. Qed.
Example pip_ex7 : Net.ParseIP "1:2:3:4:5:6:7:8" = Some (ipz [0;1;0;2;0;3;0;4;0;5;0;6;0;7;0;8]). Proof. vm_compute. reflexivity. Qed.
Example pip_ex8 : Net.ParseIP "1:2:3:4:5:6:7:8:9" = None. Proof. vm_compute. reflexivity. Qed.
Example pip_ex9 : Net.ParseIP "1:2:3:4:5:6:7::" = Some (ipz [0;1;0;2;0;3;0;4;0;5;0;6;0;7;0;0]). Proof. vm_compute. reflexivity. Qed.
Example pip_ex10 : Net.ParseIP "1.2.3" = None. Proof. vm_compute. reflexivity. Qed.
Example pip_ex11 : Net.ParseIP "1.2.3.256" = None. Proof. vm_compute. reflexivity. Qed.
Example pip_ex12 : Net.ParseIP "::1:0:0:1:0:5" = Some (ipz [0;0;0;0;0;1;0;0;0;0;0;1;0;0;0;5]). Proof. vm_compute. reflexivity. Qed.
Example pip_ex13 : Net.ParseIP "1::2::3" = None. Proof. vm_compute. reflexivity. Qed.
Example pip_ex14 : Net.ParseIP "1:2:3:4:5:6:7:" = None. Proof. vm_compute. reflexivity. Qed.
Example pip_ex15 : Net.ParseIP "1:2:3:4:5:6:1.2.3.4" = Some (ipz [0;1;0;2;0;3;0;4;0;5;0;6;1;2;3;4]). Proof. vm_compute. reflexivity. Qed.
Example pip_ex16 : Net.ParseIP "::1" = Some (ipz [0;0;0;0;0;0;0;0;0;0;0;0;0;0;0;1]). Proof. vm_compute. reflexivity. Qed.
Example pip_ex17 : Net.ParseIP ":1" = None. Proof. vm_compute. reflexivity. Qed.
Example pip_ex18 : Net.ParseIP "::1::" = None. Proof. vm_compute. reflexivity. Qed.
End Net_examples.

(** ** The transfer loop in general *)

Lemma PayloadSize_values t a :
  PayloadSize t = Ok a -> a = 3 \/ a = 8 \/ a = 160.
Proof.
  unfold PayloadSize.
  destruct (String.eqb t TypeA); [intros [= <-]; auto|].
  destruct (String.eqb t TypeAAAA); [intros [= <-]; auto|].
  destruct (String.eqb t TypeTXT); [intros [= <-]; auto|discriminate].
Qed.

Lemma PayloadSize_query qr t a q :
  PayloadSize t = Ok a -> exists r, query qr t q = Some r.
Proof.
  unfold PayloadSize, query.
  destruct (String.eqb t TypeA); [eauto|].
  destruct (String.eqb t TypeAAAA); [eauto|].
  destruct (String.eqb t TypeTXT); [eauto|discriminate].
Qed.

Lemma NextName_supported g a :
  PayloadSize (Type_ g) = Ok a ->
  NextName g
  = (Ok (queryName (nextOffset g) (Name g) (Domain g)),
     setOff g (wrap64 (nextOffset g + a))).
Proof.
  intros H. unfold NextName, nextOffset.
  destruct ((off g =? 0) && negb (StartOff g =? 0));
    destruct g; cbn [Type_ setOff off Name Domain StartOff] in *;
    rewrite H; reflexivity.
Qed.

Lemma nextOffset_setOff g o :
  o <> 0 -> nextOffset (setOff g o) = o.
Proof.
  intros H. unfold nextOffset. cbn [off setOff].
  apply Z.eqb_neq in H. now rewrite H.
Qed.

Lemma nextOffset_setMax g m : nextOffset (setMax g m) = nextOffset g.
Proof. reflexivity. Qed.

Lemma nextOffset_new t name domain start max qr :
  nextOffset (setQuerier (newGetter t name domain start max qr) qr) = start.
Proof.
  unfold nextOffset, newGetter. cbn [off StartOff setQuerier].
  destruct (start =? 0) eqn:E; [|reflexivity].
  apply Z.eqb_eq in E. now subst.
Qed.

Section LoopSteps.

Variable pipeWrite : Z -> list ascii -> option error.

(** One round of the loop whose query is answered and decodes. *)
Lemma getLoop_step fuel qr umax g w a s rest d :
  PayloadSize (Type_ g) = Ok a ->
  (Max g =? 0) && negb umax = false ->
  query qr (Type_ g) (queryName (nextOffset g) (Name g) (Domain g))
  = Some (Ok (s :: rest)) ->
  DecodeResponse (Type_ g) (repeat Net.zeroByte MaxDecode) s = (d, None) ->
  getLoop pipeWrite (S fuel) qr umax g w
  = let g' := setOff g (wrap64 (nextOffset g + a)) in
    let n := if (Max g <? llenZ d) && negb umax then Max g else llenZ d in
    let out := firstn (Z.to_nat n) d in
    andThen (Query (Type_ g) (queryName (nextOffset g) (Name g) (Domain g)))
      (andThen (Write out)
         match pipeWrite w out with
         | Some err => Some [CloseWithError err]
         | None =>
             getLoop pipeWrite fuel qr umax
               (if negb umax then setMax g' (wrap64 (Max g - n)) else g')
               (w + n)
         end).
Proof.
  intros Ha Hm Hq Hd. cbn [getLoop]. rewrite Hm, (NextName_supported g a Ha).
  cbn [Type_ setOff Name Domain Max]. rewrite Hq, Hd. reflexivity.
Qed.

(** A round whose query fails. *)
Lemma getLoop_query_error fuel qr umax g w a e :
  PayloadSize (Type_ g) = Ok a ->
  (Max g =? 0) && negb umax = false ->
  query qr (Type_ g) (queryName (nextOffset g) (Name g) (Domain g))
  = Some (Err e) ->
  getLoop pipeWrite (S fuel) qr umax g w
  = Some [Query (Type_ g) (queryName (nextOffset g) (Name g) (Domain g));
          match asDNSError e with
          | Some true => Close
          | _ => CloseWithError
                   (Wrapf "querying for %q: %w"
                      [AStr (queryName (nextOffset g) (Name g) (Domain g))] e)
          end].
Proof.
  intros Ha Hm Hq. cbn [getLoop]. rewrite Hm, (NextName_supported g a Ha).
  cbn [Type_ setOff Name Domain Max]. rewrite Hq.
  destruct (asDNSError e) as [[|]|]; reflexivity.
Qed.

End LoopSteps.

Lemma total_nil : total [] = 0.
Proof. reflexivity. Qed.

Lemma total_cons d ds : total (d :: ds) = llenZ d + total ds.
Proof. unfold total, llenZ. cbn [List.concat]. rewrite length_app. lia. Qed.

Lemma total_app ds es : total (ds ++ es) = total ds + total es.
Proof.
  induction ds as [|d ds IH]; [unfold total, llenZ; simpl; lia|].
  cbn [app]. rewrite !total_cons, IH. lia.
Qed.

Lemma total_nonneg ds : 0 <= total ds.
Proof. unfold total, llenZ. lia. Qed.

Lemma llenZ_nonneg {A} (l : list A) : 0 <= llenZ l.
Proof. unfold llenZ. lia. Qed.

Lemma after_nil r : after [] r = r.
Proof. now destruct r. Qed.

Lemma andThen_after e l r : andThen e (after l r) = after (e :: l) r.
Proof. now destruct r. Qed.

Lemma streamOf_app l1 l2 : streamOf (l1 ++ l2) = streamOf l1 ++ streamOf l2.
Proof.
  induction l1 as [|e l1 IH]; [reflexivity|].
  destruct e; cbn [app streamOf]; rewrite IH; auto using app_assoc.
Qed.

Lemma queriesOf_app l1 l2 : queriesOf (l1 ++ l2) = queriesOf l1 ++ queriesOf l2.
Proof.
  induction l1 as [|e l1 IH]; [reflexivity|].
  destruct e; cbn [app queriesOf]; rewrite IH; auto.
Qed.

Lemma streamOf_chunkEvents t name domain start a i ds :
  streamOf (chunkEvents t name domain start a i ds) = List.concat ds.
Proof.
  revert i. induction ds as [|d ds IH]; intros i; [reflexivity|].
  cbn [chunkEvents streamOf List.concat]. now rewrite IH.
Qed.

Lemma queriesOf_chunkEvents t name domain start a i ds :
  queriesOf (chunkEvents t name domain start a i ds)
  = map (fun j => queryName (offsetAt start a j) name domain)
      (seq i (List.length ds)).
Proof.
  revert i. induction ds as [|d ds IH]; intros i; [reflexivity|].
  cbn [chunkEvents queriesOf List.length seq map]. now rewrite IH.
Qed.

Section Chunks.

Variable pipeWrite : Z -> list ascii -> option error.
Variable qr : Querier.
Variables (t : QType) (name domain : string) (start a : Z).
Hypothesis Ha : PayloadSize t = Ok a.
Hypothesis Hstart : 0 <= start.

(** The rounds that fetch the chunks [ds] in full. *)
Lemma getLoop_chunks umax ds :
  forall fuel g i w,
    Type_ g = t -> Name g = name -> Domain g = domain ->
    nextOffset g = offsetAt start a i ->
    offsetAt start a (i + List.length ds) <= uint64_max ->
    umax = true \/ total ds < Max g <= uint64_max ->
    (forall j d, nth_error ds j = Some d ->
                 answers qr t (queryName (offsetAt start a (i + j)) name domain) d) ->
    (forall j d, nth_error ds j = Some d ->
                 pipeWrite (w + total (firstn j ds)) d = None) ->
    exists g',
      getLoop pipeWrite (List.length ds + fuel) qr umax g w
      = after (chunkEvents t name domain start a i ds)
          (getLoop pipeWrite fuel qr umax g' (w + total ds))
      /\ Type_ g' = t /\ Name g' = name /\ Domain g' = domain
      /\ nextOffset g' = offsetAt start a (i + List.length ds)
      /\ Max g' = (if umax then Max g else Max g - total ds).
Proof.
  pose proof (PayloadSize_values t a Ha) as Hav.
  induction ds as [|d ds IH]; intros fuel g i w HT HN HD Ho Hb Hm Hq Hw.
  - exists g. cbn [List.length Nat.add chunkEvents].
    rewrite after_nil, total_nil, Z.add_0_r, Nat.add_0_r.
    repeat split; try assumption.
    destruct umax; [reflexivity | lia].
  - cbn [List.length] in *.
    destruct (Hq 0%nat d eq_refl) as (s & rest & Hqs & Hds).
    rewrite Nat.add_0_r in Hqs.
    pose proof (llenZ_nonneg d) as Hd0.
    pose proof (total_nonneg ds) as Ht0.
    rewrite total_cons in Hm.
    assert (Hchk : (Max g =? 0) && negb umax = false).
    { destruct umax; [apply andb_false_r|].
      destruct Hm as [Hm | Hm]; [discriminate|].
      rewrite andb_true_r. apply Z.eqb_neq. lia. }
    assert (Hn : (if (Max g <? llenZ d) && negb umax then Max g else llenZ d)
                 = llenZ d).
    { destruct umax; [now rewrite andb_false_r|].
      destruct Hm as [Hm | Hm]; [discriminate|].
      rewrite andb_true_r.
      destruct (Max g <? llenZ d) eqn:E; [apply Z.ltb_lt in E; lia|reflexivity]. }
    rewrite <- HT in Ha, Hqs, Hds. rewrite <- Ho, <- HN, <- HD in Hqs.
    cbn [Nat.add].
    rewrite (getLoop_step pipeWrite _ qr umax g w a s rest d Ha Hchk Hqs Hds).
    cbv zeta. rewrite Hn.
    assert (Hout : firstn (Z.to_nat (llenZ d)) d = d).
    { apply firstn_all2. unfold llenZ. lia. }
    rewrite Hout.
    specialize (Hw 0%nat d eq_refl) as Hw0.
    cbn [firstn] in Hw0. rewrite total_nil, Z.add_0_r in Hw0. rewrite Hw0.
    assert (Hoff : wrap64 (nextOffset g + a) = offsetAt start a (S i)).
    { rewrite Ho. unfold wrap64, offsetAt in *. unfold uint64_max in Hb.
      rewrite Z.mod_small by lia. lia. }
    rewrite Hoff.
    assert (Hne : offsetAt start a (S i) <> 0) by (unfold offsetAt; lia).
    set (g1 := if negb umax
               then setMax (setOff g (offsetAt start a (S i)))
                      (wrap64 (Max g - llenZ d))
               else setOff g (offsetAt start a (S i))).
    assert (H1 : Type_ g1 = t /\ Name g1 = name /\ Domain g1 = domain
                 /\ nextOffset g1 = offsetAt start a (S i)
                 /\ Max g1 = (if umax then Max g else Max g - llenZ d)).
    { unfold g1. destruct umax; cbn [negb].
      - repeat split; try assumption. now apply nextOffset_setOff.
      - destruct Hm as [Hm | Hm]; [discriminate|].
        repeat split; try assumption.
        + rewrite nextOffset_setMax. now apply nextOffset_setOff.
        + cbn [Max setMax]. unfold wrap64. unfold uint64_max in Hm.
          apply Z.mod_small. lia. }
    destruct H1 as (HT1 & HN1 & HD1 & Ho1 & HM1).
    destruct (IH fuel g1 (S i) (w + llenZ d) HT1 HN1 HD1 Ho1) as (g' & Hrun & HT' & HN' & HD' & Ho' & HM').
    + replace (S i + List.length ds)%nat with (i + S (List.length ds))%nat by lia.
      exact Hb.
    + destruct umax; [now left | right]. rewrite HM1.
      destruct Hm as [Hm | Hm]; [discriminate | lia].
    + intros j d' Hj.
      replace (S i + j)%nat with (i + S j)%nat by lia.
      apply (Hq (S j) d' Hj).
    + intros j d' Hj. specialize (Hw (S j) d' Hj).
      cbn [firstn] in Hw. rewrite total_cons in Hw.
      now rewrite <- Z.add_assoc.
    + exists g'. rewrite Hrun. cbn [chunkEvents].
      rewrite !andThen_after, total_cons, Z.add_assoc, HT, HN, HD, Ho.
      repeat split; try assumption.
      * rewrite Ho'. f_equal. lia.
      * rewrite HM', HM1. destruct umax; [reflexivity | lia].
Qed.

End Chunks.

Section Transfers.

Variable DefaultQuerier : Querier.
Variable pipeWrite : Z -> list ascii -> option error.

(** [get] up to the end of the rounds that fetch [ds] in full. *)
Lemma get_chunks qr t name domain start a max ds fuel :
  PayloadSize t = Ok a ->
  0 <= start ->
  offsetAt start a (List.length ds) <= uint64_max ->
  max = 0 \/ total ds < max <= uint64_max ->
  (forall j d, nth_error ds j = Some d ->
               answers qr t (queryName (offsetAt start a j) name domain) d) ->
  (forall j d, nth_error ds j = Some d ->
               pipeWrite (total (firstn j ds)) d = None) ->
  exists g',
    get DefaultQuerier pipeWrite (List.length ds + fuel)
      (newGetter t name domain start max qr)
    = after (chunkEvents t name domain start a 0 ds)
        (getLoop pipeWrite fuel qr (max =? 0) g' (total ds))
    /\ Type_ g' = t /\ Name g' = name /\ Domain g' = domain
    /\ nextOffset g' = offsetAt start a (List.length ds)
    /\ Max g' = (if max =? 0 then 0 else max - total ds).
Proof.
  intros Ha Hstart Hb Hm Hq Hw.
  unfold get. cbn [Querier_ Max newGetter].
  fold (newGetter t name domain start max qr).
  destruct (getLoop_chunks pipeWrite qr t name domain start a Ha Hstart
              (max =? 0) ds fuel
              (setQuerier (newGetter t name domain start max qr) qr) 0%nat 0)
    as (g' & Hrun & HT & HN & HD & Ho & HM);
    try reflexivity; try assumption.
  - rewrite nextOffset_new. unfold offsetAt. lia.
  - cbn [Max setQuerier newGetter]. destruct Hm as [-> | Hm]; [now left|].
    right. exact Hm.
  - exists g'. rewrite Hrun. cbn [Nat.add Z.add].
    repeat split; try assumption.
    rewrite HM. cbn [Max setQuerier newGetter].
    destruct (max =? 0) eqn:E; [now apply Z.eqb_eq in E | reflexivity].
Qed.

(** The last round of a transfer, ended by a query that fails. *)
Lemma get_chunks_query_error qr t name domain start a max ds e fuel :
  PayloadSize t = Ok a ->
  0 <= start ->
  offsetAt start a (List.length ds) <= uint64_max ->
  max = 0 \/ total ds < max <= uint64_max ->
  (forall j d, nth_error ds j = Some d ->
               answers qr t (queryName (offsetAt start a j) name domain) d) ->
  (forall j d, nth_error ds j = Some d ->
               pipeWrite (total (firstn j ds)) d = None) ->
  query qr t (queryName (offsetAt start a (List.length ds)) name domain)
  = Some (Err e) ->
  (List.length ds < fuel)%nat ->
  get DefaultQuerier pipeWrite fuel (newGetter t name domain start max qr)
  = Some (chunkEvents t name domain start a 0 ds
            ++ [Query t (queryName (offsetAt start a (List.length ds)) name domain);
                match asDNSError e with
                | Some true => Close
                | _ => CloseWithError
                         (Wrapf "querying for %q: %w"
                            [AStr (queryName (offsetAt start a (List.length ds))
                                     name domain)] e)
                end]).
Proof.
  intros Ha Hstart Hb Hm Hq Hw He Hfuel.
  replace fuel with (List.length ds + S (fuel - S (List.length ds)))%nat by lia.
  destruct (get_chunks qr t name domain start a max ds
              (S (fuel - S (List.length ds))) Ha Hstart Hb Hm Hq Hw)
    as (g' & Hrun & HT & HN & HD & Ho & HM).
  rewrite Hrun.
  rewrite <- HT in Ha. rewrite <- HT, <- HN, <- HD, <- Ho in He.
  rewrite (getLoop_query_error pipeWrite _ qr (max =? 0) g' _ a e Ha).
  - rewrite HT, HN, HD, Ho. reflexivity.
  - rewrite HM. destruct (max =? 0) eqn:E; [reflexivity|].
    rewrite andb_true_r. apply Z.eqb_neq.
    destruct Hm as [-> | Hm]; [discriminate | lia].
  - exact He.
Qed.

End Transfers.

Section TransferTheorems.

Variable DefaultQuerier : Querier.
Variable pipeWrite : Z -> list ascii -> option error.

(** X1: with [Max = 0] the transfer runs until a query fails.  When the
    queries for the offsets [start], [start + a], ... are answered with
    records that decode to the chunks [ds], the query after them fails
    with a not-found DNS error and the reader takes every write, [get]
    makes one query a chunk and one more, writes the chunks in order and
    closes the pipe without an error: the reader receives exactly the
    chunks. *)
Theorem get_whole_file :
  forall qr t name domain start a ds e fuel,
    PayloadSize t = Ok a ->
    0 <= start ->
    offsetAt start a (List.length ds) <= uint64_max ->
    (forall j d, nth_error ds j = Some d ->
                 answers qr t (queryName (offsetAt start a j) name domain) d) ->
    query qr t (queryName (offsetAt start a (List.length ds)) name domain)
    = Some (Err e) ->
    asDNSError e = Some true ->
    (forall w d, pipeWrite w d = None) ->
    (List.length ds < fuel)%nat ->
    let evs := chunkEvents t name domain start a 0 ds
                 ++ [Query t (queryName (offsetAt start a (List.length ds))
                                name domain);
                     Close] in
    get DefaultQuerier pipeWrite fuel (newGetter t name domain start 0 qr)
    = Some evs
    /\ streamOf evs = List.concat ds
    /\ List.length (queriesOf evs) = S (List.length ds).
Proof.
  intros qr t name domain start a ds e fuel Ha Hs Hb Hq He Hnf Hw Hfuel evs.
  split; [|split].
  - rewrite (get_chunks_query_error DefaultQuerier pipeWrite qr t name domain
               start a 0 ds e fuel Ha Hs Hb (or_introl eq_refl) Hq
               (fun j d _ => Hw _ d) He Hfuel).
    now rewrite Hnf.
  - unfold evs. rewrite streamOf_app, streamOf_chunkEvents.
    cbn [streamOf]. apply app_nil_r.
  - unfold evs. rewrite queriesOf_app, queriesOf_chunkEvents, length_app,
      length_map, length_seq. cbn [queriesOf List.length]. lia.
Qed.

(** X3: a query that fails with anything but a not-found DNS error ends the
    transfer with that error, wrapped with the name of the query; the
    chunks fetched before it were written to the pipe. *)
Theorem get_query_failure :
  forall qr t name domain start a max ds e fuel,
    PayloadSize t = Ok a ->
    0 <= start ->
    offsetAt start a (List.length ds) <= uint64_max ->
    max = 0 \/ total ds < max <= uint64_max ->
    (forall j d, nth_error ds j = Some d ->
                 answers qr t (queryName (offsetAt start a j) name domain) d) ->
    query qr t (queryName (offsetAt start a (List.length ds)) name domain)
    = Some (Err e) ->
    asDNSError e <> Some true ->
    (forall w d, pipeWrite w d = None) ->
    (List.length ds < fuel)%nat ->
    let q := queryName (offsetAt start a (List.length ds)) name domain in
    let evs := chunkEvents t name domain start a 0 ds
                 ++ [Query t q;
                     CloseWithError (Wrapf "querying for %q: %w" [AStr q] e)] in
    get DefaultQuerier pipeWrite fuel (newGetter t name domain start max qr)
    = Some evs
    /\ streamOf evs = List.concat ds.
Proof.
  intros qr t name domain start a max ds e fuel Ha Hs Hb Hm Hq He Hnf Hw Hfuel
    q evs.
  split.
  - rewrite (get_chunks_query_error DefaultQuerier pipeWrite qr t name domain
               start a max ds e fuel Ha Hs Hb Hm Hq
               (fun j d _ => Hw _ d) He Hfuel).
    fold q. destruct (asDNSError e) as [[|]|]; [now elim Hnf | reflexivity..].
  - unfold evs. rewrite streamOf_app, streamOf_chunkEvents.
    cbn [streamOf]. apply app_nil_r.
Qed.

End TransferTheorems.

Lemma get_whole_file_witness :
  let qr := tableQuerier [("0-f.example.com", ["3.1.2.3"]);
                          ("3-f.example.com", ["3.4.5.0"])] notFound in
  let evs := [Query TypeA "0-f.example.com"; Write (map Zbyte [1; 2; 3]);
              Query TypeA "3-f.example.com"; Write (map Zbyte [4; 5; 0]);
              Query TypeA "6-f.example.com"; Close] in
  get (constQuerier []) (fun _ _ => None) 3
    (newGetter TypeA "f" "example.com" 0 0 qr)
  = Some evs
  /\ streamOf evs = map Zbyte [1; 2; 3; 4; 5; 0]
  /\ List.length (queriesOf evs) = 3%nat.
Proof.
  refine (get_whole_file (constQuerier []) (fun _ _ => None)
            (tableQuerier [("0-f.example.com", ["3.1.2.3"]);
                           ("3-f.example.com", ["3.4.5.0"])] notFound)
            TypeA "f" "example.com" 0 3
            [map Zbyte [1; 2; 3]; map Zbyte [4; 5; 0]]
            (notFound "6-f.example.com") 3 eq_refl _ _ _ eq_refl eq_refl _ _).
  - lia.
  - vm_compute. discriminate.
  - intros [|[|j]] d H; simpl in H.
    + injection H as <-.
      exists "3.1.2.3", []. split; vm_compute; reflexivity.
    + injection H as <-.
      exists "3.4.5.0", []. split; vm_compute; reflexivity.
    + destruct j; discriminate.
  - reflexivity.
  - simpl. lia.
Defined.

Lemma get_query_failure_witness :
  let qr := tableQuerier [("0-f.example.com", ["3.1.2.3"])]
              (fun _ => OtherError "i/o timeout") in
  let evs := [Query TypeA "0-f.example.com"; Write (map Zbyte [1; 2; 3]);
              Query TypeA "3-f.example.com";
              CloseWithError (Wrapf "querying for %q: %w"
                                [AStr "3-f.example.com"]
                                (OtherError "i/o timeout"))] in
  get (constQuerier []) (fun _ _ => None) 2
    (newGetter TypeA "f" "example.com" 0 0 qr)
  = Some evs
  /\ streamOf evs = map Zbyte [1; 2; 3].
Proof.
  refine (get_query_failure (constQuerier []) (fun _ _ => None)
            (tableQuerier [("0-f.example.com", ["3.1.2.3"])]
               (fun _ => OtherError "i/o timeout"))
            TypeA "f" "example.com" 0 3 0
            [map Zbyte [1; 2; 3]]
            (OtherError "i/o timeout") 2 eq_refl _ _ (or_introl eq_refl) _
            eq_refl _ _ _).
  - lia.
  - vm_compute. discriminate.
  - intros [|j] d H; simpl in H; [injection H as <-|destruct j; discriminate].
    exists "3.1.2.3", []. split; vm_compute; reflexivity.
  - discriminate.
  - reflexivity.
  - simpl. lia.
Defined.

Section BoundedTransfer.

Variable DefaultQuerier : Querier.
Variable pipeWrite : Z -> list ascii -> option error.

(** X2: with [Max = max > 0] the transfer ends as soon as [max] bytes were
    written: when the chunks [ds] hold fewer than [max] bytes and [ds]
    with the next chunk [dk] at least [max], [get] writes [ds], then the
    first [max - total ds] bytes of [dk], closes the pipe without an
    error and makes no further query.  The reader receives the first
    [max] bytes of the chunks. *)
Theorem get_max_bytes :
  forall qr t name domain start a max ds dk fuel,
    PayloadSize t = Ok a ->
    0 <= start ->
    offsetAt start a (List.length ds) <= uint64_max ->
    total ds < max <= total ds + llenZ dk ->
    max <= uint64_max ->
    (forall j d, nth_error (ds ++ [dk]) j = Some d ->
                 answers qr t (queryName (offsetAt start a j) name domain) d) ->
    (forall w d, pipeWrite w d = None) ->
    (List.length ds + 1 < fuel)%nat ->
    let evs := chunkEvents t name domain start a 0 ds
                 ++ [Query t (queryName (offsetAt start a (List.length ds))
                                name domain);
                     Write (firstn (Z.to_nat (max - total ds)) dk);
                     Close] in
    get DefaultQuerier pipeWrite fuel (newGetter t name domain start max qr)
    = Some evs
    /\ streamOf evs = firstn (Z.to_nat max) (List.concat (ds ++ [dk]))
    /\ List.length (queriesOf evs) = S (List.length ds).
Proof.
  intros qr t name domain start a max ds dk fuel Ha Hs Hb Hm Hmax Hq Hw Hfuel
    evs.
  pose proof (total_nonneg ds) as Ht0.
  split; [|split].
  - replace fuel with (List.length ds + S (S (fuel - S (S (List.length ds)))))%nat
      by lia.
    destruct (get_chunks DefaultQuerier pipeWrite qr t name domain start a max ds
                (S (S (fuel - S (S (List.length ds))))) Ha Hs Hb)
      as (g' & Hrun & HT & HN & HD & Ho & HM).
    + right. lia.
    + intros j d Hj. apply Hq. rewrite nth_error_app1; [exact Hj|].
      apply nth_error_Some. congruence.
    + intros j d _. apply Hw.
    + rewrite Hrun.
      assert (E0 : (max =? 0) = false) by (apply Z.eqb_neq; lia).
      rewrite E0 in HM |- *.
      destruct (Hq (List.length ds) dk) as (s & rest & Hqs & Hds).
      { rewrite nth_error_app2, Nat.sub_diag by lia. reflexivity. }
      rewrite <- HT in Ha, Hqs, Hds. rewrite <- Ho, <- HN, <- HD in Hqs.
      rewrite (getLoop_step pipeWrite _ qr false g' _ a s rest dk Ha
                 ltac:(rewrite HM, andb_true_r; apply Z.eqb_neq; lia) Hqs Hds).
      cbv zeta. cbn [negb]. rewrite andb_true_r, HM.
      assert (Hn : (if max - total ds <? llenZ dk
                    then max - total ds else llenZ dk) = max - total ds).
      { destruct (max - total ds <? llenZ dk) eqn:E; [reflexivity|].
        apply Z.ltb_ge in E. lia. }
      rewrite Hn, Hw, Z.sub_diag.
      change (wrap64 0) with 0.
      cbn [getLoop Max setMax]. change (0 =? 0) with true.
      cbn [andb negb andThen after]. rewrite HT, HN, HD, Ho. reflexivity.
  - unfold evs. rewrite streamOf_app, streamOf_chunkEvents.
    cbn [streamOf]. rewrite app_nil_r, concat_app.
    cbn [List.concat]. rewrite app_nil_r.
    rewrite firstn_app.
    rewrite (firstn_all2 (n := Z.to_nat max) (List.concat ds))
      by (unfold total, llenZ in *; lia).
    f_equal. f_equal. unfold total, llenZ in *. lia.
  - unfold evs. rewrite queriesOf_app, queriesOf_chunkEvents, length_app,
      length_map, length_seq. cbn [queriesOf List.length]. lia.
Qed.

(** X5: when a write to the pipe fails (the reader has closed its end),
    [get] ends with the error of the write and makes no further query,
    whatever [Max] is.  After the chunks [ds] were written, the next chunk
    [dk] is written whole when [Max = 0], and cut to the [max - total ds]
    bytes that are left when [Max = max > 0]; if that write fails with
    [err] the run ends in [CloseWithError err]. *)
Theorem get_write_error :
  forall qr t name domain start a max ds dk err fuel,
    let out := if max =? 0 then dk
               else firstn (Z.to_nat (max - total ds)) dk in
    PayloadSize t = Ok a ->
    0 <= start ->
    offsetAt start a (List.length ds) <= uint64_max ->
    max = 0 \/ total ds < max <= uint64_max ->
    (forall j d, nth_error (ds ++ [dk]) j = Some d ->
                 answers qr t (queryName (offsetAt start a j) name domain) d) ->
    (forall j d, nth_error ds j = Some d ->
                 pipeWrite (total (firstn j ds)) d = None) ->
    pipeWrite (total ds) out = Some err ->
    (List.length ds < fuel)%nat ->
    get DefaultQuerier pipeWrite fuel (newGetter t name domain start max qr)
    = Some (chunkEvents t name domain start a 0 ds
              ++ [Query t (queryName (offsetAt start a (List.length ds))
                             name domain);
                  Write out;
                  CloseWithError err]).
Proof.
  intros qr t name domain start a max ds dk err fuel out
    Ha Hs Hb Hmax Hq Hw Herr Hfuel.
  replace fuel with (List.length ds + S (fuel - S (List.length ds)))%nat by lia.
  destruct (get_chunks DefaultQuerier pipeWrite qr t name domain start a max ds
              (S (fuel - S (List.length ds))) Ha Hs Hb Hmax)
    as (g' & Hrun & HT & HN & HD & Ho & HM).
  - intros j d Hj. apply Hq. rewrite nth_error_app1; [exact Hj|].
    apply nth_error_Some. congruence.
  - exact Hw.
  - rewrite Hrun.
    destruct (Hq (List.length ds) dk) as (s & rest & Hqs & Hds).
    { rewrite nth_error_app2, Nat.sub_diag by lia. reflexivity. }
    rewrite <- HT in Ha, Hqs, Hds. rewrite <- Ho, <- HN, <- HD in Hqs.
    assert (Hgo : (Max g' =? 0) && negb (max =? 0) = false).
    { rewrite HM. destruct (max =? 0) eqn:E; [apply andb_false_r|].
      apply Z.eqb_neq in E. cbn [negb]. rewrite andb_true_r.
      apply Z.eqb_neq. lia. }
    rewrite (getLoop_step pipeWrite _ qr (max =? 0) g' _ a s rest dk Ha
               Hgo Hqs Hds).
    cbv zeta.
    assert (Hout : firstn (Z.to_nat (if (Max g' <? llenZ dk) && negb (max =? 0)
                                     then Max g' else llenZ dk)) dk = out).
    { unfold out. rewrite HM. destruct (max =? 0) eqn:E.
      - cbn [negb]. rewrite andb_false_r.
        apply firstn_all2. unfold llenZ. lia.
      - cbn [negb]. rewrite andb_true_r.
        destruct (max - total ds <? llenZ dk) eqn:El; [reflexivity|].
        apply Z.ltb_ge in El.
        rewrite !firstn_all2; [reflexivity| |]; unfold llenZ in *; lia. }
    rewrite Hout, Herr. cbn [andThen after]. rewrite HT, HN, HD, Ho. reflexivity.
Qed.

End BoundedTransfer.

Lemma get_max_bytes_witness :
  let qr := constQuerier ["3.1.2.3"] in
  let evs := [Query TypeA "0-f.example.com"; Write (map Zbyte [1; 2; 3]);
              Query TypeA "3-f.example.com"; Write (map Zbyte [1]);
              Close] in
  get (constQuerier []) (fun _ _ => None) 3
    (newGetter TypeA "f" "example.com" 0 4 qr)
  = Some evs
  /\ streamOf evs = map Zbyte [1; 2; 3; 1]
  /\ List.length (queriesOf evs) = 2%nat.
Proof.
  refine (get_max_bytes (constQuerier []) (fun _ _ => None)
            (constQuerier ["3.1.2.3"]) TypeA "f" "example.com" 0 3 4
            [map Zbyte [1; 2; 3]] (map Zbyte [1; 2; 3]) 3
            eq_refl _ _ _ _ _ _ _).
  - lia.
  - vm_compute. discriminate.
  - vm_compute. split; [reflexivity | discriminate].
  - vm_compute. discriminate.
  - intros [|[|j]] d H; simpl in H.
    + injection H as <-.
      exists "3.1.2.3", []. split; vm_compute; reflexivity.
    + injection H as <-.
      exists "3.1.2.3", []. split; vm_compute; reflexivity.
    + destruct j; discriminate.
  - reflexivity.
  - simpl. lia.
Defined.

Lemma get_write_error_witness :
  get (constQuerier [])
    (fun w _ => if w <? 3 then None else Some ioErrClosedPipe) 2
    (newGetter TypeA "f" "example.com" 0 5 (constQuerier ["3.1.2.3"]))
  = Some [Query TypeA "0-f.example.com"; Write (map Zbyte [1; 2; 3]);
          Query TypeA "3-f.example.com"; Write (map Zbyte [1; 2]);
          CloseWithError ioErrClosedPipe].
Proof.
  refine (get_write_error (constQuerier [])
            (fun w _ => if w <? 3 then None else Some ioErrClosedPipe)
            (constQuerier ["3.1.2.3"]) TypeA "f" "example.com" 0 3 5
            [map Zbyte [1; 2; 3]] (map Zbyte [1; 2; 3]) ioErrClosedPipe 2
            eq_refl _ _ _ _ _ _ _).
  - lia.
  - vm_compute. discriminate.
  - right. vm_compute. split; [reflexivity | discriminate].
  - intros [|[|j]] d H; simpl in H.
    + injection H as <-.
      exists "3.1.2.3", []. split; vm_compute; reflexivity.
    + injection H as <-.
      exists "3.1.2.3", []. split; vm_compute; reflexivity.
    + destruct j; discriminate.
  - intros [|j] d H; simpl in H; [reflexivity | destruct j; discriminate].
  - reflexivity.
  - simpl. lia.
Defined.

Lemma PayloadSize_unsupported t :
  t <> TypeA -> t <> TypeAAAA -> t <> TypeTXT ->
  PayloadSize t = Err (ErrorUnsupportedQType t).
Proof.
  intros HA H6 HT. unfold PayloadSize.
  apply String.eqb_neq in HA, H6, HT. now rewrite HA, H6, HT.
Qed.

Section LoopInvariants.

Variable DefaultQuerier : Querier.
Variable pipeWrite : Z -> list ascii -> option error.

(** X6: a getter whose type is none of A, AAAA and TXT makes no query: the
    pipe is closed at once with the unsupported-type error, so that the
    first read from it fails. *)
Theorem get_unsupported_type :
  forall g fuel,
    Type_ g <> TypeA -> Type_ g <> TypeAAAA -> Type_ g <> TypeTXT ->
    get DefaultQuerier pipeWrite (S fuel) g
    = Some [CloseWithError
              (Wrapf "generating query name: %w" []
                 (Wrapf "determining payload size: %w" []
                    (ErrorUnsupportedQType (Type_ g))))].
Proof.
  intros g fuel HA H6 HT. unfold get. cbn [getLoop].
  cbn [Max setQuerier]. rewrite andb_negb_r.
  unfold NextName. cbn [Type_ setQuerier setOff].
  assert (E : forall g', Type_ g' = Type_ g ->
                PayloadSize (Type_ g') = Err (ErrorUnsupportedQType (Type_ g))).
  { intros g' ->. now apply PayloadSize_unsupported. }
  match goal with
  | |- context [PayloadSize (Type_ ?x)] =>
      rewrite (E x) by (destruct (_ && _); reflexivity)
  end.
  reflexivity.
Qed.

Lemma getLoop_bounded qr fuel :
  forall g w evs,
    0 <= Max g <= uint64_max ->
    getLoop pipeWrite fuel qr false g w = Some evs ->
    llenZ (streamOf evs) <= Max g.
Proof.
  induction fuel as [|fuel IH]; intros g w evs Hm; [discriminate|].
  cbn [getLoop]. rewrite andb_true_r.
  destruct (Max g =? 0) eqn:E0.
  { intros [= <-]. cbn. lia. }
  destruct (NextName g) as [[q|err] g1] eqn:EN; [|intros [= <-]; cbn; lia].
  assert (HM1 : Max g1 = Max g).
  { unfold NextName in EN.
    destruct (PayloadSize _); injection EN as _ <-;
      destruct (_ && _); reflexivity. }
  destruct (query qr (Type_ g1) q) as [r|]; [|intros [= <-]; cbn; lia].
  destruct r as [[|as0 rest]|e].
  - intros [= <-]. cbn. lia.
  - destruct (DecodeResponse _ _ as0) as [d [err|]];
      [intros [= <-]; cbn; lia|].
    cbn [negb]. rewrite andb_true_r, HM1.
    set (n := if Max g <? llenZ d then Max g else llenZ d).
    assert (Hn : 0 <= n <= Max g /\ n <= llenZ d).
    { unfold n. pose proof (llenZ_nonneg d).
      destruct (Max g <? llenZ d) eqn:E;
        [apply Z.ltb_lt in E | apply Z.ltb_ge in E]; lia. }
    assert (Hout : llenZ (firstn (Z.to_nat n) d) = n).
    { unfold llenZ in *. rewrite length_firstn. lia. }
    destruct (pipeWrite w _).
    + intros [= <-]. cbn [andThen streamOf]. rewrite app_nil_r. lia.
    + destruct (getLoop pipeWrite fuel qr false _ _) as [rest'|] eqn:ER;
        [|discriminate].
      intros [= <-]. cbn [andThen streamOf].
      apply IH in ER.
      * cbn [Max setMax] in ER. unfold wrap64 in ER.
        unfold uint64_max in Hm.
        rewrite Z.mod_small in ER by lia.
        unfold llenZ in *. rewrite length_app. lia.
      * cbn [Max setMax]. unfold wrap64, uint64_max in *.
        rewrite Z.mod_small by lia. lia.
  - destruct (asDNSError e) as [[|]|]; intros [= <-]; cbn; lia.
Qed.

(** X7: the bytes a transfer with [Max > 0] hands to the pipe never
    exceed [Max], whatever the querier answers and whatever the reader
    does. *)
Theorem get_never_exceeds_Max :
  forall g fuel evs,
    0 < Max g <= uint64_max ->
    get DefaultQuerier pipeWrite fuel g = Some evs ->
    llenZ (streamOf evs) <= Max g.
Proof.
  intros g fuel evs Hm. unfold get.
  assert (E : (Max g =? 0) = false) by (apply Z.eqb_neq; lia).
  rewrite E. intros H. apply getLoop_bounded in H; [exact H|].
  cbn [Max setQuerier]. lia.
Qed.

End LoopInvariants.

Lemma get_unsupported_type_witness :
  get (constQuerier []) (fun _ _ => None) 1
    (newGetter "MX" "f" "example.com" 0 0 (constQuerier ["3.1.2.3"]))
  = Some [CloseWithError
            (Wrapf "generating query name: %w" []
               (Wrapf "determining payload size: %w" []
                  (ErrorUnsupportedQType "MX")))].
Proof.
  apply (get_unsupported_type (constQuerier []) (fun _ _ => None)
           (newGetter "MX" "f" "example.com" 0 0 (constQuerier ["3.1.2.3"])) 0);
    discriminate.
Defined.

Lemma get_never_exceeds_Max_witness :
  llenZ (streamOf [Query TypeA "0-f.example.com"; Write (map Zbyte [1; 2; 3]);
                   Query TypeA "3-f.example.com"; Write (map Zbyte [1]);
                   Close]) <= 4.
Proof.
  apply (get_never_exceeds_Max (constQuerier []) (fun _ _ => None)
           (newGetter TypeA "f" "example.com" 0 4 (constQuerier ["3.1.2.3"])) 3).
  - vm_compute. split; [reflexivity | discriminate].
  - vm_compute. reflexivity.
Defined.

Section LoopEnds.

Variable DefaultQuerier : Querier.
Variable pipeWrite : Z -> list ascii -> option error.

Lemma getLoop_terminates qr fuel :
  forall g w,
    Type_ g = TypeA \/ Type_ g = TypeAAAA ->
    0 <= Max g <= uint64_max ->
    Max g < Z.of_nat fuel ->
    exists evs, getLoop pipeWrite fuel qr false g w = Some evs.
Proof.
  induction fuel as [|fuel IH]; intros g w HT Hm Hf; [lia|].
  cbn [getLoop]. rewrite andb_true_r.
  destruct (Max g =? 0) eqn:E0; [eauto|].
  apply Z.eqb_neq in E0.
  assert (Ha : exists a, PayloadSize (Type_ g) = Ok a)
    by (destruct HT as [H | H]; rewrite H; [exists 3 | exists 8]; reflexivity).
  destruct Ha as (a & Ha).
  rewrite (NextName_supported g a Ha). cbn [Type_ setOff Max].
  destruct (query qr (Type_ g) _) as [r|]; [|eauto].
  destruct r as [[|as0 rest]|e]; cbn [andThen]; [eauto| |].
  - destruct (DecodeResponse _ _ as0) as [d [err|]] eqn:ED;
      [cbn [andThen]; eauto|].
    cbn [negb]. rewrite andb_true_r.
    assert (Hd : 0 < llenZ d).
    { unfold llenZ. destruct HT as [HT | HT]; rewrite HT in ED.
      - apply DecodeResponse_A_length in ED. lia.
      - apply DecodeResponse_AAAA_length in ED. lia. }
    set (n := if Max g <? llenZ d then Max g else llenZ d).
    assert (Hn : 0 < n <= Max g).
    { unfold n. destruct (Max g <? llenZ d) eqn:E;
        [apply Z.ltb_lt in E | apply Z.ltb_ge in E]; lia. }
    destruct (pipeWrite w _); [cbn [andThen]; eauto|].
    destruct (IH (setMax (setOff g (wrap64 (nextOffset g + a)))
                    (wrap64 (Max g - n))) (w + n)) as (evs & ->).
    + exact HT.
    + cbn [Max setMax]. unfold wrap64, uint64_max in *.
      rewrite Z.mod_small by lia. lia.
    + cbn [Max setMax]. unfold wrap64, uint64_max in *.
      rewrite Z.mod_small by lia. lia.
    + cbn [andThen]. eauto.
  - destruct (asDNSError e) as [[|]|]; cbn [andThen]; eauto.
Qed.

(** X8: a transfer of type A or AAAA with [Max > 0] always ends: within
    [Max + 1] rounds of the loop [get] has closed the pipe, whatever the
    querier answers and whatever the reader does. *)
Theorem get_bounded_terminates :
  forall g fuel,
    Type_ g = TypeA \/ Type_ g = TypeAAAA ->
    0 < Max g <= uint64_max ->
    Max g < Z.of_nat fuel ->
    exists evs, get DefaultQuerier pipeWrite fuel g = Some evs.
Proof.
  intros g fuel HT Hm Hf. unfold get.
  assert (E : (Max g =? 0) = false) by (apply Z.eqb_neq; lia).
  rewrite E. apply getLoop_terminates; cbn [Type_ Max setQuerier];
    [exact HT | lia | exact Hf].
Qed.

Lemma getLoop_runs_on qr t a fuel :
  PayloadSize t = Ok a ->
  (forall q, exists d, answers qr t q d) ->
  (forall w d, pipeWrite w d = None) ->
  forall g w, Type_ g = t -> getLoop pipeWrite fuel qr true g w = None.
Proof.
  intros Ha Hq Hw.
  induction fuel as [|fuel IH]; intros g w HT; [reflexivity|].
  destruct (Hq (queryName (nextOffset g) (Name g) (Domain g)))
    as (d & s & rest & Hqs & Hds).
  rewrite <- HT in Ha, Hqs, Hds.
  rewrite (getLoop_step pipeWrite _ qr true g w a s rest d Ha
             (andb_false_r _) Hqs Hds).
  cbv zeta. cbn [negb]. rewrite Hw, IH by exact HT. reflexivity.
Qed.

(** X9: with [Max = 0] only a failure ends the transfer: as long as every
    query is answered with a record that decodes and the reader takes
    every write, the loop of [get] goes on, so no number of rounds
    brings it to its end. *)
Theorem get_unbounded_runs_on :
  forall qr t name domain start a fuel,
    PayloadSize t = Ok a ->
    (forall q, exists d, answers qr t q d) ->
    (forall w d, pipeWrite w d = None) ->
    get DefaultQuerier pipeWrite fuel (newGetter t name domain start 0 qr)
    = None.
Proof.
  intros qr t name domain start a fuel Ha Hq Hw. unfold get.
  cbn [Max Querier_ newGetter]. change (0 =? 0) with true.
  now apply (getLoop_runs_on qr t a fuel Ha Hq Hw).
Qed.

(** X4: an answer without records, or one whose first record does not
    decode, ends the transfer with an error that names the query; the
    chunks fetched before it were written to the pipe. *)
Theorem get_unusable_answer :
  forall qr t name domain start a max ds fuel,
    PayloadSize t = Ok a ->
    0 <= start ->
    offsetAt start a (List.length ds) <= uint64_max ->
    max = 0 \/ total ds < max <= uint64_max ->
    (forall j d, nth_error ds j = Some d ->
                 answers qr t (queryName (offsetAt start a j) name domain) d) ->
    (forall w d, pipeWrite w d = None) ->
    (List.length ds < fuel)%nat ->
    let q := queryName (offsetAt start a (List.length ds)) name domain in
    let run := get DefaultQuerier pipeWrite fuel
                 (newGetter t name domain start max qr) in
    let fetched := chunkEvents t name domain start a 0 ds in
    (query qr t q = Some (Ok []) ->
     run = Some (fetched
                   ++ [Query t q;
                       CloseWithError
                         (Errorf "empty response to query for %q" [AStr q])]))
    /\ (forall s rest part err,
          query qr t q = Some (Ok (s :: rest)) ->
          DecodeResponse t (repeat Net.zeroByte MaxDecode) s
          = (part, Some err) ->
          run = Some (fetched
                        ++ [Query t q;
                            CloseWithError
                              (Wrapf "decoding response %q to %q: %w"
                                 [AStr s; AStr q] err)])).
Proof.
  intros qr t name domain start a max ds fuel Ha Hs Hb Hm Hq Hw Hfuel q run
    fetched.
  assert (Hrun : exists g',
             run = after fetched
                     (getLoop pipeWrite (S (fuel - S (List.length ds))) qr
                        (max =? 0) g' (total ds))
             /\ Type_ g' = t /\ Name g' = name /\ Domain g' = domain
             /\ nextOffset g' = offsetAt start a (List.length ds)
             /\ (Max g' =? 0) && negb (max =? 0) = false).
  { unfold run.
    destruct (get_chunks DefaultQuerier pipeWrite qr t name domain start a max
                ds (S (fuel - S (List.length ds))) Ha Hs Hb Hm Hq
                (fun j d _ => Hw _ d))
      as (g' & Hrun & HT & HN & HD & Ho & HM).
    exists g'. repeat split; try assumption.
    { unfold fetched. rewrite <- Hrun. f_equal. lia. }
    rewrite HM. destruct (max =? 0) eqn:E; [reflexivity|].
    rewrite andb_true_r. apply Z.eqb_neq.
    pose proof (total_nonneg ds).
    destruct Hm as [-> | Hm]; [discriminate | lia]. }
  destruct Hrun as (g' & Hrun & HT & HN & HD & Ho & HM).
  rewrite <- HT in Ha.
  split.
  - intros Hq0. rewrite Hrun. cbn [getLoop].
    rewrite HM, (NextName_supported g' a Ha).
    cbn [Type_ setOff Name Domain]. rewrite HT, HN, HD, Ho.
    fold q. rewrite Hq0. reflexivity.
  - intros s rest part err Hq1 Hd1. rewrite Hrun. cbn [getLoop].
    rewrite HM, (NextName_supported g' a Ha).
    cbn [Type_ setOff Name Domain]. rewrite HT, HN, HD, Ho.
    fold q. rewrite Hq1, Hd1. reflexivity.
Qed.

End LoopEnds.

Lemma get_bounded_terminates_witness :
  exists evs,
    get (constQuerier []) (fun _ _ => None) 5
      (newGetter TypeA "f" "example.com" 0 4 (constQuerier ["3.1.2.3"]))
    = Some evs.
Proof.
  apply (get_bounded_terminates (constQuerier []) (fun _ _ => None)
           (newGetter TypeA "f" "example.com" 0 4 (constQuerier ["3.1.2.3"])) 5).
  - left. reflexivity.
  - vm_compute. split; [reflexivity | discriminate].
  - vm_compute. reflexivity.
Defined.

Lemma get_unbounded_runs_on_witness :
  get (constQuerier []) (fun _ _ => None) 100
    (newGetter TypeA "f" "example.com" 0 0 (constQuerier ["3.1.2.3"]))
  = None.
Proof.
  apply (get_unbounded_runs_on (constQuerier []) (fun _ _ => None)
           (constQuerier ["3.1.2.3"]) TypeA "f" "example.com" 0 3 100).
  - reflexivity.
  - intros q. exists (map Zbyte [1; 2; 3]), "3.1.2.3", [].
    split; vm_compute; reflexivity.
  - reflexivity.
Defined.

Lemma get_unusable_answer_witness :
  get (constQuerier []) (fun _ _ => None) 1
    (newGetter TypeA "f" "example.com" 0 0 (constQuerier []))
  = Some [Query TypeA "0-f.example.com";
          CloseWithError
            (Errorf "empty response to query for %q" [AStr "0-f.example.com"])]
  /\ get (constQuerier []) (fun _ _ => None) 1
       (newGetter TypeA "f" "example.com" 0 0 (constQuerier ["example.com."]))
     = Some [Query TypeA "0-f.example.com";
             CloseWithError
               (Wrapf "decoding response %q to %q: %w"
                  [AStr "example.com."; AStr "0-f.example.com"]
                  (Errorf "invalid IP address %q" [AStr "example.com."]))].
Proof.
  split.
  - refine (proj1 (get_unusable_answer (constQuerier []) (fun _ _ => None)
                     (constQuerier []) TypeA "f" "example.com" 0 3 0 [] 1
                     eq_refl _ _ (or_introl eq_refl) _ _ _) eq_refl).
    + lia.
    + vm_compute. discriminate.
    + intros [|j] d H; discriminate.
    + reflexivity.
    + simpl. lia.
  - refine (proj2 (get_unusable_answer (constQuerier []) (fun _ _ => None)
                     (constQuerier ["example.com."]) TypeA "f" "example.com"
                     0 3 0 [] 1
                     eq_refl _ _ (or_introl eq_refl) _ _ _)
              "example.com." [] [] _ eq_refl _).
    + lia.
    + vm_compute. discriminate.
    + intros [|j] d H; discriminate.
    + reflexivity.
    + simpl. lia.
    + vm_compute. reflexivity.
Defined.

(** ** NextName, call after call *)

Lemma nextNames_from t name domain start a n :
  PayloadSize t = Ok a ->
  0 <= start ->
  forall i g,
    Type_ g = t -> Name g = name -> Domain g = domain ->
    nextOffset g = offsetAt start a i ->
    (forall j, (j < n)%nat -> offsetAt start a (i + j) <= uint64_max) ->
    nextNames n g
    = map (fun j => Ok (queryName (offsetAt start a j) name domain))
        (seq i n).
Proof.
  intros Ha Hs. pose proof (PayloadSize_values t a Ha) as Hav.
  induction n as [|n IH]; intros i g HT HN HD Ho Hb; [reflexivity|].
  cbn [nextNames seq map].
  rewrite <- HT in Ha. rewrite (NextName_supported g a Ha), HN, HD, Ho.
  f_equal.
  destruct n as [|n]; [reflexivity|].
  apply IH; try assumption.
  - assert (H0 := Hb 0%nat ltac:(lia)). assert (H1 := Hb 1%nat ltac:(lia)).
    rewrite nextOffset_setOff.
    + unfold wrap64, offsetAt, uint64_max in *.
      rewrite Z.mod_small by lia. lia.
    + unfold wrap64, offsetAt, uint64_max in *.
      rewrite Z.mod_small by lia. lia.
  - intros j Hj. replace (S i + j)%nat with (i + S j)%nat by lia.
    apply Hb. lia.
Qed.

(** X10: the calls of [NextName] on a new getter of a supported type give
    the names of the offsets [StartOff], [StartOff + a], [StartOff + 2a],
    ..., where [a] is the payload size of the type, as long as these
    offsets fit 64 bits. *)
Theorem NextName_sequence :
  forall t name domain start max qr a n,
    PayloadSize t = Ok a ->
    0 <= start ->
    (forall j, (j < n)%nat -> offsetAt start a j <= uint64_max) ->
    nextNames n (mkGetter t name domain start max qr 0)
    = map (fun j => Ok (queryName (offsetAt start a j) name domain))
        (seq 0 n).
Proof.
  intros t name domain start max qr a n Ha Hs Hb.
  apply (nextNames_from t name domain start a n Ha Hs); try reflexivity.
  - unfold nextOffset, offsetAt. cbn [off StartOff].
    change (0 =? 0) with true.
    destruct (start =? 0) eqn:E; cbn [andb negb]; [apply Z.eqb_eq in E|]; lia.
  - exact Hb.
Qed.

Lemma NextName_sequence_witness :
  nextNames 3 (mkGetter TypeAAAA "f" "example.com" 36 0 None 0)
  = [Ok "10-f.example.com"; Ok "18-f.example.com"; Ok "1g-f.example.com"].
Proof.
  apply (NextName_sequence TypeAAAA "f" "example.com" 36 0 None 8 3).
  - reflexivity.
  - lia.
  - intros j Hj. unfold offsetAt, uint64_max. lia.
Defined.

(** ** What DecodeResponse returns *)

Lemma decodeFrom_length src :
  forall si dbuf,
    (List.length dbuf <= 3)%nat ->
    (8 * List.length (fst (Base64.decodeFrom src si dbuf))
     <= 6 * (List.length src + List.length dbuf))%nat.
Proof.
  induction src as [|c rest IH]; intros si dbuf Hd.
  - destruct dbuf as [|d0 [|d1 [|d2 [|d3 t]]]]; cbn in *; lia.
  - cbn [Base64.decodeFrom].
    destruct (Base64.decodeMap c) as [v|].
    + destruct dbuf as [|d0 [|d1 [|d2 [|d3 t]]]].
      * specialize (IH (si + 1) [v] ltac:(simpl; lia)). cbn in *. lia.
      * specialize (IH (si + 1) [d0; v] ltac:(simpl; lia)). cbn in *. lia.
      * specialize (IH (si + 1) [d0; d1; v] ltac:(simpl; lia)). cbn in *. lia.
      * specialize (IH (si + 1) [] ltac:(simpl; lia)).
        destruct (Base64.decodeFrom rest (si + 1) []) as [bs e].
        cbn in *. lia.
      * cbn in Hd. lia.
    + destruct (Ascii.eqb c "010" || Ascii.eqb c "013").
      * specialize (IH (si + 1) dbuf Hd). cbn [List.length]. lia.
      * cbn. lia.
Qed.

Lemma Decode_length src :
  llenZ (fst (Base64.Decode src)) <= Base64.DecodedLen (llenZ src).
Proof.
  pose proof (decodeFrom_length src 0 [] ltac:(simpl; lia)) as H.
  unfold Base64.Decode, Base64.DecodedLen, llenZ. cbn [List.length] in H.
  apply Z.div_le_lower_bound; lia.
Qed.

Lemma length_list_ascii_of_string s :
  List.length (list_ascii_of_string s) = String.length s.
Proof. induction s; simpl; congruence. Qed.

(** X11: the bytes [DecodeResponse] returns always fit the buffer it was
    given: for every type, buffer and answer text the number of decoded
    bytes is at most [len(buf)]. *)
Theorem DecodeResponse_fits_buffer :
  forall t buf res,
    (List.length (fst (DecodeResponse t buf res)) <= List.length buf)%nat.
Proof.
  intros t buf res. unfold DecodeResponse.
  destruct (String.eqb t TypeA || String.eqb t TypeAAAA).
  - unfold decodeA. destruct (Net.ParseIP res) as [ip|]; [|simpl; lia].
    destruct (if String.eqb t TypeA then _ else _) as [[[ip'|] plen] start];
      [|simpl; lia].
    destruct (plen >? llenZ buf); [simpl; lia|].
    cbn [fst]. rewrite length_firstn. lia.
  - destruct (String.eqb t TypeTXT); [|simpl; lia].
    unfold decodeTXT.
    destruct (Base64.DecodedLen (lenZ res) >? llenZ buf) eqn:E; [simpl; lia|].
    rewrite Z.gtb_ltb in E. apply Z.ltb_ge in E.
    pose proof (Decode_length (list_ascii_of_string res)) as H.
    unfold llenZ at 2 in H. rewrite length_list_ascii_of_string in H.
    fold (lenZ res) in H.
    destruct (Base64.Decode (list_ascii_of_string res)) as [bs [pos|]];
      cbn [fst] in *; unfold llenZ in *; lia.
Qed.

(** The server's AAAA answer, read as an address. *)
Lemma ParseIP_bodyAAAA chunk :
  exists b0 b1 b2 b3 b4 b5 b6 b7,
    fill 8 chunk = [b0; b1; b2; b3; b4; b5; b6; b7]
    /\ Net.ParseIP (answerText (bodyAAAA chunk))
       = Some (ansAAAAFirstHalf ++ [b0; b1; b2; b3; b4; b5; b6; b7]).
Proof.
  destruct (fill8 chunk) as (b0 & b1 & b2 & b3 & b4 & b5 & b6 & b7 & E).
  exists b0, b1, b2, b3, b4, b5, b6, b7. split; [exact E|].
  unfold bodyAAAA, answerText. rewrite E.
  apply Net6_roundtrip.ParseIP_String_AAAA.
Qed.

(** X12: the record type of the getter has to be the type of the answer
    in one direction only.  A getter of type A refuses the AAAA answer
    the server rolls, which is no IPv4 address; a getter of type AAAA
    takes the server's A answer for a chunk and decodes the last 8 bytes
    of its IPv4-in-IPv6 form: two zero bytes, two bytes ff, the byte 3
    and the 3 bytes of the chunk. *)
Theorem DecodeResponse_type_mismatch :
  forall chunk buf,
    (16 <= List.length buf)%nat ->
    DecodeResponse TypeA buf (answerText (bodyAAAA chunk))
    = ([], Some (Errorf "unable to parse IP address %s"
                   [AStr (answerText (bodyAAAA chunk))]))
    /\ DecodeResponse TypeAAAA buf (answerText (bodyA chunk))
       = (map Zbyte [0; 0; 255; 255; 3] ++ fill 3 chunk, None).
Proof.
  intros chunk buf Hbuf. split.
  - rewrite DecodeResponse_A.
    destruct (ParseIP_bodyAAAA chunk)
      as (b0 & b1 & b2 & b3 & b4 & b5 & b6 & b7 & _ & ->).
    reflexivity.
  - unfold bodyA, answerText.
    destruct (fill3 chunk) as (a & b & c & ->).
    change (Net.String_ [ansAFirstByte; a; b; c])
      with (Net.stringV4 [Zbyte 3; a; b; c]).
    rewrite DecodeResponse_AAAA, Net_facts.ParseIP_stringV4_3.
    change (Net.To16 (Net.IPv4 (Zbyte 3) a b c))
      with (Some (Net.IPv4 (Zbyte 3) a b c)).
    assert (E : (16 >? llenZ buf) = false)
      by (rewrite Z.gtb_ltb; apply Z.ltb_ge; unfold llenZ; lia).
    rewrite E.
    change (skipn 8 (Net.IPv4 (Zbyte 3) a b c))
      with (map Zbyte [0; 0; 255; 255; 3] ++ [a; b; c]).
    rewrite firstn_all2 by (simpl; lia). reflexivity.
Qed.

Lemma DecodeResponse_type_mismatch_witness :
  DecodeResponse TypeA (repeat Net.zeroByte MaxDecode)
    (answerText (bodyAAAA (map Zbyte [7; 9])))
  = ([], Some (Errorf "unable to parse IP address %s"
                 [AStr (answerText (bodyAAAA (map Zbyte [7; 9])))]))
  /\ DecodeResponse TypeAAAA (repeat Net.zeroByte MaxDecode)
       (answerText (bodyA (map Zbyte [7; 9])))
     = (map Zbyte [0; 0; 255; 255; 3] ++ fill 3 (map Zbyte [7; 9]), None).
Proof.
  apply (DecodeResponse_type_mismatch (map Zbyte [7; 9])
           (repeat Net.zeroByte MaxDecode)).
  rewrite repeat_length. unfold MaxDecode. lia.
Defined.

(** ** IPv4 text with any first byte *)

Module Net4_general.
Import Net.

Lemma parseIPScan_ubtoa v :
  0 <= v < 256 ->
  forall r whole, parseIPScan (ubtoa v ++ String "." r) whole = parseIPv4 whole.
Proof.
  revert v.
  apply (below_ind
           (fun v => forall r whole,
                parseIPScan (ubtoa v ++ String "." r) whole = parseIPv4 whole)
           256).
  intros k Hk.
  do 256 (destruct k as [|k]; [intros r whole; reflexivity|]). lia.
Qed.

Lemma parseIPv4Loop_first v :
  0 <= v < 256 ->
  forall k r,
    parseIPv4Loop (S k) true (ubtoa v ++ String "." r)
    = match parseIPv4Loop k false (String "." r) with
      | Some p => Some (Zbyte v :: p)
      | None => None
      end.
Proof.
  revert v.
  apply (below_ind
           (fun v => forall k r,
                parseIPv4Loop (S k) true (ubtoa v ++ String "." r)
                = match parseIPv4Loop k false (String "." r) with
                  | Some p => Some (Zbyte v :: p)
                  | None => None
                  end)
           256).
  intros k Hk.
  do 256 (destruct k as [|k]; [intros k' r; reflexivity|]). lia.
Qed.

(** An address printed and parsed again. *)
Lemma ParseIP_stringV4 x a b c :
  ParseIP (stringV4 [x; a; b; c]) = Some (IPv4 x a b c).
Proof.
  unfold stringV4.
  change (ubtoa (byteZ x) ++ "." ++ ubtoa (byteZ a) ++ "." ++ ubtoa (byteZ b)
            ++ "." ++ ubtoa (byteZ c))%string
    with (ubtoa (byteZ x) ++ String "." (ubtoa (byteZ a) ++ String "."
            (ubtoa (byteZ b) ++ String "." (ubtoa (byteZ c)))))%string.
  unfold ParseIP.
  rewrite (parseIPScan_ubtoa _ (byteZ_range x)). unfold parseIPv4.
  rewrite (parseIPv4Loop_first _ (byteZ_range x)).
  rewrite (Net_facts.parseIPv4Loop_next 2 a _ _
             (Net_facts.parseIPv4Loop_next 1 b _ _
                (Net_facts.parseIPv4Loop_last c))).
  now rewrite Zbyte_byteZ.
Qed.

End Net4_general.

(** X13: a getter of type A does not look at the first byte of the
    address: every IPv4 address [x.a.b.c], printed as [net.IP.String]
    prints it, decodes to the three bytes [a], [b], [c], whether or not
    [x] is the 3 the server puts there. *)
Theorem DecodeResponse_A_any_first_byte :
  forall x a b c buf,
    (4 <= List.length buf)%nat ->
    DecodeResponse TypeA buf (Net.String_ [x; a; b; c]) = ([a; b; c], None).
Proof.
  intros x a b c buf Hbuf.
  change (Net.String_ [x; a; b; c]) with (Net.stringV4 [x; a; b; c]).
  rewrite DecodeResponse_A, Net4_general.ParseIP_stringV4.
  change (Net.To4 (Net.IPv4 x a b c)) with (Some [x; a; b; c]).
  assert (E : (4 >? llenZ buf) = false)
    by (rewrite Z.gtb_ltb; apply Z.ltb_ge; unfold llenZ; lia).
  rewrite E. cbn [skipn]. rewrite firstn_all2 by (simpl; lia). reflexivity.
Qed.

Lemma DecodeResponse_A_any_first_byte_witness :
  DecodeResponse TypeA (repeat Net.zeroByte MaxDecode)
    (Net.String_ (map Zbyte [192; 0; 2; 1]))
  = (map Zbyte [0; 2; 1], None).
Proof.
  apply (DecodeResponse_A_any_first_byte (Zbyte 192) (Zbyte 0) (Zbyte 2)
           (Zbyte 1) (repeat Net.zeroByte MaxDecode)).
  rewrite repeat_length. unfold MaxDecode. lia.
Defined.

(** ** What the handler does with any packet *)

Section HandlerShape.

Variable unicodeLower : string -> string.
Variable Unpack : list ascii -> option Dnsmessage.Message.
Variable AppendPack : Dnsmessage.Message -> option (list ascii).
Variable openFile : string -> option File.
Variable ttl : Z.
Variable fdir : string.

Lemma sendResponse_shape m :
  sendResponse AppendPack m = []
  \/ exists p, AppendPack m = Some p /\ sendResponse AppendPack m = [WriteTo p].
Proof.
  unfold sendResponse. destruct (AppendPack m) as [p|]; eauto.
Qed.

(** What [serveFile] does after the open: nothing, or one packet, which
    packs the name-error form of the reply or the reply with one answer
    record added. *)
Lemma serveFile_effects msg q0 foff part1 :
  exists tail,
    serveFile AppendPack openFile ttl fdir msg q0 foff part1
    = OpenFile (Filepath.Join [fdir; Filepath.Clean part1]) :: tail
    /\ (tail = []
        \/ exists p reply,
             tail = [WriteTo p] /\ AppendPack reply = Some p
             /\ (reply = setRCode Dnsmessage.RCodeNameError msg
                 \/ exists chunk,
                      reply
                      = appendAnswer
                          (Dnsmessage.mkResource
                             (Dnsmessage.mkResourceHeader
                                (Dnsmessage.qName q0) (Dnsmessage.qType q0)
                                (Dnsmessage.qClass q0) (ttl mod 2 ^ 32))
                             (if Dnsmessage.qType q0 =? Dnsmessage.TypeA
                              then bodyA chunk
                              else if Dnsmessage.qType q0 =? Dnsmessage.TypeAAAA
                                   then bodyAAAA chunk
                                   else bodyTXT chunk))
                          msg
                      /\ (Dnsmessage.qType q0 = Dnsmessage.TypeA
                          \/ Dnsmessage.qType q0 = Dnsmessage.TypeAAAA
                          \/ Dnsmessage.qType q0 = Dnsmessage.TypeTXT))).
Proof.
  unfold serveFile. eexists. split; [reflexivity|].
  assert (HEOF : sendEOF AppendPack msg = []
                 \/ exists p reply,
                      sendEOF AppendPack msg = [WriteTo p]
                      /\ AppendPack reply = Some p
                      /\ (reply = setRCode Dnsmessage.RCodeNameError msg
                          \/ exists chunk,
                      reply
                      = appendAnswer
                          (Dnsmessage.mkResource
                             (Dnsmessage.mkResourceHeader
                                (Dnsmessage.qName q0) (Dnsmessage.qType q0)
                                (Dnsmessage.qClass q0) (ttl mod 2 ^ 32))
                             (if Dnsmessage.qType q0 =? Dnsmessage.TypeA
                              then bodyA chunk
                              else if Dnsmessage.qType q0 =? Dnsmessage.TypeAAAA
                                   then bodyAAAA chunk
                                   else bodyTXT chunk))
                          msg
                      /\ (Dnsmessage.qType q0 = Dnsmessage.TypeA
                          \/ Dnsmessage.qType q0 = Dnsmessage.TypeAAAA
                          \/ Dnsmessage.qType q0 = Dnsmessage.TypeTXT))).
  { unfold sendEOF.
    destruct (sendResponse_shape (setRCode Dnsmessage.RCodeNameError msg))
      as [-> | (p & Hp & ->)]; [now left | right].
    exists p, (setRCode Dnsmessage.RCodeNameError msg). auto. }
  destruct (openFile _) as [f|]; [|now left].
  destruct (foff >=? wrap64 _); [exact HEOF|].
  destruct (SeekSet f _); [now left|].
  destruct (Dnsmessage.qType q0 =? Dnsmessage.TypeA) eqn:EA.
  { apply Z.eqb_eq in EA.
    destruct (ReadAt f foff 3) as [chunk [[|]|]]; [exact HEOF | now left |].
    match goal with
    | |- sendResponse AppendPack ?m = [] \/ _ =>
        destruct (sendResponse_shape m) as [-> | (p & Hp & ->)];
          [now left | right; exists p, m]
    end.
    repeat split; try assumption. right. exists chunk. auto. }
  destruct (Dnsmessage.qType q0 =? Dnsmessage.TypeAAAA) eqn:E6.
  { apply Z.eqb_eq in E6.
    destruct (ReadAt f foff 8) as [chunk [[|]|]]; [exact HEOF | now left |].
    match goal with
    | |- sendResponse AppendPack ?m = [] \/ _ =>
        destruct (sendResponse_shape m) as [-> | (p & Hp & ->)];
          [now left | right; exists p, m]
    end.
    repeat split; try assumption. right. exists chunk. auto. }
  destruct (Dnsmessage.qType q0 =? Dnsmessage.TypeTXT) eqn:ET; [|now left].
  apply Z.eqb_eq in ET.
  destruct (ReadAt f foff ansTXTMax) as [chunk [[|]|]];
    [exact HEOF | now left |].
  match goal with
  | |- sendResponse AppendPack ?m = [] \/ _ =>
      destruct (sendResponse_shape m) as [-> | (p & Hp & ->)];
        [now left | right; exists p, m]
  end.
  repeat split; try assumption. right. exists chunk. auto.
Qed.

(** X14: whatever the packet, the handler opens at most one file and
    writes at most one packet, and it writes only after it has opened a
    file: its effects are none, one open, or one open and then one
    write. *)
Theorem handle_one_open_one_reply :
  forall pkt,
    let effects := handle unicodeLower Unpack AppendPack openFile ttl fdir pkt in
    effects = []
    \/ (exists name, effects = [OpenFile name])
    \/ (exists name p, effects = [OpenFile name; WriteTo p]).
Proof.
  intros pkt effects. unfold effects, handle.
  destruct (Unpack pkt) as [msg|]; [|now left].
  cbn zeta. destruct (Dnsmessage.mQuestions (setUpHeader msg)) as [|q0 qs];
    [now left|].
  destruct (parseQuery unicodeLower (Dnsmessage.qName q0)) as [[foff part1]|];
    [|now left].
  destruct (serveFile_effects (setUpHeader msg) q0 foff part1)
    as (tail & -> & [-> | (p & reply & -> & _)]); right; eauto.
Qed.

(** X15: every packet the handler writes answers the query it came for:
    it packs the query message with the header of an authoritative
    response (the query's ID, questions and other sections kept), and
    either the result code is name-error and no record was added, or the
    result code is success and one answer record was added, with the
    name, type and class of the first question, the TTL of the flag cut
    to 32 bits, and a body that holds a chunk in the form of the
    question's type. *)
Theorem handle_reply :
  forall pkt p,
    In (WriteTo p) (handle unicodeLower Unpack AppendPack openFile ttl fdir pkt) ->
    exists msg q0 qs reply,
      Unpack pkt = Some msg
      /\ Dnsmessage.mQuestions msg = q0 :: qs
      /\ AppendPack reply = Some p
      /\ (reply = setRCode Dnsmessage.RCodeNameError (setUpHeader msg)
          \/ exists chunk,
               reply
               = appendAnswer
                   (Dnsmessage.mkResource
                      (Dnsmessage.mkResourceHeader
                         (Dnsmessage.qName q0) (Dnsmessage.qType q0)
                         (Dnsmessage.qClass q0) (ttl mod 2 ^ 32))
                      (if Dnsmessage.qType q0 =? Dnsmessage.TypeA
                       then bodyA chunk
                       else if Dnsmessage.qType q0 =? Dnsmessage.TypeAAAA
                            then bodyAAAA chunk
                            else bodyTXT chunk))
                   (setUpHeader msg)
               /\ (Dnsmessage.qType q0 = Dnsmessage.TypeA
                   \/ Dnsmessage.qType q0 = Dnsmessage.TypeAAAA
                   \/ Dnsmessage.qType q0 = Dnsmessage.TypeTXT))
      /\ Dnsmessage.hID (Dnsmessage.mHeader reply)
         = Dnsmessage.hID (Dnsmessage.mHeader msg)
      /\ Dnsmessage.hResponse (Dnsmessage.mHeader reply) = true
      /\ Dnsmessage.hAuthoritative (Dnsmessage.mHeader reply) = true
      /\ Dnsmessage.hRecursionAvailable (Dnsmessage.mHeader reply) = false
      /\ Dnsmessage.mQuestions reply = Dnsmessage.mQuestions msg.
Proof.
  intros pkt p. unfold handle.
  destruct (Unpack pkt) as [msg|]; [|intros []].
  cbn zeta.
  destruct (Dnsmessage.mQuestions (setUpHeader msg)) as [|q0 qs] eqn:EQ;
    [intros []|].
  destruct (parseQuery unicodeLower (Dnsmessage.qName q0)) as [[foff part1]|];
    [|intros []].
  destruct (serveFile_effects (setUpHeader msg) q0 foff part1)
    as (tail & -> & [-> | (p' & reply & -> & Hp & Hr)]).
  - intros [H | []]. discriminate H.
  - intros [H | [H | []]]; [discriminate H|].
    injection H as ->.
    exists msg, q0, qs, reply.
    split; [reflexivity|]. split; [exact EQ|]. split; [exact Hp|].
    split; [exact Hr|].
    destruct Hr as [-> | (chunk & -> & _)]; repeat split.
Qed.

End HandlerShape.

Lemma handle_reply_witness :
  exists msg q0 qs reply,
    Some (queryFor "0-f.example.com." Dnsmessage.TypeA) = Some msg
    /\ Dnsmessage.mQuestions msg = q0 :: qs
    /\ (if Dnsmessage.hRCode (Dnsmessage.mHeader reply) =? 0
        then Some (list_ascii_of_string "answer")
        else Some (list_ascii_of_string "nxdomain"))
       = Some (list_ascii_of_string "answer")
    /\ (reply = setRCode Dnsmessage.RCodeNameError (setUpHeader msg)
        \/ exists chunk,
             reply
             = appendAnswer
                 (Dnsmessage.mkResource
                    (Dnsmessage.mkResourceHeader
                       (Dnsmessage.qName q0) (Dnsmessage.qType q0)
                       (Dnsmessage.qClass q0) (1800 mod 2 ^ 32))
                    (if Dnsmessage.qType q0 =? Dnsmessage.TypeA
                     then bodyA chunk
                     else if Dnsmessage.qType q0 =? Dnsmessage.TypeAAAA
                          then bodyAAAA chunk
                          else bodyTXT chunk))
                 (setUpHeader msg)
             /\ (Dnsmessage.qType q0 = Dnsmessage.TypeA
                 \/ Dnsmessage.qType q0 = Dnsmessage.TypeAAAA
                 \/ Dnsmessage.qType q0 = Dnsmessage.TypeTXT))
    /\ Dnsmessage.hID (Dnsmessage.mHeader reply)
       = Dnsmessage.hID (Dnsmessage.mHeader msg)
    /\ Dnsmessage.hResponse (Dnsmessage.mHeader reply) = true
    /\ Dnsmessage.hAuthoritative (Dnsmessage.mHeader reply) = true
    /\ Dnsmessage.hRecursionAvailable (Dnsmessage.mHeader reply) = false
    /\ Dnsmessage.mQuestions reply = Dnsmessage.mQuestions msg.
Proof.
  apply (handle_reply (fun s => s)
           (fun _ => Some (queryFor "0-f.example.com." Dnsmessage.TypeA))
           (fun m => if Dnsmessage.hRCode (Dnsmessage.mHeader m) =? 0
                     then Some (list_ascii_of_string "answer")
                     else Some (list_ascii_of_string "nxdomain"))
           (oneFile "fserv/f" (map Zbyte [1; 2; 3])) 1800 "fserv"
           [] (list_ascii_of_string "answer")).
  vm_compute. right. left. reflexivity.
Defined.

(** ** Queries the handler does not answer *)

Lemma lowerByte_dash c :
  negb (Ascii.eqb c "-") = true ->
  negb (Ascii.eqb (GoStrings.lowerByte c) "-") = true.
Proof.
  destruct c as [[] [] [] [] [] [] [] []]; intros H; try reflexivity;
    discriminate H.
Qed.

Lemma mapBytes_allBytes (p : ascii -> bool) f s :
  (forall c, p c = true -> p (f c) = true) ->
  GoStrings.allBytes p s = true ->
  GoStrings.allBytes p (GoStrings.mapBytes f s) = true.
Proof.
  intros Hf. induction s as [|c s IH]; simpl; [reflexivity|].
  intros H. apply andb_true_iff in H as [H1 H2].
  now rewrite (Hf c H1), IH.
Qed.

Section Unanswered.

Variable unicodeLower : string -> string.
Variable Unpack : list ascii -> option Dnsmessage.Message.
Variable AppendPack : Dnsmessage.Message -> option (list ascii).
Variable openFile : string -> option File.
Variable ttl : Z.
Variable fdir : string.

Lemma parseQuery_no_dash name :
  GoStrings.isASCII name = true ->
  GoStrings.allBytes (fun c => negb (Ascii.eqb c "-")) name = true ->
  parseQuery unicodeLower name = None.
Proof.
  intros Hasc Hnd. unfold parseQuery, GoStrings.ToLower. rewrite Hasc.
  pose proof (mapBytes_allBytes _ GoStrings.lowerByte name lowerByte_dash Hnd)
    as Hq.
  set (q := GoStrings.mapBytes GoStrings.lowerByte name) in *.
  unfold GoStrings.SplitN2 at 1.
  destruct (GoStrings.cut "." q) as [[a b]|] eqn:Ec.
  - apply cut_some in Ec as [Eq _]. rewrite Eq, allBytes_append in Hq.
    apply andb_true_iff in Hq as [Ha _].
    unfold GoStrings.SplitN2. now rewrite (cut_none "-" a Ha).
  - unfold GoStrings.SplitN2. now rewrite (cut_none "-" q Hq).
Qed.

(** X16: a query whose name is ASCII and holds no [-] is none of the
    server's: the handler opens no file and writes nothing. *)
Theorem handle_name_without_dash :
  forall pkt msg q0 qs,
    Unpack pkt = Some msg ->
    Dnsmessage.mQuestions msg = q0 :: qs ->
    GoStrings.isASCII (Dnsmessage.qName q0) = true ->
    GoStrings.allBytes (fun c => negb (Ascii.eqb c "-")) (Dnsmessage.qName q0)
    = true ->
    handle unicodeLower Unpack AppendPack openFile ttl fdir pkt = [].
Proof.
  intros pkt msg q0 qs HU HQ Hasc Hnd. unfold handle. rewrite HU.
  cbn zeta. change (Dnsmessage.mQuestions (setUpHeader msg))
    with (Dnsmessage.mQuestions msg).
  rewrite HQ. now rewrite (parseQuery_no_dash _ Hasc Hnd).
Qed.

(** X17: a request for a file that cannot be opened gets no answer at
    all: the handler tries the one path and writes nothing, not even a
    name error. *)
Theorem handle_missing_file :
  forall pkt msg q0 qs off name domain,
    Unpack pkt = Some msg ->
    Dnsmessage.mQuestions msg = q0 :: qs ->
    Dnsmessage.qName q0 = queryName off name domain ->
    0 <= off <= uint64_max ->
    validFilename name = true ->
    GoStrings.isASCII domain = true ->
    openFile (Filepath.Join [fdir; Filepath.Clean name]) = None ->
    handle unicodeLower Unpack AppendPack openFile ttl fdir pkt
    = [OpenFile (Filepath.Join [fdir; Filepath.Clean name])].
Proof.
  intros pkt msg q0 qs off name domain HU HQ Hn Hoff Hname Hdom HO.
  rewrite (handle_parsed unicodeLower Unpack AppendPack openFile ttl fdir
             pkt msg q0 qs off name HU HQ).
  - unfold serveFile. now rewrite HO.
  - rewrite Hn. now apply parseQuery_queryName.
Qed.

(** X18: a question of a record type other than A, AAAA and TXT gets no
    answer while the offset lies inside the file; at the end of the file
    and past it the name error is sent whatever the type, because the
    offset is looked at before the type. *)
Theorem handle_other_record_type :
  forall pkt msg q0 qs foff part1 data,
    Unpack pkt = Some msg ->
    Dnsmessage.mQuestions msg = q0 :: qs ->
    parseQuery unicodeLower (Dnsmessage.qName q0) = Some (foff, part1) ->
    openFile (Filepath.Join [fdir; Filepath.Clean part1])
    = Some (regularFile data) ->
    Dnsmessage.qType q0 <> Dnsmessage.TypeA ->
    Dnsmessage.qType q0 <> Dnsmessage.TypeAAAA ->
    Dnsmessage.qType q0 <> Dnsmessage.TypeTXT ->
    0 <= foff ->
    llenZ data < 2 ^ 63 ->
    handle unicodeLower Unpack AppendPack openFile ttl fdir pkt
    = OpenFile (Filepath.Join [fdir; Filepath.Clean part1])
        :: (if foff <? llenZ data then []
            else sendEOF AppendPack (setUpHeader msg)).
Proof.
  intros pkt msg q0 qs foff part1 data HU HQ HP HO HA H6 HT Hoff Hlen.
  rewrite (handle_parsed unicodeLower Unpack AppendPack openFile ttl fdir
             pkt msg q0 qs foff part1 HU HQ HP).
  unfold serveFile. rewrite HO. f_equal.
  cbn [SeekEnd SeekSet ReadAt regularFile].
  pose proof (llenZ_nonneg data) as H0.
  assert (Hw : wrap64 (llenZ data) = llenZ data)
    by (unfold wrap64; apply Z.mod_small; lia).
  rewrite Hw, Z.geb_leb.
  destruct (foff <? llenZ data) eqn:E.
  - apply Z.ltb_lt in E.
    assert (E1 : (llenZ data <=? foff) = false) by (apply Z.leb_gt; lia).
    rewrite E1.
    assert (E2 : toInt64 foff = foff).
    { unfold toInt64. destruct (foff <? 2 ^ 63) eqn:E'; [reflexivity|].
      apply Z.ltb_ge in E'. lia. }
    rewrite E2.
    assert (E3 : (foff <? 0) = false) by (apply Z.ltb_ge; lia).
    rewrite E3.
    apply Z.eqb_neq in HA, H6, HT. now rewrite HA, H6, HT.
  - apply Z.ltb_ge in E.
    assert (E1 : (llenZ data <=? foff) = true) by (apply Z.leb_le; lia).
    now rewrite E1.
Qed.

End Unanswered.

Lemma handle_name_without_dash_witness :
  handle (fun s => s) (fun _ => Some (queryFor "www.Example.com." Dnsmessage.TypeA))
    (fun _ => Some (list_ascii_of_string "packed"))
    (oneFile "fserv/f" (map Zbyte [1; 2; 3])) 1800 "fserv" []
  = [].
Proof.
  apply (handle_name_without_dash (fun s => s)
           (fun _ => Some (queryFor "www.Example.com." Dnsmessage.TypeA))
           (fun _ => Some (list_ascii_of_string "packed"))
           (oneFile "fserv/f" (map Zbyte [1; 2; 3])) 1800 "fserv" []
           (queryFor "www.Example.com." Dnsmessage.TypeA)
           (Dnsmessage.mkQuestion "www.Example.com." Dnsmessage.TypeA
              Dnsmessage.ClassINET) []);
    reflexivity.
Defined.

Lemma handle_missing_file_witness :
  handle (fun s => s) (fun _ => Some (queryFor "0-g.example.com." Dnsmessage.TypeA))
    (fun _ => Some (list_ascii_of_string "packed"))
    (oneFile "fserv/f" (map Zbyte [1; 2; 3])) 1800 "fserv" []
  = [OpenFile "fserv/g"].
Proof.
  apply (handle_missing_file (fun s => s)
           (fun _ => Some (queryFor "0-g.example.com." Dnsmessage.TypeA))
           (fun _ => Some (list_ascii_of_string "packed"))
           (oneFile "fserv/f" (map Zbyte [1; 2; 3])) 1800 "fserv" []
           (queryFor "0-g.example.com." Dnsmessage.TypeA)
           (Dnsmessage.mkQuestion "0-g.example.com." Dnsmessage.TypeA
              Dnsmessage.ClassINET) [] 0 "g" "example.com.");
    try reflexivity.
  unfold uint64_max. lia.
Defined.

Lemma handle_other_record_type_witness :
  handle (fun s => s) (fun _ => Some (queryFor "0-f.example.com." 15))
    (fun _ => Some (list_ascii_of_string "packed"))
    (oneFile "fserv/f" (map Zbyte [1; 2; 3])) 1800 "fserv" []
  = [OpenFile "fserv/f"]
  /\ handle (fun s => s) (fun _ => Some (queryFor "3-f.example.com." 15))
       (fun _ => Some (list_ascii_of_string "packed"))
       (oneFile "fserv/f" (map Zbyte [1; 2; 3])) 1800 "fserv" []
     = [OpenFile "fserv/f"; WriteTo (list_ascii_of_string "packed")].
Proof.
  split.
  - apply (handle_other_record_type (fun s => s)
             (fun _ => Some (queryFor "0-f.example.com." 15))
             (fun _ => Some (list_ascii_of_string "packed"))
             (oneFile "fserv/f" (map Zbyte [1; 2; 3])) 1800 "fserv" []
             (queryFor "0-f.example.com." 15)
             (Dnsmessage.mkQuestion "0-f.example.com." 15 Dnsmessage.ClassINET)
             [] 0 "f" (map Zbyte [1; 2; 3]));
      try reflexivity; try discriminate; vm_compute; reflexivity.
  - apply (handle_other_record_type (fun s => s)
             (fun _ => Some (queryFor "3-f.example.com." 15))
             (fun _ => Some (list_ascii_of_string "packed"))
             (oneFile "fserv/f" (map Zbyte [1; 2; 3])) 1800 "fserv" []
             (queryFor "3-f.example.com." 15)
             (Dnsmessage.mkQuestion "3-f.example.com." 15 Dnsmessage.ClassINET)
             [] 3 "f" (map Zbyte [1; 2; 3]));
      try reflexivity; try discriminate; vm_compute; reflexivity.
Defined.

(** ** The DoH client *)

(** X20: [WrapPOST] returns bytes only for a response with status 200 to
    a request it sent with an empty content type, and then the first
    [MaxPOSTBody] bytes of the body at most: never more than 65535
    bytes. *)
Theorem WrapPOST_result :
  forall post URL reqBody b,
    WrapPOST post URL reqBody = Ok b ->
    exists res,
      post URL "" reqBody = Ok res
      /\ StatusCode res = 200
      /\ b = firstn (Z.to_nat MaxPOSTBody) (bodyData res)
      /\ llenZ b <= MaxPOSTBody.
Proof.
  intros post URL reqBody b. unfold WrapPOST.
  destruct (post URL "" reqBody) as [res|e]; [|discriminate].
  destruct ((200 <? StatusCode res) || (200 >? StatusCode res)) eqn:E;
    [discriminate|].
  apply orb_false_iff in E as [E1 E2].
  apply Z.ltb_ge in E1. rewrite Z.gtb_ltb in E2. apply Z.ltb_ge in E2.
  intros H.
  assert (Hb : b = firstn (Z.to_nat MaxPOSTBody) (bodyData res)).
  { revert H. unfold ReadFull.
    destruct (MaxPOSTBody <=? llenZ (bodyData res)) eqn:EL.
    - intros H. congruence.
    - apply Z.leb_gt in EL.
      assert (Hall : firstn (Z.to_nat MaxPOSTBody) (bodyData res)
                     = bodyData res)
        by (apply firstn_all2; unfold llenZ in EL; lia).
      rewrite Hall.
      destruct (bodyData res) as [|c t];
        destruct (bodyEnd res); cbn [isUnexpectedEOF negb];
        try discriminate; try congruence;
        match goal with
        | |- (if negb (isUnexpectedEOF ?e) then _ else _) = _ -> _ =>
            destruct (isUnexpectedEOF e); cbn [negb];
              try discriminate; congruence
        end. }
  exists res. repeat split; try assumption; try lia.
  rewrite Hb. unfold llenZ. rewrite length_firstn.
  assert (0 <= MaxPOSTBody) by (unfold MaxPOSTBody; lia). lia.
Qed.

Lemma WrapPOST_result_witness :
  exists res,
    postAnswering 200 "200 OK" (list_ascii_of_string "x")
      "https://example.net/dns-query" "" []
    = Ok res
    /\ StatusCode res = 200
    /\ list_ascii_of_string "x" = firstn (Z.to_nat MaxPOSTBody) (bodyData res)
    /\ llenZ (list_ascii_of_string "x") <= MaxPOSTBody.
Proof.
  apply (WrapPOST_result (postAnswering 200 "200 OK" (list_ascii_of_string "x"))
           "https://example.net/dns-query" [] (list_ascii_of_string "x")).
  vm_compute. reflexivity.
Defined.

Section DoHQueries.

Variable Unpack : list ascii -> result Dnsmessage.Message error.

(** X22: a DoH response with the result code name-error comes out of
    [dohQuery] as an error in which [errors.As] finds a [*net.DNSError]
    with [IsNotFound] set, although it is wrapped: to [get] it is the end
    of the file. *)
Theorem dohQuery_name_error :
  forall u post name t qb res m,
    AppendQuery name t [] = Ok qb ->
    post u qb = Ok res ->
    Unpack res = Ok m ->
    Dnsmessage.hRCode (Dnsmessage.mHeader m) = Dnsmessage.RCodeNameError ->
    exists e,
      dohQuery Unpack u post name t = Err e
      /\ asDNSError e = Some true
      /\ e = Wrapf "parsing response: %w" []
               (DNSError "name not found"
                  match Dnsmessage.mQuestions m with
                  | q :: _ => Dnsmessage.qName q
                  | [] => ""
                  end true).
Proof.
  intros u post name t qb res m HA HP HU HR.
  eexists. split; [|split; [|reflexivity]].
  - unfold dohQuery. rewrite HA, HP. unfold ParseDoHAnswer.
    rewrite HU, HR. reflexivity.
  - reflexivity.
Qed.

(** X23: asked for AAAA records, [dohQuery] sends a question of type A
    and then keeps only the AAAA records of the response.  So whenever
    the response answers the question that was sent, with records of
    type A, [DOHQuerier]'s [AAAA] returns no record at all. *)
Theorem dohQuery_AAAA_sees_no_answer :
  forall u post name qb res m,
    AppendQuery name TypeAAAA [] = Ok qb ->
    post u qb = Ok res ->
    Unpack res = Ok m ->
    Dnsmessage.hRCode (Dnsmessage.mHeader m) = Dnsmessage.RCodeSuccess ->
    Forall (fun a => Dnsmessage.rhType (Dnsmessage.rHeader a) = Dnsmessage.TypeA)
      (Dnsmessage.mAnswers m) ->
    AppendQuery name TypeAAAA [] = AppendQuery name TypeA []
    /\ AAAA (DOHQuerier Unpack u post) name = Ok [].
Proof.
  intros u post name qb res m HA HP HU HR HF. split; [reflexivity|].
  cbn [AAAA DOHQuerier]. unfold dohQuery. rewrite HA, HP.
  rewrite (ParseDoHAnswer_success Unpack res TypeAAAA m HU HR).
  rewrite <- extractRecords_flat_map, extractRecords_none; [reflexivity|].
  eapply Forall_impl; [|exact HF].
  intros a Ha. cbv beta in Ha. rewrite Ha. discriminate.
Qed.

End DoHQueries.

Lemma dohQuery_name_error_witness :
  exists e,
    dohQuery (fun _ => Ok (answerMessage Dnsmessage.RCodeNameError []))
      "https://example.net/dns-query" (fun _ _ => Ok [])
      "0-f.example.com" TypeTXT
    = Err e
    /\ asDNSError e = Some true
    /\ e = Wrapf "parsing response: %w" []
             (DNSError "name not found"
                match Dnsmessage.mQuestions
                        (answerMessage Dnsmessage.RCodeNameError []) with
                | q :: _ => Dnsmessage.qName q
                | [] => ""
                end true).
Proof.
  refine (dohQuery_name_error
            (fun _ => Ok (answerMessage Dnsmessage.RCodeNameError []))
            "https://example.net/dns-query" (fun _ _ => Ok [])
            "0-f.example.com" TypeTXT _ [] _ _ eq_refl eq_refl eq_refl).
  vm_compute. reflexivity.
Defined.

Lemma dohQuery_AAAA_sees_no_answer_witness :
  AppendQuery "0-f.example.com" TypeAAAA []
  = AppendQuery "0-f.example.com" TypeA []
  /\ AAAA (DOHQuerier
             (fun _ => Ok (answerMessage Dnsmessage.RCodeSuccess
                             [Dnsmessage.mkResource
                                (Dnsmessage.mkResourceHeader "0-f.example.com."
                                   Dnsmessage.TypeA Dnsmessage.ClassINET 1800)
                                (bodyA (map Zbyte [1; 2; 3]))]))
             "https://example.net/dns-query" (fun _ _ => Ok []))
       "0-f.example.com"
     = Ok [].
Proof.
  refine (dohQuery_AAAA_sees_no_answer
            (fun _ => Ok (answerMessage Dnsmessage.RCodeSuccess
                            [Dnsmessage.mkResource
                               (Dnsmessage.mkResourceHeader "0-f.example.com."
                                  Dnsmessage.TypeA Dnsmessage.ClassINET 1800)
                               (bodyA (map Zbyte [1; 2; 3]))]))
            "https://example.net/dns-query" (fun _ _ => Ok [])
            "0-f.example.com" _ [] _ _ eq_refl eq_refl eq_refl _).
  - vm_compute. reflexivity.
  - repeat constructor.
Defined.

(** ** The bytes of a DoH query *)

Lemma endsWith_append_dot s : GoStrings.endsWith "." (s ++ ".") = true.
Proof.
  induction s as [|c s IH]; [reflexivity|].
  cbn [append GoStrings.endsWith]. rewrite IH.
  destruct (s ++ ".")%string eqn:E; [|reflexivity].
  destruct s; discriminate E.
Qed.

(** The bytes of a name and its pieces between dots. *)
Lemma Split_lengths s :
  Z.of_nat (String.length s) + 1
  = fold_right (fun l acc => lenZ l + 1 + acc) 0 (GoStrings.Split s ".").
Proof.
  induction s as [|c s IH]; [reflexivity|].
  cbn [GoStrings.Split String.length].
  destruct (Ascii.eqb c ".").
  - cbn [fold_right]. rewrite <- IH. unfold lenZ. cbn [String.length]. lia.
  - destruct (GoStrings.Split s ".") as [|e es].
    + cbn [fold_right] in *. lia.
    + cbn [fold_right] in *. unfold lenZ in *. cbn [String.length]. lia.
Qed.

Lemma Split_endsWith s :
  GoStrings.endsWith "." s = true ->
  exists ls, GoStrings.Split s "." = ls ++ [""].
Proof.
  induction s as [|c s IH]; [discriminate|].
  cbn [GoStrings.endsWith GoStrings.Split].
  destruct s as [|c' s'].
  - intros H. rewrite H. exists [""]. reflexivity.
  - intros H. destruct (IH H) as (ls & E). rewrite E.
    destruct (Ascii.eqb c ".").
    + exists ("" :: ls). reflexivity.
    + destruct ls as [|l ls]; cbn [app].
      * exists []. cbn [app].
        (* the last piece is empty, so [c] would be followed by nothing *)
        exfalso. cbn [GoStrings.Split app] in E.
        destruct (Ascii.eqb c' ".").
        -- injection E as E. now apply Filepath_facts.Split_not_nil in E.
        -- destruct (GoStrings.Split s' "."); discriminate E.
      * exists (String c l :: ls). reflexivity.
Qed.

Lemma packLabels_length ls bs :
  Dnsmessage.packLabels ls = Ok bs ->
  llenZ bs = 1 + fold_right (fun l acc => lenZ l + 1 + acc) 0 ls.
Proof.
  revert bs. induction ls as [|l ls IH]; intros bs.
  - intros [= <-]. reflexivity.
  - cbn [Dnsmessage.packLabels fold_right].
    destruct (lenZ l >=? 64); [discriminate|].
    destruct (lenZ l =? 0); [discriminate|].
    destruct (Dnsmessage.packLabels ls) as [bs'|]; [|discriminate].
    intros [= <-]. specialize (IH bs' eq_refl).
    unfold llenZ in *. cbn [List.length]. rewrite length_app.
    rewrite length_list_ascii_of_string.
    change (lenZ l) with (Z.of_nat (String.length l)). lia.
Qed.

Lemma fold_lengths_app ls ms :
  fold_right (fun l acc => lenZ l + 1 + acc) 0 (ls ++ ms)
  = fold_right (fun l acc => lenZ l + 1 + acc) 0 ls
    + fold_right (fun l acc => lenZ l + 1 + acc) 0 ms.
Proof.
  induction ls as [|l ls IH]; cbn [app fold_right]; [lia|]. rewrite IH. lia.
Qed.

Lemma packName_length name nm :
  name <> "." ->
  Dnsmessage.packName name = Ok nm ->
  llenZ nm = lenZ name + 1.
Proof.
  intros Hne. unfold Dnsmessage.packName.
  destruct (GoStrings.endsWith "." name) eqn:E; [|discriminate].
  cbn [negb]. destruct (String.eqb name ".") eqn:E1.
  { apply String.eqb_eq in E1. contradiction. }
  destruct (Split_endsWith name E) as (ls & Els).
  rewrite Els, removelast_last. intros H.
  rewrite (packLabels_length ls nm H).
  pose proof (Split_lengths name) as HL.
  rewrite Els, fold_lengths_app in HL. cbn [fold_right] in HL.
  unfold lenZ in *. cbn [String.length] in HL. lia.
Qed.

(** X24: the query [AppendQuery] appends to [b] is [b] followed by the 12
    header bytes 00 00 01 00 00 01 00 00 00 00 00 00 (ID 0, only the
    recursion-desired flag, one question), the name in wire form, one
    byte longer than the name with its final dot, the type (16 for TXT,
    1 otherwise) and the class 1; a name is given its final dot when it
    has none, so the name with and without it give the same query. *)
Theorem AppendQuery_layout :
  forall qname t b p,
    AppendQuery qname t b = Ok p ->
    let dotted := if GoStrings.endsWith "." qname then qname
                  else (qname ++ ".")%string in
    dotted <> "." ->
    (exists nm,
        p = b ++ map Zbyte [0; 0; 1; 0; 0; 1; 0; 0; 0; 0; 0; 0] ++ nm
              ++ map Zbyte [0; if String.eqb t TypeTXT then 16 else 1; 0; 1]
        /\ llenZ nm = lenZ dotted + 1)
    /\ AppendQuery dotted t b = Ok p.
Proof.
  intros qname t b p H dotted Hne.
  assert (Hd : (if negb (GoStrings.endsWith "." qname)
                then (qname ++ ".")%string else qname) = dotted).
  { unfold dotted. now destruct (GoStrings.endsWith "." qname). }
  assert (Hdd : (if negb (GoStrings.endsWith "." dotted)
                 then (dotted ++ ".")%string else dotted) = dotted).
  { unfold dotted. destruct (GoStrings.endsWith "." qname) eqn:E.
    - now rewrite E.
    - now rewrite endsWith_append_dot. }
  split.
  - revert H. unfold AppendQuery, rollQuestion. rewrite Hd.
    unfold queryType.
    destruct (String.eqb t TypeA) eqn:EA.
    + apply String.eqb_eq in EA. subst t.
      destruct (Dnsmessage.NewName dotted) as [qn|] eqn:EN; [|discriminate].
      unfold Dnsmessage.NewName in EN.
      destruct (lenZ dotted >? 255); [discriminate|]. injection EN as <-.
      unfold Dnsmessage.AppendPackQuery. cbn [Dnsmessage.qName].
      destruct (Dnsmessage.packName dotted) as [nm|] eqn:EP; [|discriminate].
      intros [= <-]. exists nm. split; [|now apply packName_length].
      reflexivity.
    + destruct (String.eqb t TypeAAAA) eqn:E6.
      * apply String.eqb_eq in E6. subst t.
        destruct (Dnsmessage.NewName dotted) as [qn|] eqn:EN; [|discriminate].
        unfold Dnsmessage.NewName in EN.
        destruct (lenZ dotted >? 255); [discriminate|]. injection EN as <-.
        unfold Dnsmessage.AppendPackQuery. cbn [Dnsmessage.qName].
        destruct (Dnsmessage.packName dotted) as [nm|] eqn:EP; [|discriminate].
        intros [= <-]. exists nm. split; [|now apply packName_length].
        reflexivity.
      * destruct (String.eqb t TypeTXT) eqn:ET; [|discriminate].
        destruct (Dnsmessage.NewName dotted) as [qn|] eqn:EN; [|discriminate].
        unfold Dnsmessage.NewName in EN.
        destruct (lenZ dotted >? 255); [discriminate|]. injection EN as <-.
        unfold Dnsmessage.AppendPackQuery. cbn [Dnsmessage.qName].
        destruct (Dnsmessage.packName dotted) as [nm|] eqn:EP; [|discriminate].
        intros [= <-]. exists nm. split; [|now apply packName_length].
        reflexivity.
  - rewrite <- H. unfold AppendQuery, rollQuestion. now rewrite Hd, Hdd.
Qed.

Lemma AppendQuery_layout_witness :
  (exists nm,
      map Zbyte [0; 0; 1; 0; 0; 1; 0; 0; 0; 0; 0; 0;
                 3; 48; 45; 102; 2; 101; 120; 0; 0; 16; 0; 1]
      = [] ++ map Zbyte [0; 0; 1; 0; 0; 1; 0; 0; 0; 0; 0; 0] ++ nm
           ++ map Zbyte [0; if String.eqb TypeTXT TypeTXT then 16 else 1; 0; 1]
      /\ llenZ nm = lenZ "0-f.ex." + 1)
  /\ AppendQuery "0-f.ex." TypeTXT []
     = Ok (map Zbyte [0; 0; 1; 0; 0; 1; 0; 0; 0; 0; 0; 0;
                      3; 48; 45; 102; 2; 101; 120; 0; 0; 16; 0; 1]).
Proof.
  apply (AppendQuery_layout "0-f.ex" TypeTXT []
           (map Zbyte [0; 0; 1; 0; 0; 1; 0; 0; 0; 0; 0; 0;
                       3; 48; 45; 102; 2; 101; 120; 0; 0; 16; 0; 1])).
  - vm_compute. reflexivity.
  - discriminate.
Defined.

(** ** A file fetched over DoH from the handler *)

Lemma skipn_skipn_add {A} (l : list A) a b :
  skipn a (skipn b l) = skipn (b + a) l.
Proof.
  revert l. induction b as [|b IH]; intros l; [reflexivity|].
  destruct l as [|x l]; [now rewrite !skipn_nil|]. apply IH.
Qed.

Lemma chunkAt_shift data k i :
  chunkAt data (Z.of_nat k * Z.of_nat (S i)) k
  = chunkAt (skipn k data) (Z.of_nat k * Z.of_nat i) k.
Proof.
  unfold chunkAt. rewrite skipn_skipn_add. do 2 f_equal. lia.
Qed.

(** The chunks of a file, padded each to [k] bytes, one after the other:
    the file and then zero bytes up to [n] chunks, where [n] is the
    number of chunks the file has. *)
Lemma concat_padded_chunks k :
  (0 < k)%nat ->
  forall n data,
    Z.of_nat k * (Z.of_nat n - 1) < llenZ data <= Z.of_nat k * Z.of_nat n ->
    List.concat (map (fun i => padded k (chunkAt data (Z.of_nat k * Z.of_nat i) k))
                   (seq 0 n))
    = data ++ repeat Net.zeroByte (k * n - List.length data).
Proof.
  intros Hk. induction n as [|n IH]; intros data Hn.
  - unfold llenZ in Hn. destruct data; [|cbn in Hn; lia].
    cbn [seq map List.concat List.length app]. now rewrite Nat.mul_0_r.
  - cbn [seq map List.concat]. rewrite <- seq_shift, map_map.
    rewrite (map_ext _ (fun i => padded k (chunkAt (skipn k data)
                                             (Z.of_nat k * Z.of_nat i) k)))
      by (intros i; now rewrite chunkAt_shift).
    unfold chunkAt at 1. rewrite Z.mul_0_r. cbn [Z.to_nat skipn].
    unfold llenZ in Hn.
    destruct (Nat.le_gt_cases k (List.length data)) as [Hge | Hlt].
    + rewrite IH
        by (unfold llenZ; rewrite length_skipn; lia).
      unfold padded. rewrite length_firstn, Nat.min_l by exact Hge.
      rewrite Nat.sub_diag. cbn [repeat]. rewrite app_nil_r, app_assoc.
      rewrite firstn_skipn, length_skipn. do 2 f_equal. nia.
    + assert (n = 0)%nat by nia. subst n. cbn [seq map List.concat].
      rewrite app_nil_r, firstn_all2 by lia.
      unfold padded. do 2 f_equal. lia.
Qed.

(** Without padding the chunks give the file itself. *)
Lemma concat_chunks k :
  (0 < k)%nat ->
  forall n data,
    llenZ data <= Z.of_nat k * Z.of_nat n ->
    List.concat (map (fun i => chunkAt data (Z.of_nat k * Z.of_nat i) k)
                   (seq 0 n))
    = data.
Proof.
  intros Hk. induction n as [|n IH]; intros data Hn.
  - unfold llenZ in Hn. destruct data; [reflexivity|]. cbn in Hn. lia.
  - cbn [seq map List.concat]. rewrite <- seq_shift, map_map.
    rewrite (map_ext _ (fun i => chunkAt (skipn k data)
                                   (Z.of_nat k * Z.of_nat i) k))
      by (intros i; now rewrite chunkAt_shift).
    unfold chunkAt at 1. rewrite Z.mul_0_r. cbn [Z.to_nat skipn].
    rewrite IH by (unfold llenZ in *; rewrite length_skipn; lia).
    apply firstn_skipn.
Qed.

Lemma rollQuestion_parts qname t q :
  rollQuestion qname t = Ok q ->
  Dnsmessage.qName q
  = (if GoStrings.endsWith "." qname then qname else (qname ++ ".")%string)
  /\ queryType t = Some (Dnsmessage.qType q)
  /\ Dnsmessage.qClass q = Dnsmessage.ClassINET.
Proof.
  unfold rollQuestion. destruct (queryType t) as [qt|]; [|discriminate].
  destruct (GoStrings.endsWith "." qname); cbn [negb];
    unfold Dnsmessage.NewName;
    match goal with
    | |- context [lenZ ?s >? 255] => destruct (lenZ s >? 255)
    end; try discriminate; intros [= <-]; auto.
Qed.

Lemma queryType_wire t ty :
  queryType t = Some ty -> ty = Dnsmessage.TypeA \/ ty = Dnsmessage.TypeTXT.
Proof.
  unfold queryType.
  destruct (String.eqb t TypeA); [intros [= <-]; auto|].
  destruct (String.eqb t TypeAAAA); [intros [= <-]; auto|].
  destruct (String.eqb t TypeTXT); [intros [= <-]; auto|discriminate].
Qed.

(** The name of the question, with its final dot, is still a name that
    [NextName] could have rolled. *)
Lemma dotted_queryName off name domain :
  GoStrings.isASCII domain = true ->
  exists domain',
    (if GoStrings.endsWith "." (queryName off name domain)
     then queryName off name domain
     else (queryName off name domain ++ ".")%string)
    = queryName off name domain'
    /\ GoStrings.isASCII domain' = true.
Proof.
  intros Hd. destruct (GoStrings.endsWith "." (queryName off name domain)).
  - now exists domain.
  - exists (domain ++ ".")%string. split.
    + unfold queryName. now rewrite !append_assoc.
    + unfold GoStrings.isASCII in *. rewrite allBytes_append, Hd. reflexivity.
Qed.

Section OverDoH.

Variable unicodeLower : string -> string.
Variable UnpackS : list ascii -> option Dnsmessage.Message.
Variable AppendPack : Dnsmessage.Message -> option (list ascii).
Variable openFile : string -> option File.
Variable ttl : Z.
Variable fdir : string.
Variable UnpackC : list ascii -> result Dnsmessage.Message error.
Variable url : string.
(** A POST client that brings back the packet the handler writes. *)
Variable post : POSTClient.
Hypothesis Hpost :
  forall qb m p,
    AppendPack m = Some p ->
    written (handle unicodeLower UnpackS AppendPack openFile ttl fdir qb) = [p] ->
    post url qb = Ok p.

(** The handler at the end of a regular file. *)
Lemma serveFile_past_end msg q0 foff part1 data :
  openFile (Filepath.Join [fdir; Filepath.Clean part1])
  = Some (regularFile data) ->
  llenZ data <= foff ->
  llenZ data < 2 ^ 63 ->
  serveFile AppendPack openFile ttl fdir msg q0 foff part1
  = OpenFile (Filepath.Join [fdir; Filepath.Clean part1])
      :: sendEOF AppendPack msg.
Proof.
  intros HO Hoff Hlen. unfold serveFile. rewrite HO. f_equal.
  cbn [SeekEnd regularFile].
  pose proof (llenZ_nonneg data) as H0.
  assert (Hw : wrap64 (llenZ data) = llenZ data)
    by (unfold wrap64; apply Z.mod_small; lia).
  rewrite Hw, Z.geb_leb.
  assert (E : (llenZ data <=? foff) = true) by (apply Z.leb_le; lia).
  now rewrite E.
Qed.

(** One query of the transfer, from [dohQuery] to the handler and
    back. *)
Lemma dohQuery_relayed off name domain t data :
  0 <= off <= uint64_max ->
  validFilename name = true ->
  GoStrings.isASCII domain = true ->
  openFile (Filepath.Join [fdir; Filepath.Clean name])
  = Some (regularFile data) ->
  llenZ data < 2 ^ 63 ->
  exchanged UnpackS AppendPack UnpackC (queryName off name domain) t
    (serverReply ttl data off) ->
  exists q,
    queryType t = Some (Dnsmessage.qType q)
    /\ dohQuery UnpackC url post (queryName off name domain) t
       = if off <? llenZ data
         then Ok (recordStrings (filterType t)
                    (Dnsmessage.mkResource
                       (Dnsmessage.mkResourceHeader (Dnsmessage.qName q)
                          (Dnsmessage.qType q) (Dnsmessage.qClass q)
                          (ttl mod 2 ^ 32))
                       (bodyFor (Dnsmessage.qType q) data off)))
         else Err (Wrapf "parsing response: %w" []
                     (DNSError "name not found" (Dnsmessage.qName q) true)).
Proof.
  intros Hoff Hname Hdom HO Hlen (q & qb & p & Hr & Ha & Hu & Hp & Hc).
  destruct (rollQuestion_parts _ _ _ Hr) as (Hqn & Hqt & _).
  destruct (dotted_queryName off name domain Hdom) as (domain' & Hdot & Hd').
  rewrite Hdot in Hqn.
  assert (HP : parseQuery unicodeLower (Dnsmessage.qName q) = Some (off, name))
    by (rewrite Hqn; now apply parseQuery_queryName).
  exists q. split; [exact Hqt|].
  unfold dohQuery. rewrite Ha.
  unfold serverReply in Hp, Hc.
  destruct (off <? llenZ data) eqn:E.
  - apply Z.ltb_lt in E.
    rewrite (Hpost qb _ p Hp).
    + rewrite (ParseDoHAnswer_success UnpackC p t _ Hc eq_refl).
      cbn [Dnsmessage.mAnswers appendAnswer setUpHeader queryMessage app
           flat_map].
      now rewrite app_nil_r.
    + rewrite (handle_serves_chunk unicodeLower UnpackS AppendPack openFile ttl
                 fdir qb (queryMessage q) q [] off name data Hu eq_refl HP HO
                 ltac:(lia) Hlen).
      * unfold sendResponse. now rewrite Hp.
      * destruct (queryType_wire _ _ Hqt) as [-> | ->]; auto.
  - apply Z.ltb_ge in E.
    rewrite (Hpost qb _ p Hp).
    + unfold ParseDoHAnswer. rewrite Hc. reflexivity.
    + rewrite (handle_parsed unicodeLower UnpackS AppendPack openFile ttl fdir
                 qb (queryMessage q) q [] off name Hu eq_refl HP).
      rewrite (serveFile_past_end _ q off name data HO E Hlen).
      unfold sendEOF, sendResponse. now rewrite Hp.
Qed.

End OverDoH.

Section Relayed.

Variable unicodeLower : string -> string.
Variable UnpackS : list ascii -> option Dnsmessage.Message.
Variable AppendPack : Dnsmessage.Message -> option (list ascii).
Variable openFile : string -> option File.
Variable ttl : Z.
Variable fdir : string.
Variable UnpackC : list ascii -> result Dnsmessage.Message error.
Variable url : string.
Variable post : POSTClient.
Hypothesis Hpost :
  forall qb m p,
    AppendPack m = Some p ->
    written (handle unicodeLower UnpackS AppendPack openFile ttl fdir qb) = [p] ->
    post url qb = Ok p.

Variables (name domain : string) (data : list ascii).
Hypothesis Hname : validFilename name = true.
Hypothesis Hdomain : GoStrings.isASCII domain = true.
Hypothesis Hopen :
  openFile (Filepath.Join [fdir; Filepath.Clean name]) = Some (regularFile data).
Hypothesis Hlen : llenZ data < 2 ^ 63.

Let qr := DOHQuerier UnpackC url post.

(** What the querier answers for an offset, by type. *)
Lemma relayed_A off :
  0 <= off <= uint64_max ->
  exchanged UnpackS AppendPack UnpackC (queryName off name domain) TypeA
    (serverReply ttl data off) ->
  if off <? llenZ data
  then answers qr TypeA (queryName off name domain)
         (padded 3 (chunkAt data off 3))
  else exists e, query qr TypeA (queryName off name domain) = Some (Err e)
                 /\ asDNSError e = Some true.
Proof.
  intros Hoff Hex.
  destruct (dohQuery_relayed unicodeLower UnpackS AppendPack openFile ttl fdir
              UnpackC url post Hpost off name domain TypeA data Hoff Hname
              Hdomain Hopen Hlen Hex) as (q & Hqt & Hrun).
  injection Hqt as Hqt.
  change (query qr TypeA (queryName off name domain))
    with (Some (dohQuery UnpackC url post (queryName off name domain) TypeA)).
  unfold answers.
  change (query qr TypeA (queryName off name domain))
    with (Some (dohQuery UnpackC url post (queryName off name domain) TypeA)).
  rewrite Hrun.
  destruct (off <? llenZ data).
  - rewrite <- Hqt.
    exists (answerText (bodyFor Dnsmessage.TypeA data off)), [].
    split; [reflexivity|].
    apply (bodyFor_decodes data off (repeat Net.zeroByte MaxDecode)).
    now rewrite repeat_length.
  - eexists. split; reflexivity.
Qed.

Lemma relayed_TXT off :
  0 <= off <= uint64_max ->
  exchanged UnpackS AppendPack UnpackC (queryName off name domain) TypeTXT
    (serverReply ttl data off) ->
  if off <? llenZ data
  then answers qr TypeTXT (queryName off name domain)
         (chunkAt data off ansTXTMax)
  else exists e, query qr TypeTXT (queryName off name domain) = Some (Err e)
                 /\ asDNSError e = Some true.
Proof.
  intros Hoff Hex.
  destruct (dohQuery_relayed unicodeLower UnpackS AppendPack openFile ttl fdir
              UnpackC url post Hpost off name domain TypeTXT data Hoff Hname
              Hdomain Hopen Hlen Hex) as (q & Hqt & Hrun).
  injection Hqt as Hqt.
  unfold answers.
  change (query qr TypeTXT (queryName off name domain))
    with (Some (dohQuery UnpackC url post (queryName off name domain) TypeTXT)).
  rewrite Hrun.
  destruct (off <? llenZ data).
  - rewrite <- Hqt.
    exists (answerText (bodyFor Dnsmessage.TypeTXT data off)), [].
    split; [reflexivity|].
    apply (bodyFor_decodes data off (repeat Net.zeroByte MaxDecode)).
    now rewrite repeat_length.
  - eexists. split; reflexivity.
Qed.

End Relayed.

Lemma relayPost_relays handler url qb p :
  written (handler qb) = [p] -> relayPost handler url qb = Ok p.
Proof. intros H. unfold relayPost. now rewrite H. Qed.

(** The transfer of a file in chunks of 3 bytes, from any querier that
    answers the offsets inside the file with the padded chunk and the
    offsets from the end on with a not-found error. *)
Lemma get_A_chunks DefaultQuerier pipeWrite qr name domain data n fuel :
  3 * (Z.of_nat n - 1) < llenZ data <= 3 * Z.of_nat n ->
  llenZ data < 2 ^ 63 ->
  (forall i, (i <= n)%nat ->
             if 3 * Z.of_nat i <? llenZ data
             then answers qr TypeA (queryName (3 * Z.of_nat i) name domain)
                    (padded 3 (chunkAt data (3 * Z.of_nat i) 3))
             else exists e,
                 query qr TypeA (queryName (3 * Z.of_nat i) name domain)
                 = Some (Err e)
                 /\ asDNSError e = Some true) ->
  (forall w d, pipeWrite w d = None) ->
  (n < fuel)%nat ->
  let evs := chunkEvents TypeA name domain 0 3 0
               (map (fun i => padded 3 (chunkAt data (3 * Z.of_nat i) 3))
                  (seq 0 n))
               ++ [Query TypeA (queryName (3 * Z.of_nat n) name domain);
                   Close] in
  get DefaultQuerier pipeWrite fuel (newGetter TypeA name domain 0 0 qr)
  = Some evs
  /\ streamOf evs = data ++ repeat Net.zeroByte (3 * n - List.length data)
  /\ List.length (queriesOf evs) = S n.
Proof.
  intros Hn Hlen Hrel Hw Hfuel evs.
  set (ds := map (fun i => padded 3 (chunkAt data (3 * Z.of_nat i) 3))
               (seq 0 n)) in *.
  assert (Lds : List.length ds = n)
    by (unfold ds; now rewrite length_map, length_seq).
  assert (Elast : (3 * Z.of_nat n <? llenZ data) = false)
    by (apply Z.ltb_ge; lia).
  pose proof (Hrel n (le_n _)) as Hend.
  rewrite Elast in Hend. destruct Hend as (e & He & Hnf).
  split; [|split].
  - rewrite (get_chunks_query_error DefaultQuerier pipeWrite qr TypeA name
               domain 0 3 0 ds e fuel eq_refl (Z.le_refl 0)).
    + rewrite Lds, Hnf. reflexivity.
    + rewrite Lds. unfold offsetAt, uint64_max. lia.
    + now left.
    + intros j d Hj.
      assert (Hjn : (j < n)%nat)
        by (rewrite <- Lds; apply nth_error_Some; congruence).
      unfold ds in Hj. rewrite nth_error_map, nth_error_seq in Hj.
      destruct (Nat.ltb j n) eqn:Ej; [|apply Nat.ltb_ge in Ej; lia].
      cbn in Hj. injection Hj as <-.
      pose proof (Hrel j ltac:(lia)) as Hin.
      assert (Ein : (3 * Z.of_nat j <? llenZ data) = true)
        by (apply Z.ltb_lt; lia).
      rewrite Ein in Hin. exact Hin.
    + intros j d _. apply Hw.
    + rewrite Lds. exact He.
    + rewrite Lds. exact Hfuel.
  - unfold evs. rewrite streamOf_app, streamOf_chunkEvents.
    cbn [streamOf]. rewrite app_nil_r. unfold ds.
    apply (concat_padded_chunks 3 ltac:(lia) n data). lia.
  - unfold evs. rewrite queriesOf_app, queriesOf_chunkEvents, length_app,
      length_map, length_seq, Lds. cbn [queriesOf List.length]. lia.
Qed.

Section FileOverDoH.

Variable unicodeLower : string -> string.
Variable UnpackS : list ascii -> option Dnsmessage.Message.
Variable AppendPack : Dnsmessage.Message -> option (list ascii).
Variable openFile : string -> option File.
Variable ttl : Z.
Variable fdir : string.
Variable UnpackC : list ascii -> result Dnsmessage.Message error.
Variable url : string.
Variable DefaultQuerier : Querier.
Variable pipeWrite : Z -> list ascii -> option error.

Variables (name domain : string) (data : list ascii).
Hypothesis Hname : validFilename name = true.
Hypothesis Hdomain : GoStrings.isASCII domain = true.
Hypothesis Hopen :
  openFile (Filepath.Join [fdir; Filepath.Clean name]) = Some (regularFile data).
Hypothesis Hlen : llenZ data < 2 ^ 63.

Let post := relayPost (handle unicodeLower UnpackS AppendPack openFile ttl fdir).
Let qr := DOHQuerier UnpackC url post.

Let relayed_A' :=
  relayed_A unicodeLower UnpackS AppendPack openFile ttl fdir UnpackC url post
    (fun qb m p _ H => relayPost_relays _ url qb p H)
    name domain data Hname Hdomain Hopen Hlen.

Let relayed_TXT' :=
  relayed_TXT unicodeLower UnpackS AppendPack openFile ttl fdir UnpackC url post
    (fun qb m p _ H => relayPost_relays _ url qb p H)
    name domain data Hname Hdomain Hopen Hlen.

(** X25: a file fetched with TXT queries over DoH from the handler
    arrives as it is.  When the packets pass unharmed, [get] with
    [Max = 0] asks for the offsets 0, 160, 320, ... up to the first one
    at or past the end of the file, writes the chunks of the file and
    closes the pipe without an error: the reader receives exactly the
    bytes of the file. *)
Theorem get_TXT_over_DoH :
  forall n fuel,
    160 * (Z.of_nat n - 1) < llenZ data <= 160 * Z.of_nat n ->
    (forall i, (i <= n)%nat ->
               exchanged UnpackS AppendPack UnpackC
                 (queryName (160 * Z.of_nat i) name domain) TypeTXT
                 (serverReply ttl data (160 * Z.of_nat i))) ->
    (forall w d, pipeWrite w d = None) ->
    (n < fuel)%nat ->
    let evs := chunkEvents TypeTXT name domain 0 160 0
                 (map (fun i => chunkAt data (160 * Z.of_nat i) 160) (seq 0 n))
                 ++ [Query TypeTXT (queryName (160 * Z.of_nat n) name domain);
                     Close] in
    get DefaultQuerier pipeWrite fuel (newGetter TypeTXT name domain 0 0 qr)
    = Some evs
    /\ streamOf evs = data
    /\ List.length (queriesOf evs) = S n.
Proof.
  intros n fuel Hn Hex Hw Hfuel evs.
  set (ds := map (fun i => chunkAt data (160 * Z.of_nat i) 160) (seq 0 n))
    in *.
  assert (Lds : List.length ds = n) by (unfold ds; now rewrite length_map, length_seq).
  assert (Hrange : forall i, (i <= n)%nat -> 0 <= 160 * Z.of_nat i <= uint64_max)
    by (intros i Hi; unfold uint64_max; lia).
  assert (Elast : (160 * Z.of_nat n <? llenZ data) = false)
    by (apply Z.ltb_ge; lia).
  pose proof (relayed_TXT' (160 * Z.of_nat n) (Hrange n (le_n _)) (Hex n (le_n _)))
    as Hend.
  rewrite Elast in Hend. destruct Hend as (e & He & Hnf).
  split; [|split].
  - rewrite (get_chunks_query_error DefaultQuerier pipeWrite qr TypeTXT name
               domain 0 160 0 ds e fuel eq_refl (Z.le_refl 0)).
    + rewrite Lds, Hnf. reflexivity.
    + rewrite Lds. unfold offsetAt, uint64_max. lia.
    + now left.
    + intros j d Hj.
      assert (Hjn : (j < n)%nat)
        by (rewrite <- Lds; apply nth_error_Some; congruence).
      unfold ds in Hj. rewrite nth_error_map, nth_error_seq in Hj.
      destruct (Nat.ltb j n) eqn:Ej; [|apply Nat.ltb_ge in Ej; lia].
      cbn in Hj. injection Hj as <-.
      pose proof (relayed_TXT' (160 * Z.of_nat j) (Hrange j ltac:(lia))
                    (Hex j ltac:(lia))) as Hin.
      assert (Ein : (160 * Z.of_nat j <? llenZ data) = true)
        by (apply Z.ltb_lt; lia).
      rewrite Ein in Hin. exact Hin.
    + intros j d _. apply Hw.
    + rewrite Lds. exact He.
    + rewrite Lds. exact Hfuel.
  - unfold evs. rewrite streamOf_app, streamOf_chunkEvents.
    cbn [streamOf]. rewrite app_nil_r. unfold ds.
    apply (concat_chunks 160 ltac:(lia) n data). lia.
  - unfold evs. rewrite queriesOf_app, queriesOf_chunkEvents, length_app,
      length_map, length_seq, Lds. cbn [queriesOf List.length]. lia.
Qed.

(** X26: a file fetched with A queries over DoH from the handler arrives
    padded.  When the packets pass unharmed, [get] with [Max = 0] asks
    for the offsets 0, 3, 6, ... up to the first one at or past the end
    of the file and closes the pipe without an error; the reader
    receives the bytes of the file and then zero bytes up to the next
    multiple of 3, because the last record is filled up with zero bytes
    and nothing tells the client where the file ends. *)
Theorem get_A_over_DoH :
  forall n fuel,
    3 * (Z.of_nat n - 1) < llenZ data <= 3 * Z.of_nat n ->
    (forall i, (i <= n)%nat ->
               exchanged UnpackS AppendPack UnpackC
                 (queryName (3 * Z.of_nat i) name domain) TypeA
                 (serverReply ttl data (3 * Z.of_nat i))) ->
    (forall w d, pipeWrite w d = None) ->
    (n < fuel)%nat ->
    let evs := chunkEvents TypeA name domain 0 3 0
                 (map (fun i => padded 3 (chunkAt data (3 * Z.of_nat i) 3))
                    (seq 0 n))
                 ++ [Query TypeA (queryName (3 * Z.of_nat n) name domain);
                     Close] in
    get DefaultQuerier pipeWrite fuel (newGetter TypeA name domain 0 0 qr)
    = Some evs
    /\ streamOf evs
       = data ++ repeat Net.zeroByte (3 * n - List.length data)
    /\ List.length (queriesOf evs) = S n.
Proof.
  intros n fuel Hn Hex Hw Hfuel.
  apply (get_A_chunks DefaultQuerier pipeWrite qr name domain data n fuel Hn
           Hlen); [|exact Hw | exact Hfuel].
  intros i Hi. apply relayed_A'; [unfold uint64_max; lia | now apply Hex].
Qed.

(** X27: a file cannot be fetched with AAAA queries over DoH from the
    handler.  The question [AppendQuery] sends for type AAAA has type A,
    the handler answers it with an A record, and [ParseDoHAnswer] keeps
    AAAA records only: for a file that is not empty the first query
    comes back without records, and [get] ends with the error for an
    empty response before any byte is written. *)
Theorem get_AAAA_over_DoH :
  forall max fuel,
    0 < llenZ data ->
    exchanged UnpackS AppendPack UnpackC (queryName 0 name domain) TypeAAAA
      (serverReply ttl data 0) ->
    get DefaultQuerier pipeWrite (S fuel)
      (newGetter TypeAAAA name domain 0 max qr)
    = Some [Query TypeAAAA (queryName 0 name domain);
            CloseWithError
              (Errorf "empty response to query for %q"
                 [AStr (queryName 0 name domain)])].
Proof.
  intros max fuel Hpos Hex.
  destruct (dohQuery_relayed unicodeLower UnpackS AppendPack openFile ttl fdir
              UnpackC url post
              (fun qb m p _ H => relayPost_relays _ url qb p H)
              0 name domain TypeAAAA data
              ltac:(unfold uint64_max; lia) Hname Hdomain Hopen Hlen Hex)
    as (q & Hqt & Hrun).
  injection Hqt as Hqt.
  assert (E : (0 <? llenZ data) = true) by (apply Z.ltb_lt; lia).
  rewrite E in Hrun.
  unfold get.
  change (Querier_ (newGetter TypeAAAA name domain 0 max qr)) with (Some qr).
  change (Max (newGetter TypeAAAA name domain 0 max qr)) with max.
  cbv iota zeta.
  set (g0 := setQuerier (newGetter TypeAAAA name domain 0 max qr) qr).
  cbn [getLoop]. change (Max g0) with max. rewrite andb_negb_r.
  rewrite (NextName_supported g0 8 eq_refl).
  assert (Hno : nextOffset g0 = 0) by apply nextOffset_new.
  rewrite Hno.
  cbn [Type_ Name Domain setOff setQuerier newGetter g0].
  change (query qr TypeAAAA (queryName 0 name domain))
    with (Some (dohQuery UnpackC url post (queryName 0 name domain) TypeAAAA)).
  rewrite Hrun. unfold recordStrings.
  cbn [Dnsmessage.rHeader Dnsmessage.rhType]. rewrite <- Hqt.
  reflexivity.
Qed.

End FileOverDoH.

Lemma get_TXT_over_DoH_witness :
  let data := map Zbyte [1; 2; 3] in
  let UnpackS := unpackQueries TypeTXT ["0-f.example.com"; "4g-f.example.com"] in
  let UnpackC :=
    unpackReplies
      [serverReply 1800 data 0 (questionFor "0-f.example.com." Dnsmessage.TypeTXT);
       serverReply 1800 data 160
         (questionFor "4g-f.example.com." Dnsmessage.TypeTXT)] in
  let qr := DOHQuerier UnpackC "https://example.net/dns-query"
              (relayPost (handle (fun s => s) UnpackS toyPack
                            (oneFile "fserv/f" data) 1800 "fserv")) in
  let evs := chunkEvents TypeTXT "f" "example.com" 0 160 0
               (map (fun i => chunkAt data (160 * Z.of_nat i) 160) (seq 0 1))
               ++ [Query TypeTXT (queryName (160 * Z.of_nat 1) "f" "example.com");
                   Close] in
  get (constQuerier []) (fun _ _ => None) 2
    (newGetter TypeTXT "f" "example.com" 0 0 qr)
  = Some evs
  /\ streamOf evs = data
  /\ List.length (queriesOf evs) = 2%nat.
Proof.
  intros data UnpackS UnpackC qr evs.
  refine (get_TXT_over_DoH (fun s => s) UnpackS toyPack
            (oneFile "fserv/f" data) 1800 "fserv" UnpackC
            "https://example.net/dns-query" (constQuerier []) (fun _ _ => None)
            "f" "example.com" data eq_refl eq_refl eq_refl _ 1 2 _ _ _ _).
  - vm_compute. reflexivity.
  - vm_compute. split; [reflexivity | discriminate].
  - intros [|[|i]] Hi.
    + exists (questionFor "0-f.example.com." Dnsmessage.TypeTXT).
      eexists. eexists. repeat split; vm_compute; reflexivity.
    + exists (questionFor "4g-f.example.com." Dnsmessage.TypeTXT).
      eexists. eexists. repeat split; vm_compute; reflexivity.
    + lia.
  - reflexivity.
  - lia.
Defined.

Example get_TXT_over_DoH_run :
  let data := map Zbyte [1; 2; 3] in
  get (constQuerier []) (fun _ _ => None) 2
    (newGetter TypeTXT "f" "example.com" 0 0
       (DOHQuerier
          (unpackReplies
             [serverReply 1800 data 0
                (questionFor "0-f.example.com." Dnsmessage.TypeTXT);
              serverReply 1800 data 160
                (questionFor "4g-f.example.com." Dnsmessage.TypeTXT)])
          "https://example.net/dns-query"
          (relayPost
             (handle (fun s => s)
                (unpackQueries TypeTXT ["0-f.example.com"; "4g-f.example.com"])
                toyPack (oneFile "fserv/f" data) 1800 "fserv"))))
  = Some [Query TypeTXT "0-f.example.com"; Write (map Zbyte [1; 2; 3]);
          Query TypeTXT "4g-f.example.com"; Close].
Proof. vm_compute. reflexivity. Qed.

Lemma get_A_over_DoH_witness :
  let data := map Zbyte [1; 2; 3; 4] in
  let UnpackS :=
    unpackQueries TypeA
      ["0-f.example.com"; "3-f.example.com"; "6-f.example.com"] in
  let UnpackC :=
    unpackReplies
      [serverReply 1800 data 0 (questionFor "0-f.example.com." Dnsmessage.TypeA);
       serverReply 1800 data 3 (questionFor "3-f.example.com." Dnsmessage.TypeA);
       serverReply 1800 data 6 (questionFor "6-f.example.com." Dnsmessage.TypeA)] in
  let qr := DOHQuerier UnpackC "https://example.net/dns-query"
              (relayPost (handle (fun s => s) UnpackS toyPack
                            (oneFile "fserv/f" data) 1800 "fserv")) in
  let evs := chunkEvents TypeA "f" "example.com" 0 3 0
               (map (fun i => padded 3 (chunkAt data (3 * Z.of_nat i) 3))
                  (seq 0 2))
               ++ [Query TypeA (queryName (3 * Z.of_nat 2) "f" "example.com");
                   Close] in
  get (constQuerier []) (fun _ _ => None) 3
    (newGetter TypeA "f" "example.com" 0 0 qr)
  = Some evs
  /\ streamOf evs = data ++ repeat Net.zeroByte (3 * 2 - List.length data)
  /\ List.length (queriesOf evs) = 3%nat.
Proof.
  intros data UnpackS UnpackC qr evs.
  refine (get_A_over_DoH (fun s => s) UnpackS toyPack
            (oneFile "fserv/f" data) 1800 "fserv" UnpackC
            "https://example.net/dns-query" (constQuerier []) (fun _ _ => None)
            "f" "example.com" data eq_refl eq_refl eq_refl _ 2 3 _ _ _ _).
  - vm_compute. reflexivity.
  - vm_compute. split; [reflexivity | discriminate].
  - intros [|[|[|i]]] Hi.
    + exists (questionFor "0-f.example.com." Dnsmessage.TypeA).
      eexists. eexists. repeat split; vm_compute; reflexivity.
    + exists (questionFor "3-f.example.com." Dnsmessage.TypeA).
      eexists. eexists. repeat split; vm_compute; reflexivity.
    + exists (questionFor "6-f.example.com." Dnsmessage.TypeA).
      eexists. eexists. repeat split; vm_compute; reflexivity.
    + lia.
  - reflexivity.
  - lia.
Defined.

Example get_A_over_DoH_run :
  let data := map Zbyte [1; 2; 3; 4] in
  get (constQuerier []) (fun _ _ => None) 3
    (newGetter TypeA "f" "example.com" 0 0
       (DOHQuerier
          (unpackReplies
             [serverReply 1800 data 0
                (questionFor "0-f.example.com." Dnsmessage.TypeA);
              serverReply 1800 data 3
                (questionFor "3-f.example.com." Dnsmessage.TypeA);
              serverReply 1800 data 6
                (questionFor "6-f.example.com." Dnsmessage.TypeA)])
          "https://example.net/dns-query"
          (relayPost
             (handle (fun s => s)
                (unpackQueries TypeA
                   ["0-f.example.com"; "3-f.example.com"; "6-f.example.com"])
                toyPack (oneFile "fserv/f" data) 1800 "fserv"))))
  = Some [Query TypeA "0-f.example.com"; Write (map Zbyte [1; 2; 3]);
          Query TypeA "3-f.example.com"; Write (map Zbyte [4; 0; 0]);
          Query TypeA "6-f.example.com"; Close].
Proof. vm_compute. reflexivity. Qed.

Lemma get_AAAA_over_DoH_witness :
  let data := map Zbyte [1; 2; 3; 4] in
  let UnpackS := unpackQueries TypeAAAA ["0-f.example.com"] in
  let UnpackC :=
    unpackReplies
      [serverReply 1800 data 0
         (questionFor "0-f.example.com." Dnsmessage.TypeA)] in
  let qr := DOHQuerier UnpackC "https://example.net/dns-query"
              (relayPost (handle (fun s => s) UnpackS toyPack
                            (oneFile "fserv/f" data) 1800 "fserv")) in
  get (constQuerier []) (fun _ _ => None) 1
    (newGetter TypeAAAA "f" "example.com" 0 0 qr)
  = Some [Query TypeAAAA (queryName 0 "f" "example.com");
          CloseWithError
            (Errorf "empty response to query for %q"
               [AStr (queryName 0 "f" "example.com")])].
Proof.
  intros data UnpackS UnpackC qr.
  refine (get_AAAA_over_DoH (fun s => s) UnpackS toyPack
            (oneFile "fserv/f" data) 1800 "fserv" UnpackC
            "https://example.net/dns-query" (constQuerier []) (fun _ _ => None)
            "f" "example.com" data eq_refl eq_refl eq_refl _ 0 0 _ _).
  - vm_compute. reflexivity.
  - vm_compute. reflexivity.
  - exists (questionFor "0-f.example.com." Dnsmessage.TypeA).
    eexists. eexists. repeat split; vm_compute; reflexivity.
Defined.

(** ** The buffer pool *)

Module BufPool_facts.
Import BufPool.

Lemma Get_sized choice pool b pool' :
  Forall sized pool ->
  Get choice pool = (b, pool') ->
  sized b /\ Forall sized pool'.
Proof.
  intros Hp. unfold Get.
  destruct choice as [i|]; [destruct (nth_error pool i) as [x|] eqn:E|];
    intros [= <- <-].
  - split.
    + rewrite Forall_forall in Hp. apply Hp. eapply nth_error_In; eauto.
    + apply Forall_app. split.
      * rewrite <- (firstn_skipn i pool) in Hp.
        now apply Forall_app in Hp as [H _].
      * rewrite <- (firstn_skipn (S i) pool) in Hp.
        now apply Forall_app in Hp as [_ H].
  - split; [split; reflexivity | exact Hp].
  - split; [split; reflexivity | exact Hp].
Qed.

(** X28: the pool keeps buffers of one size.  When every buffer in the
    pool has length and capacity [MaxPOSTBody], [putBuf] leaves it so
    whatever buffer it is given (one of another capacity is not put),
    and [getBuf] returns, after one call of [Get] and whatever [Get]
    chooses, a buffer of length and capacity [MaxPOSTBody] and leaves
    the pool so too; neither panics. *)
Theorem bufPool_one_size :
  forall pool,
    Forall sized pool ->
    (forall b, exists pool',
        putBuf b pool = Done pool' /\ Forall sized pool')
    /\ (forall c rest, exists b pool',
           getBuf (c :: rest) pool = Done (b, pool')
           /\ sized b /\ Forall sized pool').
Proof.
  intros pool Hp. split.
  - intros b. unfold putBuf.
    destruct (MaxPOSTBody =? cap_ b) eqn:E; cbn [negb]; [|eauto].
    apply Z.eqb_eq in E. unfold reslice. rewrite <- E, Z.leb_refl.
    eexists. split; [reflexivity|].
    constructor; [split; cbn; congruence | exact Hp].
  - intros c rest. unfold getBuf. cbn [getBufLoop cap_].
    change (MaxPOSTBody >? 0) with true. cbv iota.
    destruct (Get c pool) as [b pool'] eqn:EG.
    destruct (Get_sized c pool b pool' Hp EG) as [[Hl Hc] Hp'].
    exists (mkBuf MaxPOSTBody (cap_ b)), pool'.
    destruct rest as [|c' rest'];
      cbn [getBufLoop]; rewrite Hc;
      change (MaxPOSTBody >? MaxPOSTBody) with false; cbv iota;
      unfold reslice; rewrite Hc;
      change (MaxPOSTBody <=? MaxPOSTBody) with true; cbv iota;
      (split; [reflexivity | split; [split; reflexivity | exact Hp']]).
Qed.

Lemma bufPool_one_size_witness :
  (forall b, exists pool',
      putBuf b [New] = Done pool' /\ Forall sized pool')
  /\ (forall c rest, exists b pool',
         getBuf (c :: rest) [New] = Done (b, pool')
         /\ sized b /\ Forall sized pool').
Proof.
  apply (bufPool_one_size [New]).
  repeat constructor.
Defined.

End BufPool_facts.

(** ** The address of the domain-fronting client *)

Module NetAddr_facts.
Import NetAddr.

Lemma indexByte_none s c :
  GoStrings.allBytes (fun a => negb (Ascii.eqb a c)) s = true ->
  indexByte s c = None.
Proof.
  induction s as [|a s IH]; [reflexivity|]. cbn [GoStrings.allBytes indexByte].
  intros H. apply andb_true_iff in H as [H1 H2].
  apply negb_true_iff in H1. now rewrite H1, IH.
Qed.

Lemma last_none s c :
  GoStrings.allBytes (fun a => negb (Ascii.eqb a c)) s = true ->
  last s c = None.
Proof.
  induction s as [|a s IH]; [reflexivity|]. cbn [GoStrings.allBytes last].
  intros H. apply andb_true_iff in H as [H1 H2].
  apply negb_true_iff in H1. now rewrite H1, IH.
Qed.

Lemma last_append s t c :
  GoStrings.allBytes (fun a => negb (Ascii.eqb a c)) t = true ->
  last (s ++ String c t) c = Some (String.length s).
Proof.
  intros Ht. induction s as [|a s IH].
  - cbn [append last]. now rewrite (last_none t c Ht), Ascii.eqb_refl.
  - cbn [append last String.length]. now rewrite IH.
Qed.

Lemma take_append s t : take (String.length s) (s ++ t) = s.
Proof. induction s as [|a s IH]; [now destruct t|]. simpl. now rewrite IH. Qed.

Lemma plain_parts s :
  plainText s = true ->
  GoStrings.allBytes (fun a => negb (Ascii.eqb a ":")) s = true
  /\ GoStrings.allBytes (fun a => negb (Ascii.eqb a "[")) s = true
  /\ GoStrings.allBytes (fun a => negb (Ascii.eqb a "]")) s = true.
Proof.
  unfold plainText. intros H. repeat split;
    (eapply allBytes_impl; [|exact H]); intros c Hc;
    apply andb_true_iff in Hc as [Hc H3];
    apply andb_true_iff in Hc as [H1 H2]; assumption.
Qed.

Lemma has_none s c :
  GoStrings.allBytes (fun a => negb (Ascii.eqb a c)) s = true ->
  has s c = false.
Proof. intros H. unfold has. now rewrite indexByte_none. Qed.

Lemma SplitHostPort_plain host port :
  plainText host = true ->
  plainText port = true ->
  SplitHostPort (host ++ String ":" port) = Ok (host, port).
Proof.
  intros Hh Hp.
  destruct (plain_parts host Hh) as (Hh1 & Hh2 & Hh3).
  destruct (plain_parts port Hp) as (Hp1 & Hp2 & Hp3).
  unfold SplitHostPort. rewrite (last_append host port ":" Hp1).
  assert (Hs : Net.startsWith "[" (host ++ String ":" port) = false).
  { destruct host as [|a host]; [reflexivity|].
    cbn [append Net.startsWith]. cbn [GoStrings.allBytes] in Hh2.
    apply andb_true_iff in Hh2 as [H _]. now apply negb_true_iff in H. }
  rewrite Hs, take_append, (has_none host ":" Hh1).
  cbn [drop].
  assert (Ho : has (host ++ String ":" port) "[" = false).
  { apply has_none. rewrite allBytes_append, Hh2.
    cbn [GoStrings.allBytes]. now rewrite Hp2. }
  assert (Hc : has (host ++ String ":" port) "]" = false).
  { apply has_none. rewrite allBytes_append, Hh3.
    cbn [GoStrings.allBytes]. now rewrite Hp3. }
  rewrite Ho, Hc. repeat f_equal.
  replace (String.length host + 1)%nat with (String.length (host ++ ":"))
    by (rewrite length_append; reflexivity).
  replace (host ++ String ":" port)%string with ((host ++ ":") ++ port)%string
    by (now rewrite append_assoc).
  apply drop_append.
Qed.

End NetAddr_facts.

(** X29: the domain-fronting client connects to the SNI with a port: an
    SNI without colon and square brackets is given the port 443, and an
    SNI of the form [host:port], with host and port free of colons and
    square brackets and a port that is not empty, is used as it is. *)
Theorem BuiltinDFPOST_dial_address :
  forall host port,
    plainText host = true ->
    plainText port = true ->
    DohClients.dialAddress host = (host ++ ":443")%string
    /\ (port <> "" ->
        DohClients.dialAddress (host ++ ":" ++ port) = (host ++ ":" ++ port)%string).
Proof.
  intros host port Hh Hp. split.
  - destruct (NetAddr_facts.plain_parts host Hh) as (Hh1 & _ & _).
    unfold DohClients.dialAddress, NetAddr.SplitHostPort.
    rewrite (NetAddr_facts.last_none host ":" Hh1).
    unfold NetAddr.JoinHostPort.
    now rewrite (NetAddr_facts.has_none host ":" Hh1).
  - intros Hne. unfold DohClients.dialAddress.
    change (host ++ ":" ++ port)%string with (host ++ String ":" port)%string.
    rewrite (NetAddr_facts.SplitHostPort_plain host port Hh Hp).
    destruct (String.eqb port "") eqn:E; [|reflexivity].
    apply String.eqb_eq in E. contradiction.
Qed.

Lemma BuiltinDFPOST_dial_address_witness :
  DohClients.dialAddress "example.org" = "example.org:443"
  /\ ("8443" <> "" ->
      DohClients.dialAddress ("example.org" ++ ":" ++ "8443")
      = ("example.org" ++ ":" ++ "8443")%string).
Proof.
  apply (BuiltinDFPOST_dial_address "example.org" "8443"); reflexivity.
Defined.

(** The model of [SplitHostPort] on examples of the library's tests,
    and the addresses for an SNI that is an IPv6 address. *)
Example SplitHostPort_table :
  NetAddr.SplitHostPort "localhost:http" = Ok ("localhost", "http")
  /\ NetAddr.SplitHostPort "127.0.0.1:0" = Ok ("127.0.0.1", "0")
  /\ NetAddr.SplitHostPort "[::1]:80" = Ok ("::1", "80")
  /\ NetAddr.SplitHostPort "[::1%lo0]:80" = Ok ("::1%lo0", "80")
  /\ NetAddr.SplitHostPort ":80" = Ok ("", "80")
  /\ NetAddr.SplitHostPort "golang.org:" = Ok ("golang.org", "")
  /\ NetAddr.SplitHostPort "golang.org" = Err NetAddr.missingPort
  /\ NetAddr.SplitHostPort "127.0.0.1" = Err NetAddr.missingPort
  /\ NetAddr.SplitHostPort "[::1]" = Err NetAddr.missingPort
  /\ NetAddr.SplitHostPort "::1" = Err NetAddr.tooManyColons
  /\ NetAddr.SplitHostPort "[::1" = Err "missing ']' in address"
  /\ NetAddr.SplitHostPort "[foo:bar]baz" = Err NetAddr.missingPort
  /\ NetAddr.SplitHostPort "[foo]bar:baz" = Err NetAddr.missingPort
  /\ NetAddr.SplitHostPort "[foo]:[bar]:baz" = Err NetAddr.tooManyColons
  /\ NetAddr.SplitHostPort "[foo]:[bar]baz" = Err "unexpected '[' in address"
  /\ NetAddr.SplitHostPort "foo[bar]:baz" = Err "unexpected '[' in address"
  /\ NetAddr.SplitHostPort "foo]bar:baz" = Err "unexpected ']' in address".
Proof. repeat split; vm_compute; reflexivity. Qed.

Example dialAddress_table :
  DohClients.dialAddress "2001:db8::1" = "[2001:db8::1]:443"
  /\ DohClients.dialAddress "[2001:db8::1]:8443" = "[2001:db8::1]:8443"
  /\ DohClients.dialAddress "[2001:db8::1]" = "[[2001:db8::1]]:443"
  /\ DohClients.dialAddress "example.org:" = "[example.org:]:443".
Proof. repeat split; vm_compute; reflexivity. Qed.

(** ** The stager *)

Lemma ReadAll_chunkEvents t name domain start a i ds tail :
  Dnsfservstager.ReadAll (chunkEvents t name domain start a i ds ++ tail)
  = match Dnsfservstager.ReadAll tail with
    | Some (b, err) => Some (List.concat ds ++ b, err)
    | None => None
    end.
Proof.
  revert i. induction ds as [|d ds IH]; intros i.
  - cbn [chunkEvents app List.concat].
    now destruct (Dnsfservstager.ReadAll tail) as [[b err]|].
  - cbn [chunkEvents app Dnsfservstager.ReadAll List.concat]. rewrite IH.
    destruct (Dnsfservstager.ReadAll tail) as [[b err]|]; [|reflexivity].
    now rewrite app_assoc.
Qed.

(** The client made by [WrapPOST] over [relayHTTP] brings back the
    packet of the handler when it is not empty and not too long. *)
Lemma WrapPOST_relayHTTP handler url qb p :
  written (handler qb) = [p] ->
  0 < llenZ p <= MaxPOSTBody ->
  WrapPOST (relayHTTP handler) url qb = Ok p.
Proof.
  intros Hw Hp. unfold WrapPOST, relayHTTP. rewrite Hw.
  cbn [StatusCode bodyData bodyEnd].
  change ((200 <? 200) || (200 >? 200)) with false. cbv iota.
  unfold ReadFull.
  destruct (MaxPOSTBody <=? llenZ p) eqn:E.
  - apply Z.leb_le in E. f_equal. apply firstn_all2. unfold llenZ in *. lia.
  - destruct p as [|c p']; [unfold llenZ in Hp; cbn in Hp; lia|].
    reflexivity.
Qed.

Section Stager.

Variable unicodeLower : string -> string.
Variable UnpackS : list ascii -> option Dnsmessage.Message.
Variable AppendPack : Dnsmessage.Message -> option (list ascii).
Variable openFile : string -> option File.
Variable ttl : Z.
Variable fdir : string.
Variable UnpackC : list ascii -> result Dnsmessage.Message error.
Variable DefaultQuerier : Querier.
Variable postVia : string -> string -> string -> list ascii
                   -> result Response error.
Variable Eval : list ascii -> option error.

(** X30: the stager runs the file padded.  Built with a DoH URL and no
    SNI, with a file name and a domain that are not empty, and with an
    HTTP server that hands the queries to the handler and its packets
    (not empty, at most [MaxPOSTBody] bytes) back unharmed, [main]
    fetches the file with A queries and hands to the interpreter the
    bytes of the file followed by zero bytes up to the next multiple of
    3; it ends with the interpreter's error, if there is one. *)
Theorem stager_runs_padded_file :
  forall dohURL domain fname data n fuel,
    fname <> "" ->
    domain <> "" ->
    dohURL <> "" ->
    validFilename fname = true ->
    GoStrings.isASCII domain = true ->
    openFile (Filepath.Join [fdir; Filepath.Clean fname])
    = Some (regularFile data) ->
    llenZ data < 2 ^ 63 ->
    3 * (Z.of_nat n - 1) < llenZ data <= 3 * Z.of_nat n ->
    (forall m p, AppendPack m = Some p -> 0 < llenZ p <= MaxPOSTBody) ->
    (forall i, (i <= n)%nat ->
               exchanged UnpackS AppendPack UnpackC
                 (queryName (3 * Z.of_nat i) fname domain) TypeA
                 (serverReply ttl data (3 * Z.of_nat i))) ->
    (n < fuel)%nat ->
    let src := data ++ repeat Net.zeroByte (3 * n - List.length data) in
    Dnsfservstager.main dohURL "" domain fname DefaultQuerier
      (relayHTTP (handle unicodeLower UnpackS AppendPack openFile ttl fdir))
      postVia UnpackC Eval fuel
    = Some match Eval src with
           | Some err => Dnsfservstager.Fatalf "Eval: %s" err
           | None => Dnsfservstager.Ran src
           end.
Proof.
  intros dohURL domain fname data n fuel Hf Hd Hu Hname Hdom Hopen Hlen Hn
    Hsize Hex Hfuel src.
  unfold Dnsfservstager.main.
  assert (Ef : String.eqb "" fname = false)
    by (apply String.eqb_neq; congruence).
  assert (Ed : String.eqb "" domain = false)
    by (apply String.eqb_neq; congruence).
  assert (Eu : String.eqb "" dohURL = false)
    by (apply String.eqb_neq; congruence).
  rewrite Ef, Ed, Eu. change (String.eqb "" "") with true.
  cbn [negb]. cbv zeta.
  set (post := WrapPOST (relayHTTP (handle unicodeLower UnpackS AppendPack
                                      openFile ttl fdir))).
  change (setQuerier (mkGetter TypeA fname domain 0 0 None 0)
            (DohClients.DOHQuerier
               (relayHTTP (handle unicodeLower UnpackS AppendPack openFile
                             ttl fdir))
               UnpackC (DohClients.mkDOHConfig dohURL None)))
    with (newGetter TypeA fname domain 0 0 (DOHQuerier UnpackC dohURL post)).
  assert (Hpost : forall qb m p,
             AppendPack m = Some p ->
             written (handle unicodeLower UnpackS AppendPack openFile ttl fdir qb)
             = [p] ->
             post dohURL qb = Ok p).
  { intros qb m p Hp Hw. apply WrapPOST_relayHTTP; [exact Hw|].
    now apply (Hsize m). }
  destruct (get_A_chunks DefaultQuerier (fun _ _ => None)
              (DOHQuerier UnpackC dohURL post) fname domain data n fuel Hn Hlen)
    as (Hget & Hstream & _).
  - intros i Hi.
    apply (relayed_A unicodeLower UnpackS AppendPack openFile ttl fdir UnpackC
             dohURL post Hpost fname domain data Hname Hdom Hopen Hlen);
      [unfold uint64_max; lia | now apply Hex].
  - reflexivity.
  - exact Hfuel.
  - rewrite Hget, ReadAll_chunkEvents.
    cbn [Dnsfservstager.ReadAll].
    rewrite streamOf_app, streamOf_chunkEvents in Hstream.
    cbn [streamOf] in Hstream. rewrite Hstream. fold src.
    now destruct (Eval src).
Qed.

End Stager.

(** The packets of the codec of the examples have 1 to 256 bytes. *)
Lemma toyPack_size m p :
  toyPack m = Some p -> 0 < llenZ p <= MaxPOSTBody.
Proof.
  unfold toyPack. remember (firstn 255 _) as l eqn:El.
  intros H. assert (Hp : p = l ++ [Zbyte (Dnsmessage.hRCode (Dnsmessage.mHeader m))])
    by congruence.
  assert (Hl : (List.length l <= 255)%nat)
    by (rewrite El, length_firstn; lia).
  rewrite Hp. unfold llenZ, MaxPOSTBody. rewrite length_app.
  cbn [List.length]. lia.
Qed.

Lemma stager_runs_padded_file_witness :
  let data := map Zbyte [1; 2; 3; 4] in
  let UnpackS :=
    unpackQueries TypeA
      ["0-f.example.com"; "3-f.example.com"; "6-f.example.com"] in
  let UnpackC :=
    unpackReplies
      [serverReply 1800 data 0 (questionFor "0-f.example.com." Dnsmessage.TypeA);
       serverReply 1800 data 3 (questionFor "3-f.example.com." Dnsmessage.TypeA);
       serverReply 1800 data 6 (questionFor "6-f.example.com." Dnsmessage.TypeA)] in
  let src := data ++ repeat Net.zeroByte (3 * 2 - List.length data) in
  Dnsfservstager.main "https://example.net/dns-query" "" "example.com" "f"
    (constQuerier [])
    (relayHTTP (handle (fun s => s) UnpackS toyPack (oneFile "fserv/f" data)
                  1800 "fserv"))
    (fun _ _ _ _ => Err (OtherError "unused")) UnpackC (fun _ => None) 3
  = Some match (fun _ : list ascii => @None error) src with
         | Some err => Dnsfservstager.Fatalf "Eval: %s" err
         | None => Dnsfservstager.Ran src
         end.
Proof.
  intros data UnpackS UnpackC src.
  refine (stager_runs_padded_file (fun s => s) UnpackS toyPack
            (oneFile "fserv/f" data) 1800 "fserv" UnpackC (constQuerier [])
            (fun _ _ _ _ => Err (OtherError "unused")) (fun _ => None)
            "https://example.net/dns-query" "example.com" "f" data 2 3
            _ _ _ eq_refl eq_refl eq_refl _ _ _ _ _).
  - discriminate.
  - discriminate.
  - discriminate.
  - vm_compute. reflexivity.
  - vm_compute. split; [reflexivity | discriminate].
  - exact toyPack_size.
  - intros [|[|[|i]]] Hi.
    + exists (questionFor "0-f.example.com." Dnsmessage.TypeA).
      eexists. eexists. repeat split; vm_compute; reflexivity.
    + exists (questionFor "3-f.example.com." Dnsmessage.TypeA).
      eexists. eexists. repeat split; vm_compute; reflexivity.
    + exists (questionFor "6-f.example.com." Dnsmessage.TypeA).
      eexists. eexists. repeat split; vm_compute; reflexivity.
    + lia.
  - lia.
Defined.

Example stager_run :
  let data := map Zbyte [1; 2; 3; 4] in
  Dnsfservstager.main "https://example.net/dns-query" "" "example.com" "f"
    (constQuerier [])
    (relayHTTP
       (handle (fun s => s)
          (unpackQueries TypeA
             ["0-f.example.com"; "3-f.example.com"; "6-f.example.com"])
          toyPack (oneFile "fserv/f" data) 1800 "fserv"))
    (fun _ _ _ _ => Err (OtherError "unused"))
    (unpackReplies
       [serverReply 1800 data 0 (questionFor "0-f.example.com." Dnsmessage.TypeA);
        serverReply 1800 data 3 (questionFor "3-f.example.com." Dnsmessage.TypeA);
        serverReply 1800 data 6 (questionFor "6-f.example.com." Dnsmessage.TypeA)])
    (fun _ => None) 3
  = Some (Dnsfservstager.Ran (map Zbyte [1; 2; 3; 4; 0; 0])).
Proof. vm_compute. reflexivity. Qed.

(** Without a file name or a domain the stager panics at once. *)
Example stager_panics :
  forall dq hp pv up ev fuel,
    Dnsfservstager.main "" "" "example.com" "" dq hp pv up ev fuel
    = Some (Dnsfservstager.Panicked "missing filename")
    /\ Dnsfservstager.main "" "" "" "f" dq hp pv up ev fuel
       = Some (Dnsfservstager.Panicked "missing domain").
Proof. intros. split; reflexivity. Qed.

(** ** A response with status 200, a file that cannot be measured *)

(** X21: with status 200, a body that is not empty and ends with
    [io.EOF] comes back cut to [MaxPOSTBody] bytes, without an error
    when it was longer; an empty body is an error, because [io.ReadFull]
    reports the reader's own error (a plain [io.EOF], say) when it read
    nothing. *)
Theorem WrapPOST_status_200 :
  forall post URL reqBody res,
    post URL "" reqBody = Ok res ->
    StatusCode res = 200 ->
    (bodyData res <> [] ->
     bodyEnd res = ioEOF ->
     WrapPOST post URL reqBody
     = Ok (firstn (Z.to_nat MaxPOSTBody) (bodyData res)))
    /\ (bodyData res = [] ->
        isUnexpectedEOF (bodyEnd res) = false ->
        WrapPOST post URL reqBody
        = Err (Wrapf "reading response body: %w" [] (bodyEnd res))).
Proof.
  intros post URL reqBody res Hp Hs. split.
  - intros Hne He. rewrite (WrapPOST_200 post URL reqBody res Hp Hs He).
    destruct (bodyData res); [now elim Hne | reflexivity].
  - intros Hb He. unfold WrapPOST. rewrite Hp, Hs, Hb.
    change ((200 <? 200) || (200 >? 200)) with false. cbv iota.
    unfold ReadFull. change (MaxPOSTBody <=? llenZ []) with false. cbv iota.
    rewrite He. reflexivity.
Qed.

Lemma WrapPOST_status_200_witness :
  WrapPOST (postAnswering 200 "200 OK" (list_ascii_of_string "x"))
    "https://example.net/dns-query" []
  = Ok (firstn (Z.to_nat MaxPOSTBody) (list_ascii_of_string "x"))
  /\ WrapPOST (postAnswering 200 "200 OK" []) "https://example.net/dns-query" []
     = Err (Wrapf "reading response body: %w" [] ioEOF).
Proof.
  split.
  - apply (proj1 (WrapPOST_status_200
                    (postAnswering 200 "200 OK" (list_ascii_of_string "x"))
                    "https://example.net/dns-query" []
                    (mkResponse 200 "200 OK" (list_ascii_of_string "x") ioEOF)
                    eq_refl eq_refl));
      [discriminate | reflexivity].
  - apply (proj2 (WrapPOST_status_200 (postAnswering 200 "200 OK" [])
                    "https://example.net/dns-query" []
                    (mkResponse 200 "200 OK" [] ioEOF) eq_refl eq_refl));
      reflexivity.
Defined.

Section Unmeasured.

Variable unicodeLower : string -> string.
Variable Unpack : list ascii -> option Dnsmessage.Message.
Variable AppendPack : Dnsmessage.Message -> option (list ascii).
Variable openFile : string -> option File.
Variable ttl : Z.
Variable fdir : string.

(** X19: when the [Seek] that measures the file fails, the handler logs
    it and goes on with a length of 0: for a request as [NextName] rolls
    it, whatever its offset and whatever the file holds, the name error
    is sent. *)
Theorem handle_unmeasured_file :
  forall pkt msg q0 qs off name domain f e,
    Unpack pkt = Some msg ->
    Dnsmessage.mQuestions msg = q0 :: qs ->
    Dnsmessage.qName q0 = queryName off name domain ->
    0 <= off <= uint64_max ->
    validFilename name = true ->
    GoStrings.isASCII domain = true ->
    openFile (Filepath.Join [fdir; Filepath.Clean name]) = Some f ->
    SeekEnd f = Err e ->
    handle unicodeLower Unpack AppendPack openFile ttl fdir pkt
    = OpenFile (Filepath.Join [fdir; Filepath.Clean name])
        :: sendResponse AppendPack
             (setRCode Dnsmessage.RCodeNameError (setUpHeader msg)).
Proof.
  intros pkt msg q0 qs off name domain f e HU HQ Hn Hoff Hname Hdom HO HS.
  apply (handle_seek_error unicodeLower Unpack AppendPack openFile ttl fdir
           pkt msg q0 qs off name f e HU HQ); try assumption; [|lia].
  rewrite Hn. now apply parseQuery_queryName.
Qed.

End Unmeasured.

Lemma handle_unmeasured_file_witness :
  handle (fun s => s) (fun _ => Some (queryFor "0-f.example.com." Dnsmessage.TypeA))
    (fun _ => Some (list_ascii_of_string "packed"))
    (fun _ => Some (mkFile (Err IOFailure) (fun _ => None)
                      (fun _ _ => (map Zbyte [1; 2; 3], None))))
    1800 "fserv" []
  = OpenFile "fserv/f"
      :: sendResponse (fun _ => Some (list_ascii_of_string "packed"))
           (setRCode Dnsmessage.RCodeNameError
              (setUpHeader (queryFor "0-f.example.com." Dnsmessage.TypeA))).
Proof.
  apply (handle_unmeasured_file (fun s => s)
           (fun _ => Some (queryFor "0-f.example.com." Dnsmessage.TypeA))
           (fun _ => Some (list_ascii_of_string "packed"))
           (fun _ => Some (mkFile (Err IOFailure) (fun _ => None)
                             (fun _ _ => (map Zbyte [1; 2; 3], None))))
           1800 "fserv" []
           (queryFor "0-f.example.com." Dnsmessage.TypeA)
           (Dnsmessage.mkQuestion "0-f.example.com." Dnsmessage.TypeA
              Dnsmessage.ClassINET)
           [] 0 "f" "example.com."
           (mkFile (Err IOFailure) (fun _ => None)
              (fun _ _ => (map Zbyte [1; 2; 3], None)))
           IOFailure);
    try reflexivity.
  unfold uint64_max. lia.
Defined.
